(** * flopy.modflow.mf: the Modflow model class

    A shallow embedding of [flopy/modflow/mf.py]: the [Modflow] constructor,
    the external-unit allocator, the grid-shape accessors, the name-file
    writer and the [Modflow.load] orchestrator, followed by the properties
    proved about them.

    Conventions of the embedding.
    - Python [int] is unbounded: [Z].
    - Python [str] is [string]; [lower]/[upper] act on the ASCII letters.
    - An exception is a value of [exn]; code that may raise returns a
      [result].  [is_Exception] tells the subclasses of [Exception] from the
      other [BaseException]s, which [except Exception] lets through.
    - A [Modflow] object is a record; methods that mutate it return the
      updated record.  The per-instance dictionary [mfnam_packages] is a
      reference into a store of dictionaries, so that two instances can be
      asked whether they share one.
    - [ext_unit_dict] is an association list in the dictionary's iteration
      order; its keys are unique.  A collaborator that is handed the
      dictionary is handed the object itself: it returns the dictionary
      as it leaves it, together with the model as it leaves it.
    - [for key, item in d.items()] is the Python 3 loop: it reads the
      live dictionary entry by entry and raises [RuntimeError] when the
      number of entries has changed since the loop began.
    - Messages written to [sys.stdout] under [verbose] are not modelled. *)

From Stdlib Require Import ZArith String Ascii List DecimalString Lia Bool Sorted.
From stdpp Require Import base strings gmap list.
Import ListNotations.
Open Scope string_scope.

(** ** Strings *)

Module PyStr.

Definition is_upper_ascii (c : ascii) : bool :=
  let n := nat_of_ascii c in Nat.leb 65 n && Nat.leb n 90.

Definition is_lower_ascii (c : ascii) : bool :=
  let n := nat_of_ascii c in Nat.leb 97 n && Nat.leb n 122.

Definition lower_ascii (c : ascii) : ascii :=
  if is_upper_ascii c then ascii_of_nat (nat_of_ascii c + 32) else c.

Definition upper_ascii (c : ascii) : ascii :=
  if is_lower_ascii c then ascii_of_nat (nat_of_ascii c - 32) else c.

Fixpoint smap (f : ascii -> ascii) (s : string) : string :=
  match s with
  | EmptyString => EmptyString
  | String c r => String (f c) (smap f r)
  end.

(** [s.lower()] and [s.upper()]. *)
Definition lower (s : string) : string := smap lower_ascii s.
Definition upper (s : string) : string := smap upper_ascii s.

(** [needle in hay] on strings. *)
Fixpoint contains (needle hay : string) : bool :=
  String.prefix needle hay ||
  match hay with
  | EmptyString => false
  | String _ r => contains needle r
  end.

(** [x in l] on a list of strings. *)
Definition mem (x : string) (l : list string) : bool :=
  existsb (String.eqb x) l.

(** [sep.join(l)]. *)
Definition join (sep : string) (l : list string) : string :=
  String.concat sep l.

(** The text after the last ["/"]: [os.path.basename] on a POSIX path. *)
Fixpoint basename_from (acc s : string) : string :=
  match s with
  | EmptyString => acc
  | String c r =>
      if Ascii.eqb c "/"%char then basename_from r r else basename_from acc r
  end.

Definition basename (s : string) : string := basename_from s s.

(** [s.rpartition('.')[0]]: the text before the last ["."], the empty string when
    there is none. *)
Fixpoint rpartition_head (s : string) : option string :=
  match s with
  | EmptyString => None
  | String c r =>
      match rpartition_head r with
      | Some h => Some (String c h)
      | None => if Ascii.eqb c "."%char then Some EmptyString else None
      end
  end.

Definition rpartition0 (s : string) : string :=
  match rpartition_head s with Some h => h | None => EmptyString end.

Fixpoint spaces (n : nat) : string :=
  match n with O => EmptyString | S k => String " "%char (spaces k) end.

(** ['{:12s}'.format(s)]: left-justified in a field of at least 12. *)
Definition fmt_s12 (s : string) : string :=
  s +:+ spaces (12 - String.length s).

(** [str(z)] for an [int]. *)
Definition str_int (z : Z) : string := NilZero.string_of_int (Z.to_int z).

(** ['{:3d}'.format(z)]: right-justified in a field of at least 3. *)
Definition fmt_d3 (z : Z) : string :=
  let d := str_int z in spaces (3 - String.length d) +:+ d.

(** The characters below 128.  On strings made of them [lower] and
    [upper] are Python's [str.lower] and [str.upper]. *)
Definition is_ascii_char (c : ascii) : bool := Nat.ltb (nat_of_ascii c) 128.

Fixpoint is_ascii (s : string) : bool :=
  match s with
  | EmptyString => true
  | String c r => is_ascii_char c && is_ascii r
  end.

End PyStr.

(** ** Exceptions and results *)

Inductive exn_class : Type :=
| Exception
| AttributeError
| AssertionError
| KeyError
| IndexError
| RuntimeError
| OtherException
| KeyboardInterrupt
| SystemExit.

Record exn : Type := mk_exn { exn_cls : exn_class; exn_str : string }.

(** [isinstance(e, Exception)]. *)
Definition is_Exception (e : exn) : bool :=
  match exn_cls e with
  | KeyboardInterrupt | SystemExit => false
  | _ => true
  end.

Inductive result (A : Type) : Type :=
| Ok (a : A)
| Raise (e : exn).
Arguments Ok {A} a.
Arguments Raise {A} e.

Definition is_Ok {A} (r : result A) : bool :=
  match r with Ok _ => true | Raise _ => false end.

(** ** Packages and the model object *)

(** The package classes named in [mfnam_packages]; [UserPackage] stands
    for a class registered by a caller. *)
Inductive PackageClass : Type :=
| ModflowZon | ModflowMlt | ModflowPval | ModflowBas | ModflowDis
| ModflowBcf | ModflowLpf | ModflowHfb | ModflowChd | ModflowWel
| ModflowDrn | ModflowRch | ModflowEvt | ModflowGhb | ModflowGmg
| ModflowRiv | ModflowStr | ModflowSwi2 | ModflowPcg | ModflowPcgn
| ModflowNwt | ModflowPks | ModflowSfr2 | ModflowSip | ModflowSor
| ModflowDe4 | ModflowOc | ModflowUzf1 | ModflowUpw
| UserPackage (cls : string).

(** A package object: the parallel lists [name], [unit_number],
    [file_name] and [extension] of [flopy.mbase.Package], and the grid
    attributes that a discretization package carries. *)
Record Package : Type := mkPackage {
  name : list string;
  unit_number : list Z;
  file_name : list string;
  extension : list string;
  pk_nlay : Z;
  pk_nrow : Z;
  pk_ncol : Z;
  pk_nper : Z
}.

(** Modelled from the spec: [flopy.mbase.Package.__init__] is not under
    src/.  A package has (name, unit, filename) triples; a package built
    with one extension has one triple, its file named after the model
    ([set_name] rebuilds the file names as [name + '.' + extension]). *)
Definition Package_init (model_name ext nm : string) (u : Z) : Package :=
  {| name := [nm]; unit_number := [u];
     file_name := [model_name +:+ "." +:+ ext]; extension := [ext];
     pk_nlay := 0; pk_nrow := 0; pk_ncol := 0; pk_nper := 0 |}.

(** [ModflowGlobal(model)] and [ModflowList(model, unitnumber=u)]. *)
Definition ModflowGlobal_init (model_name : string) : Package :=
  Package_init model_name "glo" "GLOBAL" 1.

Definition ModflowList_init (model_name : string) (u : Z) : Package :=
  Package_init model_name "list" "LIST" u.

(** [ModflowPar()]: the three parameter sources start unset. *)
Record ModflowPar : Type := mkModflowPar {
  pval : option Package;
  mult : option Package;
  zone : option Package
}.

Definition ModflowPar_init : ModflowPar :=
  {| pval := None; mult := None; zone := None |}.

(** A reference to a dictionary in the store. *)
Definition loc := nat.

Record Modflow : Type := mkModflow {
  (* attributes set by BaseModel.__init__ *)
  model_name : string;
  namefile_ext : string;
  namefile : string;
  exe_name : string;
  model_ws : string;
  structured : bool;
  packagelist : list Package;
  pop_key_list : list Z;
  (* attributes set by Modflow.__init__ *)
  heading : string;
  version : string;
  glo : option Package;
  lst : Package;
  free_format : bool;
  array_format : string;
  external_fnames : list string;
  external_units : list Z;
  external_binflag : list bool;
  external : bool;
  verbose : bool;
  load_flag : bool;
  next_ext_unit_ : Z;
  external_path : option string;
  silent : Z;
  mfpar : ModflowPar;
  mfnam_packages : loc
}.

(** The dictionary literal of [Modflow.__init__]. *)
Definition mfnam_packages_literal : list (string * PackageClass) :=
  [ ("zone", ModflowZon); ("mult", ModflowMlt); ("pval", ModflowPval);
    ("bas6", ModflowBas); ("dis", ModflowDis); ("bcf6", ModflowBcf);
    ("lpf", ModflowLpf); ("hfb6", ModflowHfb); ("chd", ModflowChd);
    ("wel", ModflowWel); ("drn", ModflowDrn); ("rch", ModflowRch);
    ("evt", ModflowEvt); ("ghb", ModflowGhb); ("gmg", ModflowGmg);
    ("riv", ModflowRiv); ("str", ModflowStr); ("swi2", ModflowSwi2);
    ("pcg", ModflowPcg); ("pcgn", ModflowPcgn); ("nwt", ModflowNwt);
    ("pks", ModflowPks); ("sfr", ModflowSfr2); ("sip", ModflowSip);
    ("sor", ModflowSor); ("de4", ModflowDe4); ("oc", ModflowOc);
    ("uzf", ModflowUzf1); ("upw", ModflowUpw) ].

Definition mfnam_packages_dict : gmap string PackageClass :=
  list_to_map mfnam_packages_literal.

(** The store of dictionaries; evaluating a dictionary literal allocates
    at an address not in use. *)
Abbreviation Store := (gmap loc (gmap string PackageClass)).

Definition alloc_dict (d : gmap string PackageClass) (st : Store)
  : loc * Store :=
  let l := fresh (dom st) in (l, <[l := d]> st).

(** [obj.mfnam_packages[k] = v]. *)
Definition registry_set (m : Modflow) (k : string) (v : PackageClass)
    (st : Store) : Store :=
  match st !! mfnam_packages m with
  | Some d => <[mfnam_packages m := <[k := v]> d]> st
  | None => st
  end.

(** [obj.mfnam_packages.get(k)]. *)
Definition registry_get (m : Modflow) (k : string) (st : Store)
  : option PackageClass :=
  match st !! mfnam_packages m with
  | Some d => d !! k
  | None => None
  end.

(** The arguments of [Modflow.__init__], with their defaults. *)
Record InitArgs : Type := mkInitArgs {
  a_modelname : string;
  a_namefile_ext : string;
  a_version : string;
  a_exe_name : string;
  a_structured : bool;
  a_listunit : Z;
  a_model_ws : string;
  a_external_path : option string;
  a_verbose : bool;
  a_load : bool;
  a_silent : Z
}.

Definition default_args : InitArgs :=
  {| a_modelname := "modflowtest"; a_namefile_ext := "nam";
     a_version := "mf2005"; a_exe_name := "mf2005.exe";
     a_structured := true; a_listunit := 2; a_model_ws := ".";
     a_external_path := None; a_verbose := false; a_load := true;
     a_silent := 0 |}.

Definition structured_msg : string :=
  "structured=False can only be specified for mfusg models".

Definition external_msg : string :=
  "ERROR: external cannot be used with model_ws".

(** The object as [Modflow.__init__] leaves it when no assertion fails;
    [l] is the address of the fresh [mfnam_packages] dictionary.
    [BaseModel.__init__] (not under src/) is taken to record its
    arguments, to name the name file [modelname + '.' + ext] and to start
    with no packages and an empty pop list. *)
Definition Modflow_fields (a : InitArgs) (l : loc) : Modflow :=
  let version' := PyStr.lower (a_version a) in
  {| model_name := a_modelname a;
     namefile_ext := a_namefile_ext a;
     namefile := a_modelname a +:+ "." +:+ a_namefile_ext a;
     exe_name := a_exe_name a;
     model_ws := a_model_ws a;
     structured := a_structured a;
     packagelist := [];
     pop_key_list := [];
     heading := "# Name file for " +:+ a_version a
                +:+ ", generated by Flopy.";
     version := version';
     glo := if String.eqb version' "mf2k"
            then Some (ModflowGlobal_init (a_modelname a)) else None;
     lst := ModflowList_init (a_modelname a) (a_listunit a);
     free_format := true;
     array_format := "modflow";
     external_fnames := [];
     external_units := [];
     external_binflag := [];
     external := match a_external_path a with Some _ => true | None => false end;
     verbose := a_verbose a;
     load_flag := a_load a;
     next_ext_unit_ := 1000;
     external_path := a_external_path a;
     silent := a_silent a;
     mfpar := ModflowPar_init;
     mfnam_packages := l |}.

(** [Modflow.__init__]: the two assertions, then the dictionary literal.
    The directory made for [external_path] lives outside the object:
    [os.path.exists] and [os.mkdir] are not modelled, and [Ok] stands for
    the runs in which they do not raise. *)
Definition Modflow_init (a : InitArgs) (st : Store)
  : result Modflow * Store :=
  if negb (a_structured a)
     && negb (PyStr.contains "mfusg" (PyStr.lower (a_version a)))
  then (Raise (mk_exn AssertionError structured_msg), st)
  else
    if match a_external_path a with
       | Some _ => negb (String.eqb (a_model_ws a) ".")
       | None => false
       end
    then (Raise (mk_exn AssertionError external_msg), st)
    else
      let (l, st') := alloc_dict mfnam_packages_dict st in
      (Ok (Modflow_fields a l), st').

(** [Modflow.next_ext_unit]: increment the private counter, return it. *)
Definition set_next_ext_unit (v : Z) (m : Modflow) : Modflow :=
  {| model_name := model_name m; namefile_ext := namefile_ext m;
     namefile := namefile m; exe_name := exe_name m;
     model_ws := model_ws m; structured := structured m;
     packagelist := packagelist m; pop_key_list := pop_key_list m;
     heading := heading m; version := version m; glo := glo m;
     lst := lst m; free_format := free_format m;
     array_format := array_format m;
     external_fnames := external_fnames m;
     external_units := external_units m;
     external_binflag := external_binflag m;
     external := external m; verbose := verbose m;
     load_flag := load_flag m; next_ext_unit_ := v;
     external_path := external_path m; silent := silent m;
     mfpar := mfpar m; mfnam_packages := mfnam_packages m |}.

Definition next_ext_unit (m : Modflow) : Z * Modflow :=
  let m' := set_next_ext_unit (next_ext_unit_ m + 1) m in
  (next_ext_unit_ m', m').

(** [n] consecutive calls, with the values returned in call order. *)
Fixpoint next_ext_unit_n (n : nat) (m : Modflow) : list Z * Modflow :=
  match n with
  | O => ([], m)
  | S k =>
      let (u, m1) := next_ext_unit m in
      let (us, m2) := next_ext_unit_n k m1 in
      (u :: us, m2)
  end.

(** ** Grid-shape accessors *)

Section Accessors.

(** [BaseModel.get_package] is not under src/: a parameter. *)
Variable get_package : Modflow -> string -> option Package.

(** Modelled from the spec: the attribute [self.dis] is resolved by
    [BaseModel] (not under src/); the model exposes the discretization
    package through it, and a false value when none is loaded. *)
Definition self_dis (m : Modflow) : option Package := get_package m "dis".

Definition nlay (m : Modflow) : Z :=
  match self_dis m with Some d => pk_nlay d | None => 0 end.

Definition nrow (m : Modflow) : Z :=
  match self_dis m with Some d => pk_nrow d | None => 0 end.

Definition ncol (m : Modflow) : Z :=
  match self_dis m with Some d => pk_ncol d | None => 0 end.

Definition nper (m : Modflow) : Z :=
  match self_dis m with Some d => pk_nper d | None => 0 end.

Definition get_nrow_ncol_nlay_nper (m : Modflow) : Z * Z * Z * Z :=
  match get_package m "DIS" with
  | Some d => (pk_nrow d, pk_ncol d, pk_nlay d, pk_nper d)
  | None => (0, 0, 0, 0)%Z
  end.

End Accessors.

(** ** Writing the name file *)

Definition nl : string := String (ascii_of_nat 10) EmptyString.

(** ['{:12s} {:3d} {}\n'.format(n, u, f)]. *)
Definition entry_line (n : string) (u : Z) (f : string) : string :=
  PyStr.fmt_s12 n +:+ " " +:+ PyStr.fmt_d3 u +:+ " " +:+ f +:+ nl.

(** [p.name[0]], [p.unit_number[0]], [p.file_name[0]] formatted as one
    line; indexing an empty list raises [IndexError]. *)
Definition first_entry_line (p : Package) : result string :=
  match name p, unit_number p, file_name p with
  | n :: _, u :: _, f :: _ => Ok (entry_line n u f)
  | _, _, _ => Raise (mk_exn IndexError "list index out of range")
  end.

(** [zip(a, b, c)]: stops at the shortest list. *)
Fixpoint zip3 {A B C} (a : list A) (b : list B) (c : list C)
  : list (A * B * C) :=
  match a, b, c with
  | x :: a', y :: b', z :: c' => (x, y, z) :: zip3 a' b' c'
  | _, _, _ => []
  end.

(** The (name, unit, filename) triples a package owns. *)
Definition package_entries (p : Package) : list (string * Z * string) :=
  zip3 (name p) (unit_number p) (file_name p).

Definition triple_line (e : string * Z * string) : string :=
  let '(n, u, f) := e in entry_line n u f.

(** Modelled from the spec: [BaseModel.get_name_file_entries] is not under
    src/.  It yields one line per owned package file entry, in the format
    12-char left-justified name, 3-digit right-justified unit, filename. *)
Definition get_name_file_entries (m : Modflow) : string :=
  String.concat EmptyString (map triple_line (flat_map package_entries (packagelist m))).

Section Writer.

(** [os.path.relpath(path, start)]: a parameter. *)
Variable relpath : string -> string -> string.

(** The line written for one external entry with a nonzero unit. *)
Definition data_line (ws : string) (e : Z * string * bool) : string :=
  let '(u, f, b) := e in
  let fr := relpath f ws in
  if b : bool
  then "DATA(BINARY)  " +:+ PyStr.fmt_d3 u +:+ "  " +:+ fr +:+ " REPLACE" +:+ nl
  else "DATA          " +:+ PyStr.fmt_d3 u +:+ "  " +:+ fr +:+ nl.

(** The loop over [zip(external_units, external_fnames, external_binflag)];
    [buf] is what has been written to [f_nam] so far. *)
Fixpoint write_externals (ws : string) (l : list (Z * string * bool))
    (buf : string) : string :=
  match l with
  | [] => buf
  | (u, f, b) :: r =>
      if Z.eqb u 0
      then write_externals ws r buf
      else write_externals ws r (buf +:+ data_line ws (u, f, b))
  end.

(** [Modflow.write_name_file]: the text written to the name file once
    [open] has returned; opening the file is not modelled. *)
Definition write_name_file (m : Modflow) : result string :=
  let buf0 := heading m +:+ nl in
  match
    (if String.eqb (version m) "mf2k"
     then match glo m with
          | Some g =>
              match first_entry_line g with
              | Ok s => Ok (buf0 +:+ s)
              | Raise e => Raise e
              end
          | None =>
              Raise (mk_exn AttributeError
                       "'Modflow' object has no attribute 'glo'")
          end
     else Ok buf0)
  with
  | Raise e => Raise e
  | Ok buf1 =>
      match first_entry_line (lst m) with
      | Raise e => Raise e
      | Ok s =>
          let buf2 := buf1 +:+ s in
          let buf3 := buf2 +:+ get_name_file_entries m in
          Ok (write_externals (model_ws m)
                (zip3 (external_units m) (external_fnames m)
                      (external_binflag m))
                buf3)
      end
  end.

End Writer.

(** ** Loading a model *)

(** An entry of [ext_unit_dict] as [Modflow.load] reads it: [filetype],
    [filename] and [package] (a class of the registry, or [None]). *)
Record NamData : Type := mkNamData {
  filetype : string;
  filename : string;
  package : option PackageClass
}.

Abbreviation table := (list (Z * NamData)).

(** What a call into a collaborator leaves behind: the model as mutated,
    and whether the call returned or raised. *)
Inductive outcome : Type :=
| Returned (m : Modflow)
| Raised (e : exn) (m : Modflow).

(** The same for a collaborator that is also handed [ext_unit_dict]:
    [t] is the dictionary as the call leaves it. *)
Inductive dict_outcome : Type :=
| ReturnedD (m : Modflow) (t : table)
| RaisedD (e : exn) (m : Modflow) (t : table).

Definition dict_after (o : dict_outcome) : table :=
  match o with ReturnedD _ t => t | RaisedD _ _ t => t end.

(** The [load_only] argument: a list, or a single value that
    [Modflow.load] wraps into a list. *)
Inductive LoadOnly : Type :=
| LoadOnlyList (l : list string)
| LoadOnlyStr (s : string).

(** A call made by [Modflow.load] into a collaborator, with the table as
    it was when handed over and whether the call raised.  The log of calls is not a Python
    variable; it records the order of invocations. *)
Inductive event : Type :=
| EvLoad (cls : PackageClass) (fname : string) (t : table) (raised : bool)
| EvPar (which : string) (t : table) (raised : bool).

Definition ev_table (e : event) : table :=
  match e with EvLoad _ _ t _ => t | EvPar _ t _ => t end.

Definition ev_raised (e : event) : bool :=
  match e with EvLoad _ _ _ r => r | EvPar _ _ r => r end.

(** The local variables of [Modflow.load]. *)
Record St : Type := mkSt {
  ml : Modflow;
  ext_unit_dict : table;
  files_succesfully_loaded : list string;
  files_not_loaded : list string;
  calls : list event
}.

Definition set_ml (m : Modflow) (s : St) : St :=
  {| ml := m; ext_unit_dict := ext_unit_dict s;
     files_succesfully_loaded := files_succesfully_loaded s;
     files_not_loaded := files_not_loaded s; calls := calls s |}.

Definition set_dict (t : table) (s : St) : St :=
  {| ml := ml s; ext_unit_dict := t;
     files_succesfully_loaded := files_succesfully_loaded s;
     files_not_loaded := files_not_loaded s; calls := calls s |}.

Definition log (e : event) (s : St) : St :=
  {| ml := ml s; ext_unit_dict := ext_unit_dict s;
     files_succesfully_loaded := files_succesfully_loaded s;
     files_not_loaded := files_not_loaded s; calls := calls s ++ [e] |}.

(** Statements that read and write the locals and may raise; what was
    mutated before a raise stays mutated. *)
Definition M (A : Type) : Type := St -> result A * St.

Definition ret {A} (a : A) : M A := fun s => (Ok a, s).

Definition bind {A B} (c : M A) (k : A -> M B) : M B :=
  fun s =>
    match c s with
    | (Ok a, s') => k a s'
    | (Raise e, s') => (Raise e, s')
    end.

Definition raise {A} (e : exn) : M A := fun s => (Raise e, s).

Definition gets {A} (f : St -> A) : M A := fun s => (Ok (f s), s).

Definition modify (f : St -> St) : M unit := fun s => (Ok tt, f s).

(** [try: body  except <class> as e: handler e]. *)
Definition try_except {A} (catches : exn -> bool) (body : M A)
    (handler : exn -> M A) : M A :=
  fun s =>
    match body s with
    | (Ok a, s') => (Ok a, s')
    | (Raise e, s') => if catches e then handler e s' else (Raise e, s')
    end.

Declare Scope py_scope.
Delimit Scope py_scope with py.
Notation "x <- c ;; k" := (bind c (fun x => k))
  (at level 100, c at next level, right associativity) : py_scope.
Notation "c ;;; k" := (bind c (fun _ => k))
  (at level 100, right associativity) : py_scope.

(** [for x in l: body x]. *)
Fixpoint for_each {A} (l : list A) (body : A -> M unit) : M unit :=
  match l with
  | [] => ret tt
  | x :: r => bind (body x) (fun _ => for_each r body)
  end.

Definition dict_changed : exn :=
  mk_exn RuntimeError "dictionary changed size during iteration".

(** [for key, item in ext_unit_dict.items(): body (key, item)], with
    [rem] entries still to visit from position [i] and [n0] the number of
    entries when the loop began.  Each step first compares the current
    number of entries with [n0], then reads the entry at position [i] of
    the dictionary as it is now. *)
Fixpoint for_items (rem i n0 : nat) (body : Z * NamData -> M unit)
  : M unit :=
  fun s =>
    if negb (Nat.eqb (length (ext_unit_dict s)) n0)
    then (Raise dict_changed, s)
    else
      match rem with
      | O => (Ok tt, s)
      | S r =>
          match nth_error (ext_unit_dict s) i with
          | None => (Ok tt, s)
          | Some kv =>
              bind (body kv) (fun _ => for_items r (S i) n0 body) s
          end
      end.

Definition catch_Exception (e : exn) : bool := is_Exception e.
Definition catch_all (e : exn) : bool := true.

(** Reading attribute [a] of an object that may be [None]. *)
Definition none_attr (a : string) : exn :=
  mk_exn AttributeError
    ("'NoneType' object has no attribute '" +:+ a +:+ "'").

Definition attr {A B} (o : option A) (a : string) (f : A -> B) : M B :=
  match o with
  | Some x => ret (f x)
  | None => raise (none_attr a)
  end.

Definition files_succesfully_loaded_append (f : string) : M unit :=
  modify (fun s =>
    {| ml := ml s; ext_unit_dict := ext_unit_dict s;
       files_succesfully_loaded := files_succesfully_loaded s ++ [f];
       files_not_loaded := files_not_loaded s; calls := calls s |}).

Definition files_not_loaded_append (f : string) : M unit :=
  modify (fun s =>
    {| ml := ml s; ext_unit_dict := ext_unit_dict s;
       files_succesfully_loaded := files_succesfully_loaded s;
       files_not_loaded := files_not_loaded s ++ [f]; calls := calls s |}).

Definition has_key (k : Z) (t : table) : bool :=
  existsb (fun kv => Z.eqb (fst kv) k) t.

Definition remove_key (k : Z) (t : table) : table :=
  List.filter (fun kv => negb (Z.eqb (fst kv) k)) t.

(** [ext_unit_dict.pop(key)]: [KeyError] when the key is absent. *)
Definition dict_pop (key : option Z) : M unit :=
  fun s =>
    match key with
    | Some k =>
        if has_key k (ext_unit_dict s)
        then (Ok tt, set_dict (remove_key k (ext_unit_dict s)) s)
        else (Raise (mk_exn KeyError (PyStr.str_int k)), s)
    | None => (Raise (mk_exn KeyError "None"), s)
    end.

(** The first entry, in iteration order, whose lower-cased filetype is
    ["dis"]: the search loop with its [break]. *)
Fixpoint find_dis (t : table) : option (Z * NamData) :=
  match t with
  | [] => None
  | (key, item) :: r =>
      if String.eqb (PyStr.lower (filetype item)) "dis"
      then Some (key, item)
      else find_dis r
  end.

(** The inner search loop of the [load_only] check. *)
Fixpoint found_filetype (ft : string) (t : table) : bool :=
  match t with
  | [] => false
  | (_, item) :: r =>
      if String.eqb (filetype item) ft then true else found_filetype ft r
  end.

(** The [enumerate(load_only)] loop: the list as rewritten in place, and
    [not_found] as extended. *)
Fixpoint check_load_only (t : table) (l : list string)
    (not_found : list string) : list string * list string :=
  match l with
  | [] => ([], not_found)
  | ft :: r =>
      let ft' := PyStr.upper ft in
      if negb (String.eqb ft' "DIS")
      then
        let nf := if found_filetype ft' t then not_found
                  else (not_found ++ [ft'])%list in
        let (r', nf') := check_load_only t r nf in
        (ft' :: r', nf')
      else
        let (r', nf') := check_load_only t r not_found in
        (ft :: r', nf')
  end.

Definition load_only_msg : string :=
  "the following load_only entries were not found in the ext_unit_dict: ".

(** The [if load_only is None: ... else: ...] block as a function of
    the argument and the table: the list that the package loop consults,
    or the exception raised. *)
Definition load_only_list (load_only : option LoadOnly) (t : table)
  : result (list string) :=
  match load_only with
  | None => Ok (map (fun kv => filetype (snd kv)) t)
  | Some lo =>
      let l := match lo with
               | LoadOnlyList l => l
               | LoadOnlyStr x => [x]
               end in
      let (l', not_found) := check_load_only t l [] in
      if Nat.ltb 0 (length not_found)
      then Raise (mk_exn Exception
                    (load_only_msg +:+ PyStr.join "," not_found))
      else Ok l'
  end.

Definition resolve_load_only (load_only : option LoadOnly)
  : M (list string) :=
  (t <- gets ext_unit_dict ;;
   match load_only_list load_only t with
   | Ok l => ret l
   | Raise e => raise e
   end)%py.

(** [ml.external_fnames.append(f); ml.external_units.append(u);
    ml.external_binflag.append(b)]. *)
Definition append_external (f : string) (u : Z) (b : bool) (m : Modflow)
  : Modflow :=
  {| model_name := model_name m; namefile_ext := namefile_ext m;
     namefile := namefile m; exe_name := exe_name m;
     model_ws := model_ws m; structured := structured m;
     packagelist := packagelist m; pop_key_list := pop_key_list m;
     heading := heading m; version := version m; glo := glo m;
     lst := lst m; free_format := free_format m;
     array_format := array_format m;
     external_fnames := external_fnames m ++ [f];
     external_units := external_units m ++ [u];
     external_binflag := external_binflag m ++ [b];
     external := external m; verbose := verbose m;
     load_flag := load_flag m; next_ext_unit_ := next_ext_unit_ m;
     external_path := external_path m; silent := silent m;
     mfpar := mfpar m; mfnam_packages := mfnam_packages m |}.

(** [key in ml.pop_key_list]. *)
Definition in_pop_key_list (key : Z) (m : Modflow) : bool :=
  existsb (Z.eqb key) (pop_key_list m).

(** The outcome of [Modflow.load] with the locals it ended with. *)
Record LoadReport : Type := mkLoadReport {
  rep_result : result Modflow;
  rep_dict : table;
  rep_loaded : list string;
  rep_not_loaded : list string;
  rep_calls : list event
}.

Section Load.

(** The collaborators of [Modflow.load], none of them under src/.
    Loaders and the parameter setters are handed the model and the
    dictionary and may mutate both. *)
Variable parsenamefile :
  string -> gmap string PackageClass -> bool -> result table.
Variable package_load :
  PackageClass -> string -> Modflow -> table -> dict_outcome.
Variable set_pval : Modflow -> table -> dict_outcome.
Variable set_zone : Modflow -> table -> dict_outcome.
Variable set_mult : Modflow -> table -> dict_outcome.
Variable remove_external : Z -> Modflow -> outcome.
Variable isfile : string -> bool.
Variable path_join : string -> string -> string.

(** [cls.load(fname, ml, ext_unit_dict=ext_unit_dict)]. *)
Definition call_load (cls : PackageClass) (fname : string) : M unit :=
  fun s =>
    match package_load cls fname (ml s) (ext_unit_dict s) with
    | ReturnedD m' t' =>
        (Ok tt,
         log (EvLoad cls fname (ext_unit_dict s) false)
           (set_dict t' (set_ml m' s)))
    | RaisedD e m' t' =>
        (Raise e,
         log (EvLoad cls fname (ext_unit_dict s) true)
           (set_dict t' (set_ml m' s)))
    end.

(** [ml.mfpar.set_xxx(ml, ext_unit_dict)]. *)
Definition call_par (which : string)
    (f : Modflow -> table -> dict_outcome) : M unit :=
  fun s =>
    match f (ml s) (ext_unit_dict s) with
    | ReturnedD m' t' =>
        (Ok tt,
         log (EvPar which (ext_unit_dict s) false)
           (set_dict t' (set_ml m' s)))
    | RaisedD e m' t' =>
        (Raise e,
         log (EvPar which (ext_unit_dict s) true)
           (set_dict t' (set_ml m' s)))
    end.

(** [ml.remove_external(unit=key)]. *)
Definition call_remove_external (key : Z) : M unit :=
  fun s =>
    match remove_external key (ml s) with
    | Returned m' => (Ok tt, set_ml m' s)
    | Raised e m' => (Raise e, set_ml m' s)
    end.

Definition dis_msg (fname : string) : string :=
  "Could not read discretization package: " +:+ PyStr.basename fname
  +:+ ". Stopping...".

(** The [# load dis] block. *)
Definition load_dis : M unit :=
  (t <- gets ext_unit_dict ;;
   let dis := option_map snd (find_dis t) in
   let dis_key := option_map fst (find_dis t) in
   try_except catch_Exception
     (pk <- attr dis "package" package ;;
      cls <- attr pk "load" (fun c => c) ;;
      fname <- attr dis "filename" filename ;;
      call_load cls fname ;;;
      files_succesfully_loaded_append fname ;;;
      dict_pop dis_key)
     (fun e =>
        fname <- attr dis "filename" filename ;;
        raise (mk_exn Exception (dis_msg fname +:+ " " +:+ exn_str e))))%py.

(** The body of the [# try loading packages in ext_unit_dict] loop. *)
Definition load_entry (load_only : list string) (kv : Z * NamData)
  : M unit :=
  let (key, item) := kv in
  match package item with
  | Some cls =>
      if PyStr.mem (filetype item) load_only
      then
        try_except catch_all
          (call_load cls (filename item) ;;;
           files_succesfully_loaded_append (filename item))%py
          (fun o => files_not_loaded_append (filename item))
      else files_not_loaded_append (filename item)
  | None =>
      if negb (PyStr.contains "data" (PyStr.lower (filetype item)))
      then files_not_loaded_append (filename item)
      else
        if PyStr.contains "data" (PyStr.lower (filetype item))
        then
          (m <- gets ml ;;
           if negb (in_pop_key_list key m)
           then modify (set_ml
                  (append_external (filename item) key
                     (PyStr.contains "binary" (PyStr.lower (filetype item)))
                     m))
           else ret tt)%py
        else ret tt
  end.

Definition load_packages (load_only : list string) : M unit :=
  fun s =>
    let n0 := length (ext_unit_dict s) in
    for_items n0 0 n0 (load_entry load_only) s.

(** The [# pop binary output keys ...] loop. *)
Definition pop_keys : M unit :=
  (m <- gets ml ;;
   for_each (pop_key_list m) (fun key =>
     try_except catch_all
       (call_remove_external key ;;; dict_pop (Some key))
       (fun _ => ret tt)))%py.

(** [Modflow.load] from the [# load dis] block to the [return]. *)
Definition load_body (load_only : option LoadOnly) : M unit :=
  (load_dis ;;;
   lo <- resolve_load_only load_only ;;
   call_par "pval" set_pval ;;;
   call_par "zone" set_zone ;;;
   call_par "mult" set_mult ;;;
   load_packages lo ;;;
   pop_keys)%py.

(** The part of it that follows the discretization block. *)
Definition after_dis (load_only : option LoadOnly) : M unit :=
  (lo <- resolve_load_only load_only ;;
   call_par "pval" set_pval ;;;
   call_par "zone" set_zone ;;;
   call_par "mult" set_mult ;;;
   load_packages lo ;;;
   pop_keys)%py.

Definition parse_msg : string :=
  "error loading name file entries from file:" +:+ nl.

Definition report_of (r : result unit) (s : St) : LoadReport :=
  {| rep_result := match r with Ok _ => Ok (ml s) | Raise e => Raise e end;
     rep_dict := ext_unit_dict s;
     rep_loaded := files_succesfully_loaded s;
     rep_not_loaded := files_not_loaded s;
     rep_calls := calls s |}.

Definition failed (e : exn) : LoadReport :=
  {| rep_result := Raise e; rep_dict := []; rep_loaded := [];
     rep_not_loaded := []; rep_calls := [] |}.

(** The arguments [Modflow.load] passes to the constructor. *)
Definition load_init_args (modelname v exe ws : string) (verb : bool)
  : InitArgs :=
  {| a_modelname := modelname; a_namefile_ext := "nam";
     a_version := v; a_exe_name := exe; a_structured := true;
     a_listunit := 2; a_model_ws := ws; a_external_path := None;
     a_verbose := verb; a_load := true; a_silent := 0 |}.

(** The model name [Modflow.load] derives from its argument [f]. *)
Definition load_modelname (f ws : string) : string :=
  if isfile (path_join ws f) then PyStr.rpartition0 f else f.

(** [Modflow.load(f, version, exe_name, verbose, model_ws, load_only)]. *)
Definition Modflow_load (f v exe : string) (verb : bool) (ws : string)
    (load_only : option LoadOnly) (st : Store) : LoadReport * Store :=
  let modelname := load_modelname f ws in
  match Modflow_init (load_init_args modelname v exe ws verb) st with
  | (Raise e, st') => (failed e, st')
  | (Ok m, st') =>
      let namefile_path := path_join (model_ws m) (namefile m) in
      let registry := match st' !! mfnam_packages m with
                      | Some d => d
                      | None => ∅
                      end in
      match parsenamefile namefile_path registry verb with
      | Raise e =>
          if is_Exception e
          then (failed (mk_exn Exception (parse_msg +:+ exn_str e)), st')
          else (failed e, st')
      | Ok t =>
          let s0 := {| ml := m; ext_unit_dict := t;
                       files_succesfully_loaded := [];
                       files_not_loaded := []; calls := [] |} in
          let (r, s) := load_body load_only s0 in
          (report_of r s, st')
      end
  end.

(** The model [Modflow.load] constructs, the path it hands to the
    parser, and the locals as they stand once the parser has returned
    table [t]. *)
Definition load_model (f v exe : string) (verb : bool) (ws : string)
    (st : Store) : Modflow :=
  Modflow_fields (load_init_args (load_modelname f ws) v exe ws verb)
    (fst (alloc_dict mfnam_packages_dict st)).

Definition load_namefile_path (f ws : string) : string :=
  path_join ws (load_modelname f ws +:+ "." +:+ "nam").

Definition load_state0 (f v exe : string) (verb : bool) (ws : string)
    (st : Store) (t : table) : St :=
  {| ml := load_model f v exe verb ws st; ext_unit_dict := t;
     files_succesfully_loaded := []; files_not_loaded := []; calls := [] |}.

End Load.

(** ** The load_only check, by its result *)

(** The requested tags, upper-cased, that are not "DIS" and are the
    filetype of no entry of the table. *)
Definition missing_tags (t : table) (l : list string) : list string :=
  List.filter
    (fun x => negb (String.eqb x "DIS")
              && negb (existsb (fun kv => String.eqb (filetype (snd kv)) x) t))
    (map PyStr.upper l).

(** The requested list after the in-place upper-casing. *)
Definition normalized_tags (l : list string) : list string :=
  map (fun x => if String.eqb (PyStr.upper x) "DIS" then x
                else PyStr.upper x) l.

Definition load_only_as_list (lo : LoadOnly) : list string :=
  match lo with LoadOnlyList l => l | LoadOnlyStr x => [x] end.

(** The loader calls the package loop makes on table [t]. *)
Definition selected (load_only : list string) (kv : Z * NamData) : bool :=
  match package (snd kv) with
  | Some _ => PyStr.mem (filetype (snd kv)) load_only
  | None => false
  end.

(** ** The layout of the name file, as a list of lines *)

(** Every external entry, whatever its unit. *)
Definition all_externals (m : Modflow) : list (Z * string * bool) :=
  zip3 (external_units m) (external_fnames m) (external_binflag m).

(** The external entries with a nonzero unit. *)
Definition written_externals (m : Modflow) : list (Z * string * bool) :=
  List.filter (fun e => negb (Z.eqb (fst (fst e)) 0)) (all_externals m).

(** The lines before the external entries: heading, the global line
    under mf2k, the listing line, one line per owned package entry. *)
Definition head_lines (m : Modflow) (glo_line lst_line : string)
  : list string :=
  ([heading m +:+ nl]
   ++ (if String.eqb (version m) "mf2k" then [glo_line] else [])
   ++ [lst_line]
   ++ map triple_line (flat_map package_entries (packagelist m)))%list.

(** ** Sample collaborators and inputs *)

(** A [get_package] in the manner of [BaseModel]: the first package whose
    first name matches, case-insensitively. *)
Definition sample_get_package (m : Modflow) (nm : string) : option Package :=
  List.find
    (fun p => match name p with
              | n :: _ => String.eqb (PyStr.upper n) (PyStr.upper nm)
              | [] => false
              end)
    (packagelist m).

Definition set_packagelist (ps : list Package) (m : Modflow) : Modflow :=
  {| model_name := model_name m; namefile_ext := namefile_ext m;
     namefile := namefile m; exe_name := exe_name m;
     model_ws := model_ws m; structured := structured m;
     packagelist := ps; pop_key_list := pop_key_list m;
     heading := heading m; version := version m; glo := glo m;
     lst := lst m; free_format := free_format m;
     array_format := array_format m;
     external_fnames := external_fnames m;
     external_units := external_units m;
     external_binflag := external_binflag m;
     external := external m; verbose := verbose m;
     load_flag := load_flag m; next_ext_unit_ := next_ext_unit_ m;
     external_path := external_path m; silent := silent m;
     mfpar := mfpar m; mfnam_packages := mfnam_packages m |}.

Definition sample_model : Modflow := Modflow_fields default_args 0%nat.

Definition sample_dis : Package :=
  {| name := ["DIS"]; unit_number := [11%Z]; file_name := ["m.dis"];
     extension := ["dis"];
     pk_nlay := 3; pk_nrow := 10; pk_ncol := 20; pk_nper := 2 |}.

Definition sample_model_dis : Modflow :=
  set_packagelist [sample_dis] sample_model.

Definition sample_relpath (path start : string) : string := path.

Definition sample_table : table :=
  [ (20%Z, mkNamData "WEL" "m.wel" (Some ModflowWel));
    (11%Z, mkNamData "DIS" "m.dis" (Some ModflowDis));
    (21%Z, mkNamData "RCH" "m.rch" (Some ModflowRch));
    (30%Z, mkNamData "DATA(BINARY)" "h.bin" None);
    (31%Z, mkNamData "DATA" "a.dat" None);
    (32%Z, mkNamData "FOO" "x.foo" None) ].

Definition sample_table_nodis : table :=
  [ (20%Z, mkNamData "WEL" "m.wel" (Some ModflowWel));
    (31%Z, mkNamData "DATA" "a.dat" None) ].

Definition sample_table_zone : table :=
  [ (11%Z, mkNamData "DIS" "m.dis" (Some ModflowDis));
    (40%Z, mkNamData "ZONE" "m.zon" (Some ModflowZon));
    (21%Z, mkNamData "RCH" "m.rch" (Some ModflowRch)) ].

(** A parser that knows three name files. *)
Definition sample_parsenamefile (path : string)
    (packages : gmap string PackageClass) (verb : bool) : result table :=
  if String.eqb path "./m.nam" then Ok sample_table
  else if String.eqb path "./nodis.nam" then Ok sample_table_nodis
  else if String.eqb path "./z.nam" then Ok sample_table_zone
  else Raise (mk_exn OtherException "No such file").

(** Loaders that leave the dictionary alone, of which the one for WEL
    files raises. *)
Definition sample_package_load (cls : PackageClass) (fname : string)
    (m : Modflow) (t : table) : dict_outcome :=
  match cls with
  | ModflowWel => RaisedD (mk_exn OtherException "bad wel file") m t
  | _ => ReturnedD m t
  end.

(** A setter that touches nothing. *)
Definition sample_set_par (m : Modflow) (t : table) : dict_outcome :=
  ReturnedD m t.

(** A setter that takes the ZONE entries out of the dictionary. *)
Definition sample_set_zone (m : Modflow) (t : table) : dict_outcome :=
  ReturnedD m
    (List.filter
       (fun kv => negb (String.eqb (filetype (snd kv)) "ZONE")) t).

Definition sample_remove_external (key : Z) (m : Modflow) : outcome :=
  Returned m.

Definition sample_isfile (path : string) : bool := false.

Definition sample_path_join (a b : string) : string := a +:+ "/" +:+ b.

(** [Modflow.load] on the sample collaborators. *)
Abbreviation sample_load f load_only :=
  (fst (Modflow_load sample_parsenamefile sample_package_load
          sample_set_par sample_set_zone sample_set_par
          sample_remove_external sample_isfile sample_path_join
          f "mf2005" "mf2005.exe" false "." load_only ∅)).

(** ** Predicates on the statements of [Modflow.load] *)

(** Property [P] of the dictionary is kept by the statement, and the
    calls the statement adds to the log were all handed a dictionary
    with property [P]. *)
Definition traced_by {A} (P : table -> Prop) (c : M A) : Prop :=
  forall s,
    P (ext_unit_dict s) ->
    P (ext_unit_dict (snd (c s))) /\
    exists new,
      calls (snd (c s)) = (calls s ++ new)%list /\
      Forall (fun e => P (ev_table e)) new.

(** A collaborator that takes entries out of the dictionary at most. *)
Definition only_removes (o : table -> dict_outcome) : Prop :=
  forall t kv, In kv (dict_after (o t)) -> In kv t.

Section LoadPost.

Variable package_load :
  PackageClass -> string -> Modflow -> table -> dict_outcome.

(** The locals after one pass of the package loop on entry [kv]. *)
Definition load_entry_post (load_only : list string) (kv : Z * NamData)
    (s : St) : St :=
  let (key, item) := kv in
  match package item with
  | Some cls =>
      if PyStr.mem (filetype item) load_only
      then
        match package_load cls (filename item) (ml s) (ext_unit_dict s) with
        | ReturnedD m' t' =>
            {| ml := m'; ext_unit_dict := t';
               files_succesfully_loaded :=
                 files_succesfully_loaded s ++ [filename item];
               files_not_loaded := files_not_loaded s;
               calls := calls s
                        ++ [EvLoad cls (filename item) (ext_unit_dict s)
                              false] |}
        | RaisedD e m' t' =>
            {| ml := m'; ext_unit_dict := t';
               files_succesfully_loaded := files_succesfully_loaded s;
               files_not_loaded := files_not_loaded s ++ [filename item];
               calls := calls s
                        ++ [EvLoad cls (filename item) (ext_unit_dict s)
                              true] |}
        end
      else
        {| ml := ml s; ext_unit_dict := ext_unit_dict s;
           files_succesfully_loaded := files_succesfully_loaded s;
           files_not_loaded := files_not_loaded s ++ [filename item];
           calls := calls s |}
  | None =>
      if PyStr.contains "data" (PyStr.lower (filetype item))
      then
        if in_pop_key_list key (ml s) then s
        else set_ml (append_external (filename item) key
                       (PyStr.contains "binary"
                          (PyStr.lower (filetype item)))
                       (ml s)) s
      else
        {| ml := ml s; ext_unit_dict := ext_unit_dict s;
           files_succesfully_loaded := files_succesfully_loaded s;
           files_not_loaded := files_not_loaded s ++ [filename item];
           calls := calls s |}
  end.

(** The locals before the first pass, between the passes and after the
    last, when the passes run over the entries [l] in order. *)
Fixpoint passes (load_only : list string) (l : table) (s : St)
  : list St :=
  s :: match l with
       | [] => []
       | kv :: r =>
           passes load_only r (snd (load_entry package_load load_only kv s))
       end.

End LoadPost.

(** ** The stages of a load *)

(** What the stages before the package loop produce: the discretization
    entry and its class, the list the loop consults, and the model and
    the dictionary as the discretization loader and then each parameter
    setter leave them. *)
Record Stages : Type := mkStages {
  sg_key : Z;
  sg_item : NamData;
  sg_cls : PackageClass;
  sg_lo : list string;
  sg_m1 : Modflow;
  sg_m2 : Modflow;
  sg_t2 : table;
  sg_m3 : Modflow;
  sg_t3 : table;
  sg_m4 : Modflow;
  sg_t4 : table
}.

(** The dictionary once the discretization entry is popped. *)
Definition sg_t1 (t : table) (g : Stages) : table :=
  remove_key (sg_key g) t.

Section StagesOf.

Variable package_load :
  PackageClass -> string -> Modflow -> table -> dict_outcome.
Variable set_pval : Modflow -> table -> dict_outcome.
Variable set_zone : Modflow -> table -> dict_outcome.
Variable set_mult : Modflow -> table -> dict_outcome.

(** Every stage before the package loop went through, on parsed table
    [t] and constructed model [m0] with argument [load_only]; the
    discretization loader left the dictionary as it found it. *)
Definition load_stages (load_only : option LoadOnly) (t : table)
    (m0 : Modflow) (g : Stages) : Prop :=
  find_dis t = Some (sg_key g, sg_item g) /\
  package (sg_item g) = Some (sg_cls g) /\
  package_load (sg_cls g) (filename (sg_item g)) m0 t
  = ReturnedD (sg_m1 g) t /\
  load_only_list load_only (sg_t1 t g) = Ok (sg_lo g) /\
  set_pval (sg_m1 g) (sg_t1 t g) = ReturnedD (sg_m2 g) (sg_t2 g) /\
  set_zone (sg_m2 g) (sg_t2 g) = ReturnedD (sg_m3 g) (sg_t3 g) /\
  set_mult (sg_m3 g) (sg_t3 g) = ReturnedD (sg_m4 g) (sg_t4 g).

End StagesOf.

(** The locals when the package loop begins. *)
Definition loop_start (t : table) (g : Stages) : St :=
  {| ml := sg_m4 g; ext_unit_dict := sg_t4 g;
     files_succesfully_loaded := [filename (sg_item g)];
     files_not_loaded := [];
     calls := [EvLoad (sg_cls g) (filename (sg_item g)) t false;
               EvPar "pval" (sg_t1 t g) false;
               EvPar "zone" (sg_t2 g) false;
               EvPar "mult" (sg_t3 g) false] |}.

(** The locals of a load in progress on the sample table. *)
Definition sample_state : St :=
  {| ml := sample_model; ext_unit_dict := remove_key 11 sample_table;
     files_succesfully_loaded := ["m.dis"]; files_not_loaded := [];
     calls := [EvLoad ModflowDis "m.dis" sample_table false] |}.

Definition sample_dis_item : NamData :=
  mkNamData "DIS" "m.dis" (Some ModflowDis).

Definition sample_data_item : NamData := mkNamData "DATA" "a.dat" None.

(** ** Renaming the model *)

Definition set_file_name (fs : list string) (p : Package) : Package :=
  {| name := name p; unit_number := unit_number p; file_name := fs;
     extension := extension p; pk_nlay := pk_nlay p; pk_nrow := pk_nrow p;
     pk_ncol := pk_ncol p; pk_nper := pk_nper p |}.

Definition set_glo (g : option Package) (m : Modflow) : Modflow :=
  {| model_name := model_name m; namefile_ext := namefile_ext m;
     namefile := namefile m; exe_name := exe_name m;
     model_ws := model_ws m; structured := structured m;
     packagelist := packagelist m; pop_key_list := pop_key_list m;
     heading := heading m; version := version m; glo := g;
     lst := lst m; free_format := free_format m;
     array_format := array_format m;
     external_fnames := external_fnames m;
     external_units := external_units m;
     external_binflag := external_binflag m;
     external := external m; verbose := verbose m;
     load_flag := load_flag m; next_ext_unit_ := next_ext_unit_ m;
     external_path := external_path m; silent := silent m;
     mfpar := mfpar m; mfnam_packages := mfnam_packages m |}.

Definition set_lst (p : Package) (m : Modflow) : Modflow :=
  {| model_name := model_name m; namefile_ext := namefile_ext m;
     namefile := namefile m; exe_name := exe_name m;
     model_ws := model_ws m; structured := structured m;
     packagelist := packagelist m; pop_key_list := pop_key_list m;
     heading := heading m; version := version m; glo := glo m;
     lst := p; free_format := free_format m;
     array_format := array_format m;
     external_fnames := external_fnames m;
     external_units := external_units m;
     external_binflag := external_binflag m;
     external := external m; verbose := verbose m;
     load_flag := load_flag m; next_ext_unit_ := next_ext_unit_ m;
     external_path := external_path m; silent := silent m;
     mfpar := mfpar m; mfnam_packages := mfnam_packages m |}.

Definition index_msg : string := "list assignment index out of range".

(** [for i in range(len(extension)): file_name[i] = nm + '.' + extension[i]]
    from index [i] on, [exts] being the extensions not yet visited:
    the list as assigned so far, and the [IndexError] of an assignment
    past its end. *)
Fixpoint rename_loop (nm : string) (i : nat) (exts files : list string)
  : list string * option exn :=
  match exts with
  | [] => (files, None)
  | e :: r =>
      if Nat.ltb i (length files)
      then rename_loop nm (S i) r (<[i := nm +:+ "." +:+ e]> files)
      else (files, Some (mk_exn IndexError index_msg))
  end.

Definition rename_package (nm : string) (p : Package)
  : Package * option exn :=
  let (fs, err) := rename_loop nm 0 (extension p) (file_name p) in
  (set_file_name fs p, err).

Section SetName.

(** [BaseModel.set_name] is not under src/: a parameter.  [self.name] is
    read as the name [BaseModel] keeps, the field [model_name]. *)
Variable BaseModel_set_name : string -> Modflow -> outcome.

(** [Modflow.set_name]. *)
Definition set_name (value : string) (m : Modflow) : outcome :=
  match BaseModel_set_name value m with
  | Raised e m1 => Raised e m1
  | Returned m1 =>
      match
        (if String.eqb (version m1) "mf2k"
         then
           match glo m1 with
           | None => Raised (none_attr "extension") m1
           | Some g =>
               let (g', err) := rename_package (model_name m1) g in
               match err with
               | Some e => Raised e (set_glo (Some g') m1)
               | None => Returned (set_glo (Some g') m1)
               end
           end
         else Returned m1)
      with
      | Raised e m2 => Raised e m2
      | Returned m2 =>
          let (l', err) := rename_package (model_name m2) (lst m2) in
          match err with
          | Some e => Raised e (set_lst l' m2)
          | None => Returned (set_lst l' m2)
          end
      end
  end.

End SetName.

(** ** Loading results *)

(** The local variables of [load_results] that the [try] block assigns. *)
Record OcSettings : Type := mkOcSettings {
  hext : string;
  dext : string;
  cext : string;
  savehead : bool;
  saveddn : bool;
  savebud : bool
}.

Definition oc_defaults : OcSettings :=
  {| hext := "hds"; dext := "ddn"; cext := "cbc";
     savehead := false; saveddn := false; savebud := false |}.

(** The three tests on one entry [v] of the stress period data. *)
Definition oc_flag (st : OcSettings) (v : string) : OcSettings :=
  let st1 :=
    if String.eqb (PyStr.lower v) "save head"
    then {| hext := hext st; dext := dext st; cext := cext st;
            savehead := true; saveddn := saveddn st; savebud := savebud st |}
    else st in
  let st2 :=
    if String.eqb (PyStr.lower v) "save drawdown"
    then {| hext := hext st1; dext := dext st1; cext := cext st1;
            savehead := savehead st1; saveddn := true;
            savebud := savebud st1 |}
    else st1 in
  if String.eqb (PyStr.lower v) "save budget"
  then {| hext := hext st2; dext := dext st2; cext := cext st2;
          savehead := savehead st2; saveddn := saveddn st2;
          savebud := true |}
  else st2.

(** [for k, lst in oc.stress_period_data.items(): for v in lst: ...]. *)
Definition oc_flags (items : list (Z * list string)) (st : OcSettings)
  : OcSettings :=
  fold_left (fun st1 kl => fold_left oc_flag (snd kl) st1) items st.

Section LoadResults.

(** The collaborators of [load_results], none of them under src/: the
    package lookup, the stress period data of an output-control package,
    [os.path.exists], [os.path.join], and the two readers of
    [flopy.utils] with the objects they build. *)
Variable Obj : Type.
Variable get_package : Modflow -> string -> option Package.
Variable stress_period_data : Package -> list (Z * list string).
Variable path_exists : string -> bool.
Variable path_join : string -> string -> string.
Variable HeadFile : string -> result Obj.
Variable CellBudgetFile : string -> result Obj.

(** The [try: ... except: pass] block: each assignment made before an
    exception stays made. *)
Definition oc_settings (m : Modflow) : OcSettings :=
  match get_package m "OC" with
  | None => oc_defaults
  | Some oc =>
      match nth_error (extension oc) 1 with
      | None => oc_defaults
      | Some h =>
          let st1 := {| hext := h; dext := "ddn"; cext := "cbc";
                        savehead := false; saveddn := false;
                        savebud := false |} in
          match nth_error (extension oc) 2 with
          | None => st1
          | Some d =>
              let st2 := {| hext := h; dext := d; cext := "cbc";
                            savehead := false; saveddn := false;
                            savebud := false |} in
              match nth_error (extension oc) 3 with
              | None => st2
              | Some c =>
                  oc_flags (stress_period_data oc)
                    {| hext := h; dext := d; cext := c;
                       savehead := false; saveddn := false;
                       savebud := false |}
              end
          end
      end
  end.

(** [os.path.join(self.model_ws, '{}.{}'.format(self.get_name(), ext))]. *)
Definition result_path (m : Modflow) (ext : string) : string :=
  path_join (model_ws m) (model_name m +:+ "." +:+ ext).

(** [if flag and os.path.exists(pth): obj = reader(pth)]. *)
Definition open_if (flag : bool) (pth : string)
    (reader : string -> result Obj) : result (option Obj) :=
  if flag && path_exists pth
  then match reader pth with
       | Ok o => Ok (Some o)
       | Raise e => Raise e
       end
  else Ok None.

(** [Modflow.load_results]: the head, drawdown and budget objects. *)
Definition load_results (m : Modflow)
  : result (option Obj * option Obj * option Obj) :=
  let st := oc_settings m in
  match open_if (savehead st) (result_path m (hext st)) HeadFile with
  | Raise e => Raise e
  | Ok hdObj =>
      match open_if (saveddn st) (result_path m (dext st)) HeadFile with
      | Raise e => Raise e
      | Ok ddObj =>
          match open_if (savebud st) (result_path m (cext st))
                  CellBudgetFile with
          | Raise e => Raise e
          | Ok bdObj => Ok (hdObj, ddObj, bdObj)
          end
      end
  end.

End LoadResults.

(** ** Vocabulary of the further properties *)

(** The string has no ["."]. *)
Fixpoint no_dot (s : string) : bool :=
  match s with
  | EmptyString => true
  | String c r => negb (Ascii.eqb c "."%char) && no_dot r
  end.

(** The loader calls of a log, as (class, file) pairs in call order. *)
Definition loader_calls (l : list event) : list (PackageClass * string) :=
  flat_map (fun e => match e with
                     | EvLoad cls fname _ _ => [(cls, fname)]
                     | EvPar _ _ _ => []
                     end) l.

(** The (class, file) pairs of the entries of [t] that carry a package
    class and whose filetype is in [load_only], in table order. *)
Definition selected_calls (load_only : list string) (t : table)
  : list (PackageClass * string) :=
  flat_map (fun kv => match package (snd kv) with
                      | Some cls =>
                          if PyStr.mem (filetype (snd kv)) load_only
                          then [(cls, filename (snd kv))] else []
                      | None => []
                      end) t.

(** The (class, file) pairs of all entries that carry a package class. *)
Definition recognized_calls (t : table) : list (PackageClass * string) :=
  flat_map (fun kv => match package (snd kv) with
                      | Some cls => [(cls, filename (snd kv))]
                      | None => []
                      end) t.

(** An entry without a package class whose filetype contains "data". *)
Definition is_data_entry (kv : Z * NamData) : bool :=
  match package (snd kv) with
  | Some _ => false
  | None => PyStr.contains "data" (PyStr.lower (filetype (snd kv)))
  end.

(** The model as a call into a loader leaves it. *)
Definition model_after (o : dict_outcome) : Modflow :=
  match o with ReturnedD m _ => m | RaisedD _ m _ => m end.

(** [m'] has the external lists and the pop list of [m]. *)
Definition same_externals (m m' : Modflow) : Prop :=
  external_fnames m' = external_fnames m /\
  external_units m' = external_units m /\
  external_binflag m' = external_binflag m /\
  pop_key_list m' = pop_key_list m.

(** The data entries of [t] whose key is not in [pk], in table order. *)
Definition registered (pk : list Z) (t : table) : table :=
  List.filter
    (fun kv => is_data_entry kv && negb (existsb (Z.eqb (fst kv)) pk)) t.

Definition binary_flag (kv : Z * NamData) : bool :=
  PyStr.contains "binary" (PyStr.lower (filetype (snd kv))).


(** The key is not on the pop list of the model. *)
Definition not_popped (m : Modflow) (kv : Z * NamData) : bool :=
  negb (in_pop_key_list (fst kv) m).

Definition sample_isfile_yes (path : string) : bool := true.

(** Loaders of which the one for the discretization file is interrupted. *)
Definition sample_package_load_bad_dis (cls : PackageClass) (fname : string)
    (m : Modflow) (t : table) : dict_outcome :=
  match cls with
  | ModflowDis => RaisedD (mk_exn KeyboardInterrupt "stop") m t
  | _ => ReturnedD m t
  end.

Abbreviation sample_load_bad_dis f :=
  (fst (Modflow_load sample_parsenamefile sample_package_load_bad_dis
          sample_set_par sample_set_zone sample_set_par
          sample_remove_external sample_isfile sample_path_join
          f "mf2005" "mf2005.exe" false "." None ∅)).

Definition set_pop_key_list (keys : list Z) (m : Modflow) : Modflow :=
  {| model_name := model_name m; namefile_ext := namefile_ext m;
     namefile := namefile m; exe_name := exe_name m;
     model_ws := model_ws m; structured := structured m;
     packagelist := packagelist m; pop_key_list := keys;
     heading := heading m; version := version m; glo := glo m;
     lst := lst m; free_format := free_format m;
     array_format := array_format m;
     external_fnames := external_fnames m;
     external_units := external_units m;
     external_binflag := external_binflag m;
     external := external m; verbose := verbose m;
     load_flag := load_flag m; next_ext_unit_ := next_ext_unit_ m;
     external_path := external_path m; silent := silent m;
     mfpar := mfpar m; mfnam_packages := mfnam_packages m |}.

(** The sample state with units 30 and 99 on the pop list. *)
Definition sample_state_pop : St :=
  set_ml (set_pop_key_list [30%Z; 99%Z] sample_model) sample_state.

(** The file names of a package after renaming to [nm]: one per
    extension, then the file names beyond the extensions as they were. *)
Definition renamed_files (nm : string) (p : Package) : list string :=
  (map (fun e => nm +:+ "." +:+ e) (extension p)
   ++ drop (length (extension p)) (file_name p))%list.

(** Some entry of the stress period data lower-cases to [key]. *)
Definition oc_wants (key : string) (items : list (Z * list string)) : bool :=
  existsb (fun kl => existsb (fun v => String.eqb (PyStr.lower v) key)
                       (snd kl)) items.

Definition set_model_name (v : string) (m : Modflow) : Modflow :=
  {| model_name := v; namefile_ext := namefile_ext m;
     namefile := namefile m; exe_name := exe_name m;
     model_ws := model_ws m; structured := structured m;
     packagelist := packagelist m; pop_key_list := pop_key_list m;
     heading := heading m; version := version m; glo := glo m;
     lst := lst m; free_format := free_format m;
     array_format := array_format m;
     external_fnames := external_fnames m;
     external_units := external_units m;
     external_binflag := external_binflag m;
     external := external m; verbose := verbose m;
     load_flag := load_flag m; next_ext_unit_ := next_ext_unit_ m;
     external_path := external_path m; silent := silent m;
     mfpar := mfpar m; mfnam_packages := mfnam_packages m |}.

(** A [BaseModel.set_name] that stores the name. *)
Definition sample_base_set_name (v : string) (m : Modflow) : outcome :=
  Returned (set_model_name v m).

(** A model whose LIST package has a second extension without a file. *)
Definition sample_model_short : Modflow :=
  set_lst {| name := ["LIST"]; unit_number := [2%Z];
             file_name := ["old.list"]; extension := ["list"; "lst2"];
             pk_nlay := 0; pk_nrow := 0; pk_ncol := 0; pk_nper := 0 |}
    sample_model.

Definition sample_oc : Package :=
  {| name := ["OC"]; unit_number := [14%Z; 0%Z; 51%Z; 52%Z; 53%Z];
     file_name := ["m.oc"; "m.hds"; "m.ddn"; "m.cbc"];
     extension := ["oc"; "hds"; "ddn"; "cbc"];
     pk_nlay := 0; pk_nrow := 0; pk_ncol := 0; pk_nper := 0 |}.

Definition sample_model_oc : Modflow :=
  set_packagelist [sample_dis; sample_oc] sample_model.

Definition sample_stress_period_data (p : Package)
  : list (Z * list string) :=
  [(0%Z, ["SAVE HEAD"; "print budget"]); (1%Z, ["Save Budget"])].

Definition sample_path_exists (path : string) : bool :=
  String.eqb path "./modflowtest.hds".

Definition sample_reader (path : string) : result string := Ok path.




(** A [remove_external] that raises on unit 30. *)
Definition sample_remove_external_bad (key : Z) (m : Modflow) : outcome :=
  if Z.eqb key 30 then Raised (mk_exn OtherException "no unit 30") m
  else Returned m.

(** The stages of the sample load of "z.nam" with load_only omitted. *)
Definition sample_stages_zone : Stages :=
  let m0 := load_model sample_isfile sample_path_join
              "z" "mf2005" "mf2005.exe" false "." ∅ in
  {| sg_key := 11; sg_item := mkNamData "DIS" "m.dis" (Some ModflowDis);
     sg_cls := ModflowDis; sg_lo := ["ZONE"; "RCH"];
     sg_m1 := m0;
     sg_m2 := m0; sg_t2 := remove_key 11 sample_table_zone;
     sg_m3 := m0;
     sg_t3 := [(21%Z, mkNamData "RCH" "m.rch" (Some ModflowRch))];
     sg_m4 := m0;
     sg_t4 := [(21%Z, mkNamData "RCH" "m.rch" (Some ModflowRch))] |}.

(** * Properties *)

(** ** Strings *)

Module PyStrFacts.
Import PyStr.

Lemma append_cons (c : ascii) (s t : string) :
  String c s +:+ t = String c (s +:+ t).
Proof. reflexivity. Qed.

Lemma append_nil_r (s : string) : s +:+ EmptyString = s.
Proof.
  induction s as [|c s IH]; [reflexivity|].
  rewrite append_cons. f_equal. exact IH.
Qed.

Lemma append_assoc (a b c : string) : (a +:+ b) +:+ c = a +:+ (b +:+ c).
Proof.
  induction a as [|x a IH]; [reflexivity|].
  rewrite !append_cons. f_equal. exact IH.
Qed.

Lemma prefix_smap (f : ascii -> ascii) (p s : string) :
  String.prefix p s = true -> String.prefix (smap f p) (smap f s) = true.
Proof.
  revert s; induction p as [|a p IH]; intros [|b s]; simpl; try congruence.
  destruct (ascii_dec a b) as [->|]; [|congruence].
  destruct (ascii_dec (f b) (f b)); [apply IH | congruence].
Qed.

Lemma contains_smap (f : ascii -> ascii) (p s : string) :
  contains p s = true -> contains (smap f p) (smap f s) = true.
Proof.
  induction s as [|b s IH]; simpl; intros H; apply orb_true_iff in H;
    apply orb_true_iff.
  - destruct H as [H|H]; [|discriminate].
    left. exact (prefix_smap f p EmptyString H).
  - destruct H as [H|H].
    + left. exact (prefix_smap f p (String b s) H).
    + right. auto.
Qed.

(** Lower-casing cannot lose an occurrence of a lower-case needle. *)
Lemma contains_lower (p s : string) :
  lower p = p -> contains p s = true -> contains p (lower s) = true.
Proof.
  intros Hp H. rewrite <- Hp. unfold lower. now apply contains_smap.
Qed.

Lemma mem_In (x : string) (l : list string) : mem x l = true <-> In x l.
Proof.
  unfold mem. rewrite existsb_exists. split.
  - intros (y & Hy & E). apply String.eqb_eq in E. now subst.
  - intros H. exists x. split; [assumption | apply String.eqb_refl].
Qed.

End PyStrFacts.

(** ** The constructor *)

Lemma alloc_dict_fresh (d : gmap string PackageClass) (st : Store) :
  fst (alloc_dict d st) ∉ dom st.
Proof. unfold alloc_dict; simpl. apply is_fresh. Qed.

Lemma alloc_dict_lookup (d : gmap string PackageClass) (st : Store) :
  snd (alloc_dict d st) !! fst (alloc_dict d st) = Some d.
Proof. unfold alloc_dict; simpl. apply lookup_insert_eq. Qed.

Lemma alloc_dict_other (d : gmap string PackageClass) (st : Store) (l : loc) :
  l ∈ dom st -> snd (alloc_dict d st) !! l = st !! l.
Proof.
  intros Hl. unfold alloc_dict; simpl. apply lookup_insert_ne.
  intros E. subst l. exact (is_fresh (dom st) Hl).
Qed.

(** A constructor call that returns has allocated the registry and
    filled the object from its arguments. *)
Lemma Modflow_init_Ok (a : InitArgs) (st st' : Store) (m : Modflow) :
  Modflow_init a st = (Ok m, st') ->
  m = Modflow_fields a (fst (alloc_dict mfnam_packages_dict st)) /\
  st' = snd (alloc_dict mfnam_packages_dict st).
Proof.
  unfold Modflow_init.
  destruct (negb (a_structured a) && _); [discriminate|].
  destruct (match a_external_path a with Some _ => _ | None => _ end);
    [discriminate|].
  destruct (alloc_dict mfnam_packages_dict st) as [l s1] eqn:E.
  intros H. inversion H; subst. simpl. auto.
Qed.

(** The constructor call made by [Modflow.load] always returns. *)
Lemma Modflow_init_load_args (modelname v exe ws : string) (verb : bool)
    (st : Store) :
  Modflow_init (load_init_args modelname v exe ws verb) st =
  (Ok (Modflow_fields (load_init_args modelname v exe ws verb)
         (fst (alloc_dict mfnam_packages_dict st))),
   snd (alloc_dict mfnam_packages_dict st)).
Proof.
  unfold Modflow_init. simpl.
  destruct (alloc_dict mfnam_packages_dict st); reflexivity.
Qed.

(** ** The external-unit allocator *)

Lemma next_ext_unit_n_counter (n : nat) (m : Modflow) :
  next_ext_unit_ (snd (next_ext_unit_n n m)) = (next_ext_unit_ m + Z.of_nat n)%Z.
Proof.
  revert m; induction n as [|n IH]; intros m.
  - simpl. lia.
  - cbn [next_ext_unit_n]. unfold next_ext_unit.
    destruct (next_ext_unit_n n (set_next_ext_unit (next_ext_unit_ m + 1) m))
      as [us m2] eqn:E.
    simpl. specialize (IH (set_next_ext_unit (next_ext_unit_ m + 1) m)).
    rewrite E in IH. simpl in IH. lia.
Qed.

Lemma next_ext_unit_n_bounds (n : nat) (m : Modflow) :
  Forall (fun u => next_ext_unit_ m < u <= next_ext_unit_ m + Z.of_nat n)%Z
    (fst (next_ext_unit_n n m)).
Proof.
  revert m; induction n as [|n IH]; intros m.
  - constructor.
  - cbn [next_ext_unit_n]. unfold next_ext_unit.
    specialize (IH (set_next_ext_unit (next_ext_unit_ m + 1) m)).
    destruct (next_ext_unit_n n (set_next_ext_unit (next_ext_unit_ m + 1) m))
      as [us m2] eqn:E.
    simpl in *. constructor; [lia|].
    eapply Forall_impl; [exact IH|]. simpl. intros u Hu. lia.
Qed.

Lemma next_ext_unit_n_sorted (n : nat) (m : Modflow) :
  StronglySorted Z.lt (fst (next_ext_unit_n n m)).
Proof.
  revert m; induction n as [|n IH]; intros m.
  - constructor.
  - cbn [next_ext_unit_n]. unfold next_ext_unit.
    pose proof (next_ext_unit_n_bounds n
                  (set_next_ext_unit (next_ext_unit_ m + 1) m)) as B.
    specialize (IH (set_next_ext_unit (next_ext_unit_ m + 1) m)).
    destruct (next_ext_unit_n n (set_next_ext_unit (next_ext_unit_ m + 1) m))
      as [us m2] eqn:E.
    simpl in *. constructor; [exact IH|].
    eapply Forall_impl; [exact B|]. simpl. intros u Hu. lia.
Qed.

Lemma next_ext_unit_n_length (n : nat) (m : Modflow) :
  length (fst (next_ext_unit_n n m)) = n.
Proof.
  revert m; induction n as [|n IH]; intros m; [reflexivity|].
  cbn [next_ext_unit_n]. unfold next_ext_unit.
  specialize (IH (set_next_ext_unit (next_ext_unit_ m + 1) m)).
  destruct (next_ext_unit_n n (set_next_ext_unit (next_ext_unit_ m + 1) m)).
  simpl in *. now rewrite IH.
Qed.

(** C5: on a freshly constructed model, after any number [k] of earlier
    calls, [n] consecutive calls of [next_ext_unit] return [n] strictly
    increasing integers, none below 1000 and none equal to a value the
    instance returned before. *)
Theorem next_ext_unit_strictly_increasing
    (a : InitArgs) (st st' : Store) (m : Modflow) (k n : nat) :
  Modflow_init a st = (Ok m, st') ->
  let prev := fst (next_ext_unit_n k m) in
  let us := fst (next_ext_unit_n n (snd (next_ext_unit_n k m))) in
  length us = n /\
  StronglySorted Z.lt us /\
  Forall (fun u => 1000 <= u)%Z us /\
  Forall (fun u => ~ In u prev) us.
Proof.
  intros Hinit prev us.
  apply Modflow_init_Ok in Hinit as [-> _].
  pose proof (next_ext_unit_n_bounds k
                (Modflow_fields a (fst (alloc_dict mfnam_packages_dict st))))
    as Bprev.
  pose proof (next_ext_unit_n_counter k
                (Modflow_fields a (fst (alloc_dict mfnam_packages_dict st))))
    as Ck.
  pose proof (next_ext_unit_n_bounds n
                (snd (next_ext_unit_n k
                   (Modflow_fields a
                      (fst (alloc_dict mfnam_packages_dict st))))))
    as Bus.
  rewrite Ck in Bus. simpl in Bprev, Bus.
  fold prev in Bprev. fold us in Bus.
  repeat split.
  - apply next_ext_unit_n_length.
  - apply next_ext_unit_n_sorted.
  - eapply Forall_impl; [exact Bus|]. simpl. intros u Hu. lia.
  - rewrite Forall_forall in Bus, Bprev. apply Forall_forall.
    intros u Hu Hin.
    apply list_elem_of_In in Hin.
    specialize (Bus u Hu). specialize (Bprev u Hin). simpl in *. lia.
Qed.

Lemma next_ext_unit_strictly_increasing_witness :
  let m := Modflow_fields default_args
             (fst (alloc_dict mfnam_packages_dict ∅)) in
  let prev := fst (next_ext_unit_n 2 m) in
  let us := fst (next_ext_unit_n 3 (snd (next_ext_unit_n 2 m))) in
  length us = 3%nat /\
  StronglySorted Z.lt us /\
  Forall (fun u => 1000 <= u)%Z us /\
  Forall (fun u => ~ In u prev) us.
Proof.
  apply (next_ext_unit_strictly_increasing default_args ∅
           (snd (alloc_dict mfnam_packages_dict ∅)) _ 2 3).
  reflexivity.
Defined.

(** C10, as the code has it: with [structured=False], the constructor
    raises the assertion failure exactly when the lower-cased version
    string does not contain "mfusg"; any version that contains "mfusg"
    (or does so once lower-cased) is accepted. *)
Theorem Modflow_init_structured_false (a : InitArgs) (st : Store) :
  a_structured a = false ->
  (PyStr.contains "mfusg" (PyStr.lower (a_version a)) = false ->
   Modflow_init a st = (Raise (mk_exn AssertionError structured_msg), st)) /\
  (PyStr.contains "mfusg" (PyStr.lower (a_version a)) = true ->
   fst (Modflow_init a st) <> Raise (mk_exn AssertionError structured_msg) /\
   (a_external_path a = None ->
    exists m st', Modflow_init a st = (Ok m, st') /\ structured m = false)) /\
  (PyStr.contains "mfusg" (a_version a) = true ->
   PyStr.contains "mfusg" (PyStr.lower (a_version a)) = true).
Proof.
  intros Hs. unfold Modflow_init. rewrite Hs. simpl negb at 1.
  split; [|split].
  - intros ->. reflexivity.
  - intros ->. simpl "&&".
    split.
    + destruct (a_external_path a) as [p|].
      * destruct (negb (a_model_ws a =? ".")); simpl.
        -- intros E. inversion E.
        -- destruct (alloc_dict mfnam_packages_dict st). simpl. discriminate.
      * destruct (alloc_dict mfnam_packages_dict st). simpl. discriminate.
    + intros ->.
      destruct (alloc_dict mfnam_packages_dict st) as [l s1].
      eexists _, _. split; [reflexivity|]. simpl. exact Hs.
  - apply PyStrFacts.contains_lower. reflexivity.
Qed.

Lemma Modflow_init_structured_false_witness :
  let a := mkInitArgs "m" "nam" "mf2005" "mf2005.exe" false 2 "." None
             false true 0 in
  Modflow_init a ∅ = (Raise (mk_exn AssertionError structured_msg), ∅).
Proof.
  intros a.
  apply (proj1 (Modflow_init_structured_false a ∅ eq_refl)).
  reflexivity.
Defined.

(** C10 as stated fails: "MFUSG" does not contain "mfusg", yet the
    constructor accepts it with [structured=False]. *)
Lemma Modflow_init_structured_false_counterexample :
  let a := mkInitArgs "m" "nam" "MFUSG" "mf2005.exe" false 2 "." None
             false true 0 in
  a_structured a = false /\
  PyStr.contains "mfusg" (a_version a) = false /\
  exists m st', Modflow_init a ∅ = (Ok m, st') /\ structured m = false.
Proof.
  intros a. split; [reflexivity|]. split; [reflexivity|].
  eexists _, _. split; reflexivity.
Qed.

(** ** The registry *)

Lemma registry_set_other (m1 m2 : Modflow) (k key : string)
    (v : PackageClass) (st : Store) :
  mfnam_packages m1 <> mfnam_packages m2 ->
  registry_get m2 key (registry_set m1 k v st) = registry_get m2 key st.
Proof.
  intros Hne. unfold registry_get, registry_set.
  destruct (st !! mfnam_packages m1) as [d|] eqn:E; [|reflexivity].
  rewrite lookup_insert_ne by exact Hne. reflexivity.
Qed.

Lemma registry_set_same (m : Modflow) (k : string) (v : PackageClass)
    (st : Store) :
  is_Some (st !! mfnam_packages m) ->
  registry_get m k (registry_set m k v st) = Some v.
Proof.
  intros [d E]. unfold registry_get, registry_set. rewrite E.
  rewrite lookup_insert_eq. apply lookup_insert_eq.
Qed.

(** C9: each constructed model holds a registry dictionary of its own,
    built afresh from the literal: for two models constructed one after
    the other (the first still alive in the store), the dictionaries are
    distinct objects, each starts as the literal, and setting a key in
    either leaves every lookup in the other unchanged. *)
Theorem registry_per_instance
    (a1 a2 : InitArgs) (st0 st1 st1' st2 : Store) (m1 m2 : Modflow) :
  Modflow_init a1 st0 = (Ok m1, st1) ->
  mfnam_packages m1 ∈ dom st1' ->
  Modflow_init a2 st1' = (Ok m2, st2) ->
  mfnam_packages m1 <> mfnam_packages m2 /\
  (mfnam_packages m1 ∉ dom st0) /\
  (mfnam_packages m2 ∉ dom st1') /\
  st1 !! mfnam_packages m1 = Some mfnam_packages_dict /\
  st2 !! mfnam_packages m2 = Some mfnam_packages_dict /\
  st2 !! mfnam_packages m1 = st1' !! mfnam_packages m1 /\
  forall (k : string) (v : PackageClass),
    registry_get m1 k (registry_set m1 k v st2) = Some v /\
    registry_get m2 k (registry_set m2 k v st2) = Some v /\
    forall key : string,
      registry_get m2 key (registry_set m1 k v st2) = registry_get m2 key st2 /\
      registry_get m1 key (registry_set m2 k v st2) = registry_get m1 key st2.
Proof.
  intros H1 Hlive H2.
  apply Modflow_init_Ok in H1 as [-> ->].
  apply Modflow_init_Ok in H2 as [-> ->].
  cbn [mfnam_packages Modflow_fields] in *.
  assert (Hne : fst (alloc_dict mfnam_packages_dict st0)
                <> fst (alloc_dict mfnam_packages_dict st1')).
  { intros E. rewrite E in Hlive.
    exact (alloc_dict_fresh mfnam_packages_dict st1' Hlive). }
  assert (Hkeep : snd (alloc_dict mfnam_packages_dict st1')
                    !! fst (alloc_dict mfnam_packages_dict st0)
                  = st1' !! fst (alloc_dict mfnam_packages_dict st0)).
  { apply alloc_dict_other. exact Hlive. }
  repeat split.
  - exact Hne.
  - apply alloc_dict_fresh.
  - apply alloc_dict_fresh.
  - apply alloc_dict_lookup.
  - apply alloc_dict_lookup.
  - exact Hkeep.
  - apply registry_set_same. cbn [mfnam_packages Modflow_fields].
    rewrite Hkeep. apply elem_of_dom. exact Hlive.
  - apply registry_set_same. cbn [mfnam_packages Modflow_fields].
    rewrite alloc_dict_lookup. eexists; reflexivity.
  - apply registry_set_other. exact Hne.
  - apply registry_set_other. cbn [mfnam_packages Modflow_fields].
    intros E. apply Hne. symmetry. exact E.
Qed.

Lemma registry_per_instance_witness :
  let st1 := snd (alloc_dict mfnam_packages_dict ∅) in
  let m1 := Modflow_fields default_args
              (fst (alloc_dict mfnam_packages_dict ∅)) in
  let m2 := Modflow_fields default_args
              (fst (alloc_dict mfnam_packages_dict st1)) in
  let st2 := snd (alloc_dict mfnam_packages_dict st1) in
  registry_get m2 "lak" (registry_set m1 "lak" (UserPackage "ModflowLak") st2)
  = registry_get m2 "lak" st2.
Proof.
  intros st1 m1 m2 st2.
  assert (H1 : Modflow_init default_args ∅ = (Ok m1, st1)) by reflexivity.
  assert (Hlive : mfnam_packages m1 ∈ dom st1).
  { apply elem_of_dom. unfold m1, st1. cbn [mfnam_packages Modflow_fields].
    rewrite alloc_dict_lookup. eexists; reflexivity. }
  assert (H2 : Modflow_init default_args st1 = (Ok m2, st2)).
  { unfold Modflow_init. simpl negb. simpl andb. cbv iota.
    unfold m2, st2. destruct (alloc_dict mfnam_packages_dict st1).
    reflexivity. }
  destruct (registry_per_instance default_args default_args ∅ st1 st1 st2
              m1 m2 H1 Hlive H2) as (_ & _ & _ & _ & _ & _ & Hset).
  destruct (Hset "lak" (UserPackage "ModflowLak")) as (_ & _ & Hother).
  exact (proj1 (Hother "lak")).
Defined.

(** ** Grid shape *)

(** C8: when no discretization package is loaded the grid accessors
    return 0, and [get_nrow_ncol_nlay_nper] returns (0, 0, 0, 0); when one
    is loaded each accessor returns the value read from it. *)
Theorem grid_accessors_delegate
    (get_package : Modflow -> string -> option Package) (m : Modflow) :
  (get_package m "dis" = None ->
   nlay get_package m = 0%Z /\ nrow get_package m = 0%Z /\
   ncol get_package m = 0%Z /\ nper get_package m = 0%Z) /\
  (get_package m "DIS" = None ->
   get_nrow_ncol_nlay_nper get_package m = (0, 0, 0, 0)%Z) /\
  (forall d, get_package m "dis" = Some d ->
   nlay get_package m = pk_nlay d /\ nrow get_package m = pk_nrow d /\
   ncol get_package m = pk_ncol d /\ nper get_package m = pk_nper d) /\
  (forall d, get_package m "DIS" = Some d ->
   get_nrow_ncol_nlay_nper get_package m
   = (pk_nrow d, pk_ncol d, pk_nlay d, pk_nper d)).
Proof.
  unfold nlay, nrow, ncol, nper, self_dis, get_nrow_ncol_nlay_nper.
  repeat split; intros; rewrite H; reflexivity.
Qed.

(** ** The name file *)

Section WriterFacts.

Variable relpath : string -> string -> string.

Lemma concat_empty_app (l1 l2 : list string) :
  String.concat EmptyString (l1 ++ l2)%list
  = String.concat EmptyString l1 +:+ String.concat EmptyString l2.
Proof.
  induction l1 as [|x l1 IH]; [reflexivity|].
  change ((x :: l1) ++ l2)%list with (x :: (l1 ++ l2))%list.
  destruct l1 as [|y l1].
  - destruct l2 as [|z l2].
    + simpl. symmetry. apply PyStrFacts.append_nil_r.
    + reflexivity.
  - change (String.concat EmptyString (x :: ((y :: l1) ++ l2)%list))
      with (x +:+ EmptyString +:+ String.concat EmptyString ((y :: l1) ++ l2)%list).
    rewrite IH.
    change (String.concat EmptyString (x :: y :: l1))
      with (x +:+ EmptyString +:+ String.concat EmptyString (y :: l1)).
    change (EmptyString +:+ String.concat EmptyString (y :: l1))
      with (String.concat EmptyString (y :: l1)).
    change (EmptyString +:+ (String.concat EmptyString (y :: l1) +:+ String.concat EmptyString l2))
      with (String.concat EmptyString (y :: l1) +:+ String.concat EmptyString l2).
    symmetry. apply PyStrFacts.append_assoc.
Qed.

Lemma concat_empty_cons (x : string) (l : list string) :
  String.concat EmptyString (x :: l) = x +:+ String.concat EmptyString l.
Proof. exact (concat_empty_app [x] l). Qed.

Lemma write_externals_spec (ws : string) (l : list (Z * string * bool))
    (buf : string) :
  write_externals relpath ws l buf
  = buf +:+ String.concat EmptyString
              (map (data_line relpath ws)
                 (List.filter (fun e => negb (Z.eqb (fst (fst e)) 0)) l)).
Proof.
  revert buf; induction l as [|[[u f] b] l IH]; intros buf.
  - simpl. symmetry. apply PyStrFacts.append_nil_r.
  - cbn [write_externals List.filter fst].
    destruct (Z.eqb u 0) eqn:E; cbn [negb].
    + apply IH.
    + rewrite IH. cbn [map]. rewrite concat_empty_cons.
      apply PyStrFacts.append_assoc.
Qed.

End WriterFacts.

Lemma grid_accessors_delegate_witness :
  (nlay sample_get_package sample_model = 0%Z /\
   get_nrow_ncol_nlay_nper sample_get_package sample_model = (0, 0, 0, 0)%Z) /\
  (nlay sample_get_package sample_model_dis = 3%Z /\
   get_nrow_ncol_nlay_nper sample_get_package sample_model_dis
   = (10, 20, 3, 2)%Z).
Proof.
  destruct (grid_accessors_delegate sample_get_package sample_model)
    as (Hz & Hz4 & _ & _).
  destruct (grid_accessors_delegate sample_get_package sample_model_dis)
    as (_ & _ & Hd & Hd4).
  split; split.
  - exact (proj1 (Hz eq_refl)).
  - exact (Hz4 eq_refl).
  - exact (proj1 (Hd sample_dis eq_refl)).
  - exact (Hd4 sample_dis eq_refl).
Defined.

(** C7, as the code has it: [write_name_file] writes, in order, the
    heading line, the global-package line only under version mf2k, the
    listing line, one line per owned package file entry, then one DATA or
    DATA(BINARY) line for every external entry whose unit is not 0, each
    file name taken relative to the model workspace. *)
Theorem write_name_file_layout
    (relpath : string -> string -> string) (m : Modflow)
    (glo_line lst_line : string) :
  (version m = "mf2k" ->
   exists g, glo m = Some g /\ first_entry_line g = Ok glo_line) ->
  first_entry_line (lst m) = Ok lst_line ->
  write_name_file relpath m
  = Ok (String.concat EmptyString
          (head_lines m glo_line lst_line
           ++ map (data_line relpath (model_ws m)) (written_externals m))%list).
Proof.
  intros Hglo Hlst. unfold write_name_file, head_lines.
  destruct (String.eqb_spec (version m) "mf2k") as [E|E].
  - destruct (Hglo E) as (g & -> & ->).
    rewrite Hlst, write_externals_spec.
    fold (all_externals m). fold (written_externals m).
    f_equal. rewrite !concat_empty_app.
    change (String.concat EmptyString [heading m +:+ nl]) with (heading m +:+ nl).
    change (String.concat EmptyString [glo_line]) with glo_line.
    change (String.concat EmptyString [lst_line]) with lst_line.
    unfold get_name_file_entries.
    rewrite !PyStrFacts.append_assoc. reflexivity.
  - rewrite Hlst, write_externals_spec.
    fold (all_externals m). fold (written_externals m).
    f_equal. rewrite !concat_empty_app.
    change (String.concat EmptyString [heading m +:+ nl]) with (heading m +:+ nl).
    change (String.concat EmptyString [lst_line]) with lst_line.
    change (String.concat EmptyString []) with EmptyString.
    unfold get_name_file_entries.
    rewrite !PyStrFacts.append_assoc. reflexivity.
Qed.

Lemma write_name_file_layout_witness :
  let m := append_external "./h.bin" 51 true
             (append_external "./a.dat" 1001 false sample_model_dis) in
  write_name_file sample_relpath m
  = Ok (String.concat EmptyString
          (head_lines m EmptyString (entry_line "LIST" 2 "modflowtest.list")
           ++ map (data_line sample_relpath (model_ws m))
                (written_externals m))%list).
Proof.
  intros m.
  apply (write_name_file_layout sample_relpath m EmptyString
           (entry_line "LIST" 2 "modflowtest.list")).
  - intros H. vm_compute in H. discriminate H.
  - reflexivity.
Defined.

(** C7 as stated fails: an external entry with unit 0 is skipped, so not
    every external entry gets a line. *)
Lemma write_name_file_layout_counterexample :
  let m := append_external "a.dat" 0 false sample_model in
  all_externals m = [(0%Z, "a.dat", false)] /\
  write_name_file sample_relpath m
  = Ok (String.concat EmptyString
          (head_lines m EmptyString (entry_line "LIST" 2 "modflowtest.list"))) /\
  write_name_file sample_relpath m
  <> Ok (String.concat EmptyString
           (head_lines m EmptyString (entry_line "LIST" 2 "modflowtest.list")
            ++ map (data_line sample_relpath (model_ws m))
                 (all_externals m))%list).
Proof.
  intros m. split; [reflexivity|]. split; [reflexivity|].
  vm_compute. intros H. discriminate H.
Qed.

(** ** Loading *)

Lemma find_dis_None (t : table) :
  find_dis t = None <->
  Forall (fun kv => PyStr.lower (filetype (snd kv)) <> "dis") t.
Proof.
  induction t as [|[k item] t IH]; simpl.
  - split; [constructor | reflexivity].
  - destruct (String.eqb_spec (PyStr.lower (filetype item)) "dis") as [E|E].
    + split; [discriminate|]. intros H. inversion H; subst. simpl in *.
      contradiction.
    + rewrite IH. split.
      * intros H. constructor; assumption.
      * intros H. inversion H; assumption.
Qed.

Lemma find_dis_Some (t : table) (key : Z) (item : NamData) :
  find_dis t = Some (key, item) ->
  In (key, item) t /\ PyStr.lower (filetype item) = "dis" /\
  has_key key t = true /\
  exists l1 l2, t = (l1 ++ (key, item) :: l2)%list /\ find_dis l1 = None.
Proof.
  induction t as [|[k it] t IH]; simpl; [discriminate|].
  destruct (String.eqb_spec (PyStr.lower (filetype it)) "dis") as [E|E].
  - intros H. inversion H; subst. repeat split.
    + left; reflexivity.
    + assumption.
    + unfold has_key. simpl. rewrite Z.eqb_refl. reflexivity.
    + exists [], t. split; reflexivity.
  - intros H. destruct (IH H) as (Hin & Hl & Hk & l1 & l2 & -> & Hn).
    repeat split.
    + right; assumption.
    + assumption.
    + unfold has_key in *. simpl. rewrite Hk. apply orb_true_r.
    + exists ((k, it) :: l1), l2. split; [reflexivity|].
      simpl. destruct (String.eqb_spec (PyStr.lower (filetype it)) "dis");
        [contradiction | assumption].
Qed.

Lemma find_dis_Exists (t : table) :
  Exists (fun kv => PyStr.lower (filetype (snd kv)) = "dis") t ->
  exists key item, find_dis t = Some (key, item).
Proof.
  intros H. destruct (find_dis t) as [[key item]|] eqn:E; [eauto|].
  apply find_dis_None in E. rewrite Forall_forall in E.
  apply Exists_exists in H as ([k it] & Hin & Hl).
  exfalso. exact (E _ Hin Hl).
Qed.

Lemma has_key_remove_key (k : Z) (t : table) :
  has_key k (remove_key k t) = false.
Proof.
  unfold has_key, remove_key. induction t as [|[k' it] t IH]; [reflexivity|].
  simpl. destruct (Z.eqb_spec k' k) as [E|E]; simpl; [exact IH|].
  destruct (Z.eqb_spec k' k); [contradiction | exact IH].
Qed.

Lemma In_remove_key (k : Z) (kv : Z * NamData) (t : table) :
  In kv (remove_key k t) <-> In kv t /\ fst kv <> k.
Proof.
  unfold remove_key. rewrite filter_In. split; intros [H1 H2]; split; auto.
  - intros E. rewrite E, Z.eqb_refl in H2. discriminate.
  - destruct (Z.eqb_spec (fst kv) k); [contradiction | reflexivity].
Qed.

Lemma has_key_In (k : Z) (t : table) :
  has_key k t = true <-> exists kv, In kv t /\ fst kv = k.
Proof.
  unfold has_key. rewrite existsb_exists. split.
  - intros (kv & Hin & E). exists kv. split; [exact Hin|].
    apply Z.eqb_eq. exact E.
  - intros (kv & Hin & E). exists kv. split; [exact Hin|].
    apply Z.eqb_eq. exact E.
Qed.

Lemma has_key_false_incl (k : Z) (t t' : table) :
  (forall kv, In kv t' -> In kv t) ->
  has_key k t = false -> has_key k t' = false.
Proof.
  intros Hincl Hk. destruct (has_key k t') eqn:E; [|reflexivity].
  apply has_key_In in E as (kv & Hin & Hkv).
  assert (has_key k t = true) as Ht.
  { apply has_key_In. exists kv. split; [apply Hincl; exact Hin | exact Hkv]. }
  rewrite Ht in Hk. discriminate Hk.
Qed.

Lemma has_key_false_remove (k k' : Z) (t : table) :
  has_key k t = false -> has_key k (remove_key k' t) = false.
Proof.
  apply has_key_false_incl. intros kv Hin.
  apply In_remove_key in Hin. tauto.
Qed.

Lemma nth_error_drop (l : table) (i : nat) (kv : Z * NamData) :
  nth_error l i = Some kv -> drop i l = kv :: drop (S i) l.
Proof.
  revert i. induction l as [|x l IH]; intros [|i] H; try discriminate.
  - cbn in H. inversion H; subst. reflexivity.
  - cbn in H. cbn [drop]. exact (IH i H).
Qed.

Lemma drop_length_nil (l : table) : drop (length l) l = [].
Proof. induction l as [|x l IH]; [reflexivity | exact IH]. Qed.

Lemma loader_calls_app (a b : list event) :
  loader_calls (a ++ b) = (loader_calls a ++ loader_calls b)%list.
Proof. unfold loader_calls. apply flat_map_app. Qed.

Lemma selected_calls_cons (lo : list string) (kv : Z * NamData) (t : table) :
  selected_calls lo (kv :: t)
  = (selected_calls lo [kv] ++ selected_calls lo t)%list.
Proof.
  unfold selected_calls. cbn [flat_map]. rewrite app_nil_r. reflexivity.
Qed.

Section LoadFacts.

Variable parsenamefile :
  string -> gmap string PackageClass -> bool -> result table.
Variable package_load :
  PackageClass -> string -> Modflow -> table -> dict_outcome.
Variable set_pval : Modflow -> table -> dict_outcome.
Variable set_zone : Modflow -> table -> dict_outcome.
Variable set_mult : Modflow -> table -> dict_outcome.
Variable remove_external : Z -> Modflow -> outcome.
Variable isfile : string -> bool.
Variable path_join : string -> string -> string.

(** The discretization block, case by case. *)
Lemma load_dis_run (s : St) :
  load_dis package_load s =
  match find_dis (ext_unit_dict s) with
  | None => (Raise (none_attr "filename"), s)
  | Some (key, item) =>
      match package item with
      | None =>
          (Raise (mk_exn Exception
                    (dis_msg (filename item) +:+ " "
                     +:+ exn_str (none_attr "load"))), s)
      | Some cls =>
          match package_load cls (filename item) (ml s) (ext_unit_dict s) with
          | ReturnedD m' t' =>
              if has_key key t'
              then
                (Ok tt,
                 {| ml := m';
                    ext_unit_dict := remove_key key t';
                    files_succesfully_loaded :=
                      files_succesfully_loaded s ++ [filename item];
                    files_not_loaded := files_not_loaded s;
                    calls := calls s
                             ++ [EvLoad cls (filename item) (ext_unit_dict s)
                                   false] |})
              else
                (Raise (mk_exn Exception
                          (dis_msg (filename item) +:+ " "
                           +:+ PyStr.str_int key)),
                 {| ml := m';
                    ext_unit_dict := t';
                    files_succesfully_loaded :=
                      files_succesfully_loaded s ++ [filename item];
                    files_not_loaded := files_not_loaded s;
                    calls := calls s
                             ++ [EvLoad cls (filename item) (ext_unit_dict s)
                                   false] |})
          | RaisedD e m' t' =>
              (Raise (if is_Exception e
                      then mk_exn Exception
                             (dis_msg (filename item) +:+ " " +:+ exn_str e)
                      else e),
               log (EvLoad cls (filename item) (ext_unit_dict s) true)
                 (set_dict t' (set_ml m' s)))
          end
      end
  end.
Proof.
  unfold load_dis, bind, gets, try_except. cbn [fst snd].
  destruct (find_dis (ext_unit_dict s)) as [[key item]|] eqn:Hf;
    cbn [option_map attr snd fst raise ret catch_Exception];
    [|reflexivity].
  destruct (package item) as [cls|]; cbn [attr ret raise]; [|reflexivity].
  unfold call_load.
  destruct (package_load cls (filename item) (ml s) (ext_unit_dict s))
    as [m' t'|e m' t'].
  - unfold files_succesfully_loaded_append, modify, dict_pop.
    cbn [ext_unit_dict log set_ml set_dict].
    destruct (has_key key t'); reflexivity.
  - unfold catch_Exception. destruct (is_Exception e); reflexivity.
Qed.

(** One pass of the package loop never raises. *)
Lemma load_entry_run (load_only : list string) (kv : Z * NamData) (s : St) :
  load_entry package_load load_only kv s
  = (Ok tt, load_entry_post package_load load_only kv s).
Proof.
  destruct kv as [key item]. unfold load_entry, load_entry_post.
  destruct (package item) as [cls|].
  - destruct (PyStr.mem (filetype item) load_only); [|reflexivity].
    unfold try_except, bind, call_load.
    destruct (package_load cls (filename item) (ml s) (ext_unit_dict s));
      reflexivity.
  - destruct (PyStr.contains "data" (PyStr.lower (filetype item)));
      cbn [negb]; [|reflexivity].
    unfold bind, gets. cbn [fst snd].
    destruct (in_pop_key_list key (ml s)); reflexivity.
Qed.

(** The reconciliation loop never raises and is quiet. *)
Lemma pop_step_run (key : Z) (s : St) :
  exists s',
    try_except catch_all
      (bind (call_remove_external remove_external key)
         (fun _ => dict_pop (Some key)))
      (fun _ => ret tt) s = (Ok tt, s') /\
    calls s' = calls s /\ files_not_loaded s' = files_not_loaded s /\
    files_succesfully_loaded s' = files_succesfully_loaded s.
Proof.
  unfold try_except, bind, call_remove_external, dict_pop, catch_all, ret.
  destruct (remove_external key (ml s)) as [m'|e m']; cbn [ext_unit_dict set_ml].
  - destruct (has_key key (ext_unit_dict s)); eexists; split;
      try reflexivity; auto.
  - eexists; split; [reflexivity|]. auto.
Qed.

Lemma pop_loop_run (keys : list Z) (s : St) :
  exists s',
    for_each keys (fun key =>
      try_except catch_all
        (bind (call_remove_external remove_external key)
           (fun _ => dict_pop (Some key)))
        (fun _ => ret tt)) s = (Ok tt, s') /\
    calls s' = calls s /\ files_not_loaded s' = files_not_loaded s /\
    files_succesfully_loaded s' = files_succesfully_loaded s.
Proof.
  revert s; induction keys as [|k keys IH]; intros s.
  - exists s. repeat split; reflexivity.
  - cbn [for_each]. unfold bind at 1.
    destruct (pop_step_run k s) as (s1 & -> & Hc & Hn & Hl).
    destruct (IH s1) as (s2 & -> & Hc2 & Hn2 & Hl2).
    exists s2. repeat split; congruence.
Qed.

Lemma pop_keys_run (s : St) :
  exists s',
    pop_keys remove_external s = (Ok tt, s') /\
    calls s' = calls s /\ files_not_loaded s' = files_not_loaded s /\
    files_succesfully_loaded s' = files_succesfully_loaded s.
Proof.
  unfold pop_keys. unfold bind at 1. unfold gets. cbn [fst snd].
  apply pop_loop_run.
Qed.

(** The statements after the discretization block, up to the package
    loop, case by case. *)
Lemma after_dis_run (load_only : option LoadOnly) (s : St) :
  after_dis package_load set_pval set_zone set_mult remove_external
    load_only s
  = match load_only_list load_only (ext_unit_dict s) with
    | Raise e => (Raise e, s)
    | Ok lo =>
        match set_pval (ml s) (ext_unit_dict s) with
        | RaisedD e m1 t1 =>
            (Raise e,
             log (EvPar "pval" (ext_unit_dict s) true)
               (set_dict t1 (set_ml m1 s)))
        | ReturnedD m1 t1 =>
            let s1 := log (EvPar "pval" (ext_unit_dict s) false)
                        (set_dict t1 (set_ml m1 s)) in
            match set_zone m1 t1 with
            | RaisedD e m2 t2 =>
                (Raise e,
                 log (EvPar "zone" t1 true) (set_dict t2 (set_ml m2 s1)))
            | ReturnedD m2 t2 =>
                let s2 := log (EvPar "zone" t1 false)
                            (set_dict t2 (set_ml m2 s1)) in
                match set_mult m2 t2 with
                | RaisedD e m3 t3 =>
                    (Raise e,
                     log (EvPar "mult" t2 true) (set_dict t3 (set_ml m3 s2)))
                | ReturnedD m3 t3 =>
                    let s3 := log (EvPar "mult" t2 false)
                                (set_dict t3 (set_ml m3 s2)) in
                    bind (load_packages package_load lo)
                      (fun _ => pop_keys remove_external) s3
                end
            end
        end
    end.
Proof.
  unfold after_dis, resolve_load_only.
  unfold bind at 1. unfold bind at 1. unfold gets. cbn [fst snd].
  destruct (load_only_list load_only (ext_unit_dict s)) as [lo|e];
    cbn [ret raise]; [|reflexivity].
  unfold bind at 1. unfold call_par at 1.
  destruct (set_pval (ml s) (ext_unit_dict s)) as [m1 t1|e1 m1 t1];
    [|reflexivity].
  unfold bind at 1. unfold call_par at 1.
  cbn [ml ext_unit_dict log set_ml set_dict].
  destruct (set_zone m1 t1) as [m2 t2|e2 m2 t2]; [|reflexivity].
  unfold bind at 1. unfold call_par at 1.
  cbn [ml ext_unit_dict log set_ml set_dict].
  destruct (set_mult m2 t2) as [m3 t3|e3 m3 t3]; reflexivity.
Qed.

Lemma load_body_split (load_only : option LoadOnly) (s : St) :
  load_body package_load set_pval set_zone set_mult remove_external
    load_only s
  = match load_dis package_load s with
    | (Ok _, s1) =>
        after_dis package_load set_pval set_zone set_mult remove_external
          load_only s1
    | (Raise e, s1) => (Raise e, s1)
    end.
Proof. reflexivity. Qed.

(** [Modflow.load] once the parser has returned. *)
Lemma Modflow_load_parsed (f v exe : string) (verb : bool) (ws : string)
    (load_only : option LoadOnly) (st : Store) (t : table) :
  parsenamefile (load_namefile_path isfile path_join f ws)
    mfnam_packages_dict verb = Ok t ->
  fst (Modflow_load parsenamefile package_load set_pval set_zone set_mult
         remove_external isfile path_join f v exe verb ws load_only st)
  = report_of
      (fst (load_body package_load set_pval set_zone set_mult
              remove_external load_only
              (load_state0 isfile path_join f v exe verb ws st t)))
      (snd (load_body package_load set_pval set_zone set_mult
              remove_external load_only
              (load_state0 isfile path_join f v exe verb ws st t))).
Proof.
  intros Hp. unfold Modflow_load. rewrite Modflow_init_load_args.
  cbn [mfnam_packages Modflow_fields model_ws namefile].
  rewrite alloc_dict_lookup.
  unfold load_namefile_path in Hp. cbn [load_init_args a_modelname
    a_namefile_ext a_model_ws]. rewrite Hp.
  unfold load_state0, load_model.
  destruct (load_body _ _ _ _ _ _ _) as [r s]. reflexivity.
Qed.

Lemma Modflow_load_parse_raises (f v exe : string) (verb : bool)
    (ws : string) (load_only : option LoadOnly) (st : Store) (e : exn) :
  parsenamefile (load_namefile_path isfile path_join f ws)
    mfnam_packages_dict verb = Raise e ->
  exists e',
    fst (Modflow_load parsenamefile package_load set_pval set_zone set_mult
           remove_external isfile path_join f v exe verb ws load_only st)
    = failed e'.
Proof.
  intros Hp. unfold Modflow_load. rewrite Modflow_init_load_args.
  cbn [mfnam_packages Modflow_fields model_ws namefile].
  rewrite alloc_dict_lookup.
  unfold load_namefile_path in Hp. cbn [load_init_args a_modelname
    a_namefile_ext a_model_ws]. rewrite Hp.
  destruct (is_Exception e); eexists; reflexivity.
Qed.

(** *** What every call was handed *)

Section TracedBy.

Variable P : table -> Prop.
Hypothesis P_remove : forall k t, P t -> P (remove_key k t).

Lemma traced_ret {A} (a : A) : traced_by P (ret a).
Proof.
  intros s Hs. split; [exact Hs|]. exists []. rewrite app_nil_r.
  split; [reflexivity | constructor].
Qed.

Lemma traced_raise {A} (e : exn) : traced_by P (@raise A e).
Proof.
  intros s Hs. split; [exact Hs|]. exists []. rewrite app_nil_r.
  split; [reflexivity | constructor].
Qed.

Lemma traced_gets {A} (f : St -> A) : traced_by P (gets f).
Proof.
  intros s Hs. split; [exact Hs|]. exists []. rewrite app_nil_r.
  split; [reflexivity | constructor].
Qed.

Lemma traced_modify (f : St -> St) :
  (forall s, ext_unit_dict (f s) = ext_unit_dict s /\ calls (f s) = calls s) ->
  traced_by P (modify f).
Proof.
  intros Hf s Hs. destruct (Hf s) as [Hd Hc]. cbn [modify snd].
  rewrite Hd, Hc. split; [exact Hs|]. exists []. rewrite app_nil_r.
  split; [reflexivity | constructor].
Qed.

Lemma traced_bind {A B} (c : M A) (k : A -> M B) :
  traced_by P c -> (forall a, traced_by P (k a)) -> traced_by P (bind c k).
Proof.
  intros Hc Hk s Hs. unfold bind.
  destruct (Hc s Hs) as (H1 & n1 & Hc1 & Hn1).
  destruct (c s) as [[a|e] s1]; cbn [snd] in *.
  - destruct (Hk a s1 H1) as (H2 & n2 & Hc2 & Hn2).
    split; [exact H2|]. exists (n1 ++ n2)%list.
    rewrite Hc2, Hc1, <- app_assoc. split; [reflexivity|].
    apply Forall_app. split; assumption.
  - split; [exact H1|]. exists n1. split; assumption.
Qed.

Lemma traced_try {A} (catches : exn -> bool) (body : M A)
    (handler : exn -> M A) :
  traced_by P body -> (forall e, traced_by P (handler e)) ->
  traced_by P (try_except catches body handler).
Proof.
  intros Hb Hh s Hs. unfold try_except.
  destruct (Hb s Hs) as (H1 & n1 & Hc1 & Hn1).
  destruct (body s) as [[a|e] s1]; cbn [snd] in *.
  - split; [exact H1|]. exists n1. split; assumption.
  - destruct (catches e); cbn [snd].
    + destruct (Hh e s1 H1) as (H2 & n2 & Hc2 & Hn2).
      split; [exact H2|]. exists (n1 ++ n2)%list.
      rewrite Hc2, Hc1, <- app_assoc. split; [reflexivity|].
      apply Forall_app. split; assumption.
    + split; [exact H1|]. exists n1. split; assumption.
Qed.

Lemma traced_for_each {A} (l : list A) (body : A -> M unit) :
  (forall a, traced_by P (body a)) -> traced_by P (for_each l body).
Proof.
  intros Hb. induction l as [|x l IH]; cbn [for_each].
  - apply traced_ret.
  - apply traced_bind; [apply Hb | intros _; exact IH].
Qed.

Lemma traced_for_items (rem i n0 : nat) (body : Z * NamData -> M unit) :
  (forall kv, traced_by P (body kv)) -> traced_by P (for_items rem i n0 body).
Proof.
  intros Hb. revert i. induction rem as [|r IH]; intros i s Hs;
    cbn [for_items].
  - destruct (negb (Nat.eqb (length (ext_unit_dict s)) n0)); cbn [snd];
      (split; [exact Hs|]); exists []; rewrite app_nil_r;
      (split; [reflexivity | constructor]).
  - destruct (negb (Nat.eqb (length (ext_unit_dict s)) n0)); cbn [snd].
    + split; [exact Hs|]. exists []. rewrite app_nil_r.
      split; [reflexivity | constructor].
    + destruct (nth_error (ext_unit_dict s) i) as [kv|]; cbn [snd].
      * exact (traced_bind (body kv) (fun _ => for_items r (S i) n0 body)
                 (Hb kv) (fun _ => IH (S i)) s Hs).
      * split; [exact Hs|]. exists []. rewrite app_nil_r.
        split; [reflexivity | constructor].
Qed.

Lemma traced_dict_pop (key : option Z) : traced_by P (dict_pop key).
Proof.
  intros s Hs. unfold dict_pop. destruct key as [k|]; cbn [snd].
  - destruct (has_key k (ext_unit_dict s)); cbn [snd set_dict ext_unit_dict
      calls].
    + split; [apply P_remove; exact Hs|]. exists []. rewrite app_nil_r.
      split; [reflexivity | constructor].
    + split; [exact Hs|]. exists []. rewrite app_nil_r.
      split; [reflexivity | constructor].
  - split; [exact Hs|]. exists []. rewrite app_nil_r.
    split; [reflexivity | constructor].
Qed.

Lemma traced_call_load (cls : PackageClass) (fname : string) :
  (forall m t, P t -> P (dict_after (package_load cls fname m t))) ->
  traced_by P (call_load package_load cls fname).
Proof.
  intros Hl s Hs. unfold call_load. specialize (Hl (ml s) _ Hs).
  destruct (package_load cls fname (ml s) (ext_unit_dict s)) as [m' t'|e m' t'];
    cbn [snd log set_dict set_ml ext_unit_dict calls dict_after] in *;
    (split; [exact Hl|]); eexists; (split; [reflexivity|]);
    constructor; [exact Hs | constructor | exact Hs | constructor].
Qed.

Lemma traced_call_par (which : string)
    (f : Modflow -> table -> dict_outcome) :
  (forall m t, P t -> P (dict_after (f m t))) ->
  traced_by P (call_par which f).
Proof.
  intros Hl s Hs. unfold call_par. specialize (Hl (ml s) _ Hs).
  destruct (f (ml s) (ext_unit_dict s)) as [m' t'|e m' t'];
    cbn [snd log set_dict set_ml ext_unit_dict calls dict_after] in *;
    (split; [exact Hl|]); eexists; (split; [reflexivity|]);
    constructor; [exact Hs | constructor | exact Hs | constructor].
Qed.

Lemma traced_call_remove_external (key : Z) :
  traced_by P (call_remove_external remove_external key).
Proof.
  intros s Hs. unfold call_remove_external.
  destruct (remove_external key (ml s)); cbn [snd set_ml ext_unit_dict calls];
    (split; [exact Hs|]); exists []; rewrite app_nil_r;
    (split; [reflexivity | constructor]).
Qed.

Lemma traced_append_loaded (f : string) :
  traced_by P (files_succesfully_loaded_append f).
Proof. apply traced_modify. intros s. split; reflexivity. Qed.

Lemma traced_append_not_loaded (f : string) :
  traced_by P (files_not_loaded_append f).
Proof. apply traced_modify. intros s. split; reflexivity. Qed.

Hypothesis P_load :
  forall cls fname m t, P t -> P (dict_after (package_load cls fname m t)).
Hypothesis P_pval : forall m t, P t -> P (dict_after (set_pval m t)).
Hypothesis P_zone : forall m t, P t -> P (dict_after (set_zone m t)).
Hypothesis P_mult : forall m t, P t -> P (dict_after (set_mult m t)).

Lemma traced_load_entry (load_only : list string) (kv : Z * NamData) :
  traced_by P (load_entry package_load load_only kv).
Proof.
  destruct kv as [key item]. unfold load_entry.
  destruct (package item) as [cls|].
  - destruct (PyStr.mem (filetype item) load_only).
    + apply traced_try.
      * apply traced_bind; [apply traced_call_load; apply P_load|].
        intros _. apply traced_append_loaded.
      * intros _. apply traced_append_not_loaded.
    + apply traced_append_not_loaded.
  - destruct (negb (PyStr.contains "data" (PyStr.lower (filetype item)))).
    + apply traced_append_not_loaded.
    + destruct (PyStr.contains "data" (PyStr.lower (filetype item)));
        [|apply traced_ret].
      apply traced_bind; [apply traced_gets|]. intros m.
      destruct (negb (in_pop_key_list key m)); [|apply traced_ret].
      apply traced_modify. intros s. split; reflexivity.
Qed.

Lemma traced_load_packages (load_only : list string) :
  traced_by P (load_packages package_load load_only).
Proof.
  intros s Hs. unfold load_packages.
  apply traced_for_items; [|exact Hs].
  intros kv. apply traced_load_entry.
Qed.

Lemma traced_pop_keys : traced_by P (pop_keys remove_external).
Proof.
  unfold pop_keys. apply traced_bind; [apply traced_gets|]. intros m.
  apply traced_for_each. intros key. apply traced_try.
  - apply traced_bind; [apply traced_call_remove_external|].
    intros _. apply traced_dict_pop.
  - intros _. apply traced_ret.
Qed.

Lemma traced_after_dis (load_only : option LoadOnly) :
  traced_by P
    (after_dis package_load set_pval set_zone set_mult remove_external
       load_only).
Proof.
  unfold after_dis. apply traced_bind.
  - unfold resolve_load_only. apply traced_bind; [apply traced_gets|].
    intros t. destruct (load_only_list load_only t);
      [apply traced_ret | apply traced_raise].
  - intros lo.
    apply traced_bind; [apply traced_call_par; apply P_pval|]. intros _.
    apply traced_bind; [apply traced_call_par; apply P_zone|]. intros _.
    apply traced_bind; [apply traced_call_par; apply P_mult|]. intros _.
    apply traced_bind; [apply traced_load_packages|]. intros _.
    apply traced_pop_keys.
Qed.

End TracedBy.

(** The first call after the discretization block, if there is one, is
    handed the table as that block left it. *)
Lemma after_dis_first (load_only : option LoadOnly) (s : St) :
  exists new,
    calls (snd (after_dis package_load set_pval set_zone set_mult
                  remove_external load_only s))
    = (calls s ++ new)%list /\
    match new with
    | [] => True
    | ev :: _ => ev_table ev = ext_unit_dict s
    end.
Proof.
  rewrite after_dis_run.
  destruct (load_only_list load_only (ext_unit_dict s)) as [lo|e].
  2:{ exists []. cbn [snd]. rewrite app_nil_r. split; [reflexivity | exact I]. }
  destruct (set_pval (ml s) (ext_unit_dict s)) as [m1 t1|e1 m1 t1].
  2:{ eexists. split; [reflexivity|]. reflexivity. }
  destruct (set_zone m1 t1) as [m2 t2|e2 m2 t2].
  2:{ exists [EvPar "pval" (ext_unit_dict s) false; EvPar "zone" t1 true].
      split; [cbn; rewrite <- app_assoc; reflexivity | reflexivity]. }
  destruct (set_mult m2 t2) as [m3 t3|e3 m3 t3].
  2:{ exists [EvPar "pval" (ext_unit_dict s) false; EvPar "zone" t1 false;
              EvPar "mult" t2 true].
      split; [cbn; rewrite <- !app_assoc; reflexivity | reflexivity]. }
  cbn zeta.
  match goal with
  | |- context [bind _ _ ?s3] => set (s3' := s3)
  end.
  assert (Ht : traced_by (fun _ => True)
                 (bind (load_packages package_load lo)
                    (fun _ => pop_keys remove_external))).
  { apply traced_bind.
    - apply traced_load_packages. intros; exact I.
    - intros _. apply traced_pop_keys. intros; exact I. }
  destruct (Ht s3' I) as (_ & new & Hc & _).
  exists ([EvPar "pval" (ext_unit_dict s) false; EvPar "zone" t1 false;
           EvPar "mult" t2 false] ++ new)%list.
  split; [|reflexivity].
  rewrite Hc. unfold s3'. cbn. rewrite <- !app_assoc. reflexivity.
Qed.

(** *** The claims about [Modflow.load] *)

(** C1: when the table parsed from the name file has no entry whose
    filetype is the discretization tag, [Modflow.load] raises: it returns
    no model, and it has called no loader. *)
Theorem load_without_dis_raises (f v exe : string) (verb : bool)
    (ws : string) (load_only : option LoadOnly) (st : Store) :
  (forall t,
     parsenamefile (load_namefile_path isfile path_join f ws)
       mfnam_packages_dict verb = Ok t ->
     Forall (fun kv => PyStr.lower (filetype (snd kv)) <> "dis") t) ->
  let rep :=
    fst (Modflow_load parsenamefile package_load set_pval set_zone set_mult
           remove_external isfile path_join f v exe verb ws load_only st) in
  (exists e, rep_result rep = Raise e) /\
  (forall m, rep_result rep <> Ok m) /\
  rep_calls rep = [].
Proof.
  intros Hnodis rep.
  assert (H : (exists e, rep_result rep = Raise e) /\ rep_calls rep = []).
  { unfold rep.
    destruct (parsenamefile (load_namefile_path isfile path_join f ws)
                mfnam_packages_dict verb) as [t|e] eqn:Hp.
    - rewrite (Modflow_load_parsed f v exe verb ws load_only st t Hp).
      rewrite load_body_split, load_dis_run.
      cbn [load_state0 ext_unit_dict].
      specialize (Hnodis t eq_refl). apply find_dis_None in Hnodis.
      rewrite Hnodis. cbn. split; [eexists; reflexivity | reflexivity].
    - destruct (Modflow_load_parse_raises f v exe verb ws load_only st e Hp)
        as (e' & ->).
      cbn. split; [eexists; reflexivity | reflexivity]. }
  destruct H as [[e He] Hc]. repeat split.
  - exists e. exact He.
  - intros m. rewrite He. discriminate.
  - exact Hc.
Qed.

(** C2: when the parsed table has a discretization entry, the first call
    [Modflow.load] makes into a package is the loader of the first such
    entry, wherever it stands in the table, and it is handed the table
    as parsed.  When the entry carries no loader, or the loader raises,
    or the loader has itself removed the entry's key from the dictionary
    it was handed, the load raises and calls nothing else.  Otherwise the
    load removes the key from the dictionary as the loader left it, and
    that is the dictionary the next call is handed; the collaborators
    being handed the dictionary itself, a later call sees what the
    earlier ones did to it, and as long as none of them adds an entry no
    later call is handed a dictionary that holds the key. *)
Theorem dis_loaded_first (f v exe : string) (verb : bool) (ws : string)
    (load_only : option LoadOnly) (st : Store) (t : table) :
  parsenamefile (load_namefile_path isfile path_join f ws)
    mfnam_packages_dict verb = Ok t ->
  Exists (fun kv => PyStr.lower (filetype (snd kv)) = "dis") t ->
  let rep :=
    fst (Modflow_load parsenamefile package_load set_pval set_zone set_mult
           remove_external isfile path_join f v exe verb ws load_only st) in
  exists key item,
    find_dis t = Some (key, item) /\
    In (key, item) t /\
    PyStr.lower (filetype item) = "dis" /\
    (package item = None ->
     rep_calls rep = [] /\ exists e, rep_result rep = Raise e) /\
    (forall cls, package item = Some cls ->
     exists raised rest,
       rep_calls rep = EvLoad cls (filename item) t raised :: rest /\
       match package_load cls (filename item)
               (load_model isfile path_join f v exe verb ws st) t with
       | RaisedD e _ t1 =>
           raised = true /\ rest = [] /\ rep_dict rep = t1 /\
           exists e', rep_result rep = Raise e'
       | ReturnedD _ t1 =>
           raised = false /\
           (has_key key t1 = false ->
            rest = [] /\ rep_dict rep = t1 /\
            rep_result rep
            = Raise (mk_exn Exception
                       (dis_msg (filename item) +:+ " "
                        +:+ PyStr.str_int key))) /\
           (has_key key t1 = true ->
            has_key key (remove_key key t1) = false /\
            match rest with
            | [] => True
            | ev :: _ => ev_table ev = remove_key key t1
            end /\
            ((forall c fn m, only_removes (package_load c fn m)) ->
             (forall m, only_removes (set_pval m)) ->
             (forall m, only_removes (set_zone m)) ->
             (forall m, only_removes (set_mult m)) ->
             Forall (fun ev => has_key key (ev_table ev) = false) rest))
       end).
Proof.
  intros Hp Hex rep.
  destruct (find_dis_Exists t Hex) as (key & item & Hf).
  exists key, item. split; [exact Hf|].
  destruct (find_dis_Some t key item Hf) as (Hin & Htag & _ & _).
  split; [exact Hin|]. split; [exact Htag|].
  unfold rep. rewrite (Modflow_load_parsed f v exe verb ws load_only st t Hp).
  rewrite load_body_split, load_dis_run.
  cbn [load_state0 ext_unit_dict ml calls files_succesfully_loaded
       files_not_loaded].
  rewrite Hf. split.
  - intros ->. cbn. split; [reflexivity | eexists; reflexivity].
  - intros cls ->.
    fold (load_model isfile path_join f v exe verb ws st).
    destruct (package_load cls (filename item)
                (load_model isfile path_join f v exe verb ws st) t)
      as [m' t1|e m' t1].
    + destruct (has_key key t1) eqn:Hk.
      * match goal with
        | |- context [after_dis _ _ _ _ _ _ ?s1] => set (s1' := s1)
        end.
        destruct (after_dis_first load_only s1') as (new & Hc & Hfirst).
        exists false, new. cbn [report_of rep_calls rep_result rep_dict].
        rewrite Hc. unfold s1' at 1. cbn [calls app].
        split; [reflexivity|]. split; [reflexivity|].
        split; [intros H; discriminate H|]. intros _.
        split; [apply has_key_remove_key|]. split; [exact Hfirst|].
        intros Hl Hpv Hz Hm.
        destruct (traced_after_dis (fun t0 => has_key key t0 = false)
                    (fun k t0 => has_key_false_remove key k t0)
                    (fun c fn m t0 =>
                       has_key_false_incl key t0 _ (Hl c fn m t0))
                    (fun m t0 => has_key_false_incl key t0 _ (Hpv m t0))
                    (fun m t0 => has_key_false_incl key t0 _ (Hz m t0))
                    (fun m t0 => has_key_false_incl key t0 _ (Hm m t0))
                    load_only s1' (has_key_remove_key key t1))
          as (_ & new' & Hc' & Hall).
        rewrite Hc in Hc'. apply app_inv_head in Hc'. subst new'.
        exact Hall.
      * exists false, []. cbn [report_of rep_calls rep_result rep_dict fst snd
                               calls ext_unit_dict app].
        split; [reflexivity|]. split; [reflexivity|].
        split; [|intros H; discriminate H].
        intros _. repeat split; reflexivity.
    + exists true, []. cbn [report_of rep_calls rep_result rep_dict log set_ml
                            set_dict calls ext_unit_dict app fst snd].
      split; [reflexivity|]. split; [reflexivity|]. split; [reflexivity|].
      split; [reflexivity|].
      destruct (is_Exception e); eexists; reflexivity.
Qed.

(** *** The package loop, entry by entry *)

(** The loaders leave [ext_unit_dict] as they find it (a unit a loader
    takes over goes on [pop_key_list], for the reconciliation loop).
    The parameter setters are under no such restriction. *)
Hypothesis H_keep :
  forall cls fname m t, dict_after (package_load cls fname m t) = t.

(** What one pass adds: at most one call, handed the current table; the
    table is kept; [files_not_loaded] only grows, by the file of the
    call if it raised; and a selected entry does get its loader called. *)
Lemma load_entry_post_spec (load_only : list string) (kv : Z * NamData)
    (s : St) :
  let s' := load_entry_post package_load load_only kv s in
  ext_unit_dict s' = ext_unit_dict s /\
  exists new added,
    calls s' = (calls s ++ new)%list /\
    files_not_loaded s' = (files_not_loaded s ++ added)%list /\
    (forall cls fname t, In (EvLoad cls fname t true) new -> In fname added) /\
    (selected load_only kv = true ->
     exists cls r,
       package (snd kv) = Some cls /\
       In (EvLoad cls (filename (snd kv)) (ext_unit_dict s) r) new).
Proof.
  destruct kv as [key item]. unfold load_entry_post, selected. cbn [snd].
  destruct (package item) as [cls|].
  - destruct (PyStr.mem (filetype item) load_only).
    + pose proof (H_keep cls (filename item) (ml s) (ext_unit_dict s)) as Hk.
      destruct (package_load cls (filename item) (ml s) (ext_unit_dict s))
        as [m' t'|e m' t']; cbn [dict_after] in Hk; subst t';
        cbn [ext_unit_dict calls files_not_loaded].
      * split; [reflexivity|].
        exists [EvLoad cls (filename item) (ext_unit_dict s) false], [].
        rewrite app_nil_r. repeat split.
        -- intros c f0 t0 [H|[]]. discriminate H.
        -- intros _. exists cls, false. split; [reflexivity | left; reflexivity].
      * split; [reflexivity|].
        exists [EvLoad cls (filename item) (ext_unit_dict s) true],
               [filename item].
        repeat split.
        -- intros c f0 t0 [H|[]]. inversion H; subst. left; reflexivity.
        -- intros _. exists cls, true. split; [reflexivity | left; reflexivity].
    + cbn [ext_unit_dict calls files_not_loaded]. split; [reflexivity|].
      exists [], [filename item]. rewrite app_nil_r. repeat split.
      * intros c f0 t0 [].
      * discriminate.
  - destruct (PyStr.contains "data" (PyStr.lower (filetype item))).
    + destruct (in_pop_key_list key (ml s));
        cbn [set_ml ext_unit_dict calls files_not_loaded];
        (split; [reflexivity|]); exists [], []; rewrite !app_nil_r;
        repeat split; try (intros c f0 t0 []); discriminate.
    + cbn [ext_unit_dict calls files_not_loaded]. split; [reflexivity|].
      exists [], [filename item]. rewrite app_nil_r. repeat split.
      * intros c f0 t0 [].
      * discriminate.
Qed.

Lemma load_entry_post_dict (load_only : list string) (kv : Z * NamData)
    (s : St) :
  ext_unit_dict (load_entry_post package_load load_only kv s)
  = ext_unit_dict s.
Proof. exact (proj1 (load_entry_post_spec load_only kv s)). Qed.


(** Under [H_keep] the loop over the live dictionary visits the entries
    it began with, in order, and does not raise. *)
Lemma for_items_run (load_only : list string) (rem i : nat) (s : St) :
  (rem + i)%nat = length (ext_unit_dict s) ->
  for_items rem i (length (ext_unit_dict s))
    (load_entry package_load load_only) s
  = (Ok tt,
     fold_left (fun s1 kv => load_entry_post package_load load_only kv s1)
       (drop i (ext_unit_dict s)) s).
Proof.
  revert i s. induction rem as [|r IH]; intros i s Hlen; cbn [for_items];
    rewrite Nat.eqb_refl; cbn [negb].
  - cbn in Hlen. subst i. rewrite drop_length_nil. reflexivity.
  - destruct (nth_error (ext_unit_dict s) i) as [kv|] eqn:E.
    + unfold bind. rewrite load_entry_run.
      rewrite (nth_error_drop _ _ _ E). cbn [fold_left].
      pose proof (IH (S i) (load_entry_post package_load load_only kv s)) as H.
      rewrite load_entry_post_dict in H. apply H. lia.
    + apply nth_error_None in E. lia.
Qed.

Lemma load_packages_run (load_only : list string) (s : St) :
  load_packages package_load load_only s
  = (Ok tt,
     fold_left (fun s1 kv => load_entry_post package_load load_only kv s1)
       (ext_unit_dict s) s).
Proof.
  unfold load_packages. cbn zeta.
  rewrite (for_items_run load_only (length (ext_unit_dict s)) 0 s); [|lia].
  reflexivity.
Qed.

(** The states between the passes. *)
Lemma passes_length (load_only : list string) (l : table) (s : St) :
  length (passes package_load load_only l s) = S (length l).
Proof.
  revert s. induction l as [|kv l IH]; intros s; [reflexivity|].
  cbn [passes length]. rewrite IH. reflexivity.
Qed.

Lemma passes_end (load_only : list string) (l : table) (s : St) :
  nth_error (passes package_load load_only l s) (length l)
  = Some (fold_left
            (fun s1 kv => load_entry_post package_load load_only kv s1) l s).
Proof.
  revert s. induction l as [|kv l IH]; intros s; [reflexivity|].
  cbn [passes length nth_error fold_left]. rewrite load_entry_run.
  cbn [snd]. apply IH.
Qed.

Lemma passes_step (load_only : list string) (l : table) (s : St) (i : nat)
    (kv : Z * NamData) :
  nth_error l i = Some kv ->
  exists si,
    nth_error (passes package_load load_only l s) i = Some si /\
    nth_error (passes package_load load_only l s) (S i)
    = Some (snd (load_entry package_load load_only kv si)).
Proof.
  revert s i. induction l as [|x l IH]; intros s [|i] H; try discriminate.
  - cbn in H. inversion H; subst. exists s. split; [reflexivity|].
    cbn [passes nth_error]. destruct l; reflexivity.
  - cbn in H. destruct (IH (snd (load_entry package_load load_only x s)) i H)
      as (si & H1 & H2).
    exists si. split; [exact H1 | exact H2].
Qed.

(** The statements after the discretization block when none of them
    raises. *)
Lemma after_dis_ok (load_only : option LoadOnly) (s : St)
    (lo : list string) (m2 m3 m4 : Modflow) (t2 t3 t4 : table) :
  load_only_list load_only (ext_unit_dict s) = Ok lo ->
  set_pval (ml s) (ext_unit_dict s) = ReturnedD m2 t2 ->
  set_zone m2 t2 = ReturnedD m3 t3 ->
  set_mult m3 t3 = ReturnedD m4 t4 ->
  after_dis package_load set_pval set_zone set_mult remove_external
    load_only s
  = pop_keys remove_external
      (fold_left (fun s1 kv => load_entry_post package_load lo kv s1) t4
         {| ml := m4; ext_unit_dict := t4;
            files_succesfully_loaded := files_succesfully_loaded s;
            files_not_loaded := files_not_loaded s;
            calls := calls s ++ [EvPar "pval" (ext_unit_dict s) false]
                     ++ [EvPar "zone" t2 false] ++ [EvPar "mult" t3 false] |}).
Proof.
  intros Hlo H2 H3 H4. rewrite after_dis_run, Hlo, H2, H3, H4. cbn zeta.
  unfold bind. rewrite load_packages_run.
  unfold log, set_dict, set_ml.
  cbn [ml ext_unit_dict files_succesfully_loaded files_not_loaded calls].
  rewrite <- !app_assoc. reflexivity.
Qed.


(** *** A load that returns *)

(** When every stage before the package loop goes through, the load
    returns what the reconciliation loop leaves of the locals the
    package loop ends with. *)
Lemma load_run_ok (f v exe : string) (verb : bool) (ws : string)
    (load_only : option LoadOnly) (st : Store) (t : table) (g : Stages) :
  parsenamefile (load_namefile_path isfile path_join f ws)
    mfnam_packages_dict verb = Ok t ->
  load_stages package_load set_pval set_zone set_mult load_only t
    (load_model isfile path_join f v exe verb ws st) g ->
  exists s6,
    pop_keys remove_external
      (fold_left (fun s1 kv => load_entry_post package_load (sg_lo g) kv s1)
         (sg_t4 g) (loop_start t g)) = (Ok tt, s6) /\
    fst (Modflow_load parsenamefile package_load set_pval set_zone set_mult
           remove_external isfile path_join f v exe verb ws load_only st)
    = report_of (Ok tt) s6.
Proof.
  intros Hp (Hf & Hpk & Hld & Hlo & H2 & H3 & H4).
  rewrite (Modflow_load_parsed f v exe verb ws load_only st t Hp).
  rewrite load_body_split, load_dis_run.
  cbn [load_state0 ext_unit_dict ml calls files_succesfully_loaded
       files_not_loaded].
  rewrite Hf, Hpk. fold (load_model isfile path_join f v exe verb ws st).
  rewrite Hld.
  destruct (find_dis_Some t _ _ Hf) as (Hin & _).
  assert (has_key (sg_key g) t = true) as ->.
  { apply has_key_In. exists (sg_key g, sg_item g). split; [exact Hin|].
    reflexivity. }
  fold (sg_t1 t g).
  match goal with
  | |- context [after_dis _ _ _ _ _ _ ?s1] => set (s1' := s1)
  end.
  rewrite (after_dis_ok load_only s1' (sg_lo g) (sg_m2 g) (sg_m3 g) (sg_m4 g)
             (sg_t2 g) (sg_t3 g) (sg_t4 g) Hlo H2 H3 H4).
  unfold s1'.
  cbn [ext_unit_dict files_succesfully_loaded files_not_loaded calls app].
  fold (loop_start t g).
  destruct (pop_keys_run
              (fold_left
                 (fun s1 kv => load_entry_post package_load (sg_lo g) kv s1)
                 (sg_t4 g) (loop_start t g))) as (s6 & E & _).
  exists s6. split; [exact E|]. rewrite E. reflexivity.
Qed.

(** Conversely a load that returns went through every stage. *)
Lemma load_ok_inv (f v exe : string) (verb : bool) (ws : string)
    (load_only : option LoadOnly) (st : Store) (t : table) (m : Modflow) :
  parsenamefile (load_namefile_path isfile path_join f ws)
    mfnam_packages_dict verb = Ok t ->
  rep_result
    (fst (Modflow_load parsenamefile package_load set_pval set_zone set_mult
            remove_external isfile path_join f v exe verb ws load_only st))
  = Ok m ->
  exists g,
    load_stages package_load set_pval set_zone set_mult load_only t
      (load_model isfile path_join f v exe verb ws st) g.
Proof.
  intros Hp.
  rewrite (Modflow_load_parsed f v exe verb ws load_only st t Hp).
  rewrite load_body_split, load_dis_run.
  cbn [load_state0 ext_unit_dict ml calls files_succesfully_loaded
       files_not_loaded].
  destruct (find_dis t) as [[key item]|] eqn:Hf; [|discriminate].
  destruct (package item) as [cls|] eqn:Hpk; [|discriminate].
  fold (load_model isfile path_join f v exe verb ws st).
  pose proof (H_keep cls (filename item)
                (load_model isfile path_join f v exe verb ws st) t) as Hk.
  destruct (package_load cls (filename item)
              (load_model isfile path_join f v exe verb ws st) t)
    as [m1 t1|e m1 t1] eqn:Hld; [|discriminate].
  cbn [dict_after] in Hk. subst t1.
  destruct (find_dis_Some t _ _ Hf) as (Hin & _).
  assert (has_key key t = true) as ->.
  { apply has_key_In. exists (key, item). split; [exact Hin | reflexivity]. }
  match goal with
  | |- context [after_dis _ _ _ _ _ _ ?s1] => set (s1' := s1)
  end.
  destruct (fst (after_dis package_load set_pval set_zone set_mult
                   remove_external load_only s1')) as [[]|e] eqn:Hr.
  2:{ cbn. discriminate. }
  intros _.
  destruct (load_only_list load_only (ext_unit_dict s1')) as [lo|e0] eqn:Hlo.
  2:{ rewrite after_dis_run, Hlo in Hr. discriminate Hr. }
  destruct (set_pval (ml s1') (ext_unit_dict s1')) as [m2 t2|e2 m2 t2] eqn:H2.
  2:{ rewrite after_dis_run, Hlo, H2 in Hr. discriminate Hr. }
  destruct (set_zone m2 t2) as [m3 t3|e3 m3 t3] eqn:H3.
  2:{ rewrite after_dis_run, Hlo, H2, H3 in Hr. discriminate Hr. }
  destruct (set_mult m3 t3) as [m4 t4|e4 m4 t4] eqn:H4.
  2:{ rewrite after_dis_run, Hlo, H2, H3, H4 in Hr. discriminate Hr. }
  exists {| sg_key := key; sg_item := item; sg_cls := cls; sg_lo := lo;
            sg_m1 := m1; sg_m2 := m2; sg_t2 := t2; sg_m3 := m3; sg_t3 := t3;
            sg_m4 := m4; sg_t4 := t4 |}.
  unfold load_stages, sg_t1.
  cbn [sg_key sg_item sg_cls sg_lo sg_m1 sg_m2 sg_t2 sg_m3 sg_t3 sg_m4 sg_t4].
  repeat split; assumption.
Qed.

(** The stages of a load are determined by its arguments. *)
Lemma load_stages_unique (load_only : option LoadOnly) (t : table)
    (m0 : Modflow) (g g' : Stages) :
  load_stages package_load set_pval set_zone set_mult load_only t m0 g ->
  load_stages package_load set_pval set_zone set_mult load_only t m0 g' ->
  g = g'.
Proof.
  intros (Hf & Hpk & Hld & Hlo & H2 & H3 & H4)
         (Hf' & Hpk' & Hld' & Hlo' & H2' & H3' & H4').
  destruct g, g'. unfold sg_t1 in *.
  cbn [sg_key sg_item sg_cls sg_lo sg_m1 sg_m2 sg_t2 sg_m3 sg_t3 sg_m4 sg_t4]
    in *.
  rewrite Hf in Hf'. inversion Hf'; subst.
  rewrite Hpk in Hpk'. inversion Hpk'; subst.
  rewrite Hld in Hld'. inversion Hld'; subst.
  rewrite Hlo in Hlo'. inversion Hlo'; subst.
  rewrite H2 in H2'. inversion H2'; subst.
  rewrite H3 in H3'. inversion H3'; subst.
  rewrite H4 in H4'. inversion H4'; subst.
  reflexivity.
Qed.

(** What one pass of the package loop adds to the log and to the two
    filename lists. *)
Lemma load_entry_post_account (lo : list string) (kv : Z * NamData)
    (s : St) :
  let s' := load_entry_post package_load lo kv s in
  exists new aL aN,
    calls s' = (calls s ++ new)%list /\
    files_succesfully_loaded s' = (files_succesfully_loaded s ++ aL)%list /\
    files_not_loaded s' = (files_not_loaded s ++ aN)%list /\
    loader_calls new = selected_calls lo [kv] /\
    (length aL + length aN + (if is_data_entry kv then 1 else 0) = 1)%nat /\
    Forall (fun f => f = filename (snd kv)) (aL ++ aN)%list.
Proof.
  destruct kv as [key item].
  unfold load_entry_post, selected_calls, is_data_entry. cbn [snd flat_map].
  destruct (package item) as [cls|].
  - destruct (PyStr.mem (filetype item) lo).
    + destruct (package_load cls (filename item) (ml s) (ext_unit_dict s))
        as [m' t'|e m' t'];
        cbn [calls files_succesfully_loaded files_not_loaded ext_unit_dict].
      * exists [EvLoad cls (filename item) (ext_unit_dict s) false],
               [filename item], [].
        rewrite !app_nil_r. repeat split. repeat constructor.
      * exists [EvLoad cls (filename item) (ext_unit_dict s) true],
               [], [filename item].
        rewrite !app_nil_r. repeat split. repeat constructor.
    + cbn [calls files_succesfully_loaded files_not_loaded ext_unit_dict].
      exists [], [], [filename item].
      rewrite !app_nil_r. repeat split. repeat constructor.
  - destruct (PyStr.contains "data" (PyStr.lower (filetype item))).
    + exists [], [], []. rewrite !app_nil_r.
      destruct (in_pop_key_list key (ml s)); repeat split; constructor.
    + cbn [calls files_succesfully_loaded files_not_loaded ext_unit_dict].
      exists [], [], [filename item].
      rewrite !app_nil_r. repeat split. repeat constructor.
Qed.

Lemma load_loop_account (lo : list string) (l : table) (s : St) :
  let s' := fold_left
              (fun s1 kv => load_entry_post package_load lo kv s1) l s in
  exists new aL aN,
    calls s' = (calls s ++ new)%list /\
    files_succesfully_loaded s' = (files_succesfully_loaded s ++ aL)%list /\
    files_not_loaded s' = (files_not_loaded s ++ aN)%list /\
    loader_calls new = selected_calls lo l /\
    (length aL + length aN + length (List.filter is_data_entry l)
     = length l)%nat /\
    Forall (fun f => exists kv, In kv l /\ filename (snd kv) = f)
      (aL ++ aN)%list.
Proof.
  revert s. induction l as [|kv l IH]; intros s; cbn [fold_left].
  - exists [], [], []. rewrite !app_nil_r. repeat split. constructor.
  - destruct (load_entry_post_account lo kv s)
      as (n1 & l1 & x1 & Hc1 & Hl1 & Hn1 & Hs1 & Hk1 & Hf1).
    destruct (IH (load_entry_post package_load lo kv s))
      as (n2 & l2 & x2 & Hc2 & Hl2 & Hn2 & Hs2 & Hk2 & Hf2).
    cbn zeta in Hc1, Hl1, Hn1, Hc2, Hl2, Hn2.
    exists (n1 ++ n2)%list, (l1 ++ l2)%list, (x1 ++ x2)%list.
    rewrite Hc2, Hc1, Hl2, Hl1, Hn2, Hn1, !app_assoc.
    repeat split.
    + rewrite loader_calls_app, Hs1, Hs2. symmetry.
      apply selected_calls_cons.
    + cbn [List.filter]. rewrite !length_app.
      destruct (is_data_entry kv); cbn [length]; lia.
    + rewrite Forall_forall in Hf1, Hf2. apply Forall_forall.
      intros f0 Hin. apply list_elem_of_In in Hin.
      assert (Hcase : In f0 (l1 ++ x1)%list \/ In f0 (l2 ++ x2)%list).
      { clear - Hin. rewrite !in_app_iff in Hin. rewrite !in_app_iff.
        tauto. }
      destruct Hcase as [H|H]; apply list_elem_of_In in H.
      * exists kv. split; [left; reflexivity|]. symmetry. exact (Hf1 _ H).
      * destruct (Hf2 _ H) as (kv' & Hkv & E).
        exists kv'. split; [right; exact Hkv | exact E].
Qed.

(** The loader calls of a load whose stages all went through: the
    discretization loader, then the loaders of the entries of the
    dictionary the setters left that the list selects, in order. *)
Lemma load_loader_calls (f v exe : string) (verb : bool) (ws : string)
    (load_only : option LoadOnly) (st : Store) (t : table) (g : Stages) :
  parsenamefile (load_namefile_path isfile path_join f ws)
    mfnam_packages_dict verb = Ok t ->
  load_stages package_load set_pval set_zone set_mult load_only t
    (load_model isfile path_join f v exe verb ws st) g ->
  loader_calls
    (rep_calls
       (fst (Modflow_load parsenamefile package_load set_pval set_zone
               set_mult remove_external isfile path_join f v exe verb ws
               load_only st)))
  = (sg_cls g, filename (sg_item g))
    :: selected_calls (sg_lo g) (sg_t4 g).
Proof.
  intros Hp Hst.
  destruct (load_run_ok f v exe verb ws load_only st t g Hp Hst)
    as (s6 & Epop & ->).
  match type of Epop with
  | pop_keys _ ?s5 = _ => destruct (pop_keys_run s5) as (s6' & E' & Hc & _)
  end.
  rewrite Epop in E'. inversion E'; subst s6'.
  cbn [report_of rep_calls]. rewrite Hc.
  destruct (load_loop_account (sg_lo g) (sg_t4 g) (loop_start t g))
    as (new & aL & aN & Hc5 & _ & _ & Hsel & _).
  cbn zeta in Hc5. rewrite Hc5, loader_calls_app, Hsel. reflexivity.
Qed.



(** *** Data entries *)

(** One pass on a data entry. *)
Lemma data_entry_pass (load_only : list string) (key : Z) (item : NamData)
    (s : St) :
  package item = None ->
  PyStr.contains "data" (PyStr.lower (filetype item)) = true ->
  snd (load_entry package_load load_only (key, item) s)
  = if in_pop_key_list key (ml s) then s
    else set_ml (append_external (filename item) key
                   (PyStr.contains "binary" (PyStr.lower (filetype item)))
                   (ml s)) s.
Proof.
  intros Hpk Hdata. rewrite load_entry_run. cbn [snd].
  unfold load_entry_post. rewrite Hpk, Hdata. reflexivity.
Qed.

(** With loaders that leave the external lists and the pop list alone,
    the package loop appends one record per data entry whose key is not
    on the pop list, in table order, and nothing else. *)
Lemma loop_externals (load_only : list string) (l : table) (s : St) :
  (forall cls fname m t,
     same_externals m (model_after (package_load cls fname m t))) ->
  let s' := fold_left
              (fun s1 kv => load_entry_post package_load load_only kv s1) l s in
  let D := registered (pop_key_list (ml s)) l in
  pop_key_list (ml s') = pop_key_list (ml s) /\
  external_fnames (ml s')
  = (external_fnames (ml s) ++ map (fun kv => filename (snd kv)) D)%list /\
  external_units (ml s') = (external_units (ml s) ++ map fst D)%list /\
  external_binflag (ml s')
  = (external_binflag (ml s) ++ map binary_flag D)%list.
Proof.
  intros Hfr. revert s. induction l as [|[key item] l IH]; intros s;
    cbn [fold_left].
  - cbn. rewrite !app_nil_r. repeat split; reflexivity.
  - specialize (IH (load_entry_post package_load load_only (key, item) s)).
    cbn zeta in IH. destruct IH as (Hp & Hf & Hu & Hb). cbn zeta.
    assert (Hcase :
      (is_data_entry (key, item)
       && negb (existsb (Z.eqb key) (pop_key_list (ml s))) = false /\
       same_externals (ml s)
         (ml (load_entry_post package_load load_only (key, item) s))) \/
      (is_data_entry (key, item)
       && negb (existsb (Z.eqb key) (pop_key_list (ml s))) = true /\
       ml (load_entry_post package_load load_only (key, item) s)
       = append_external (filename item) key (binary_flag (key, item))
           (ml s))).
    { unfold load_entry_post, is_data_entry, in_pop_key_list, binary_flag.
      cbn [snd fst].
      destruct (package item) as [cls|].
      - left. split; [reflexivity|].
        destruct (PyStr.mem (filetype item) load_only).
        + pose proof (Hfr cls (filename item) (ml s) (ext_unit_dict s)) as H.
          destruct (package_load cls (filename item) (ml s)
                      (ext_unit_dict s)); exact H.
        + repeat split; reflexivity.
      - destruct (PyStr.contains "data" (PyStr.lower (filetype item))).
        + destruct (existsb (Z.eqb key) (pop_key_list (ml s))).
          * left. split; [reflexivity|]. repeat split; reflexivity.
          * right. split; reflexivity.
        + left. split; [reflexivity|]. repeat split; reflexivity. }
    unfold registered in Hf, Hu, Hb. unfold registered.
    cbn [List.filter fst].
    destruct Hcase as [[Hno (E1 & E2 & E3 & E4)]|[Hyes Em]].
    + rewrite Hno. rewrite E4 in Hp, Hf, Hu, Hb.
      rewrite Hp, Hf, Hu, Hb, E1, E2, E3. repeat split; reflexivity.
    + rewrite Hyes. rewrite Em in Hp, Hf, Hu, Hb.
      cbn [append_external pop_key_list external_fnames external_units
           external_binflag] in Hp, Hf, Hu, Hb.
      rewrite Hp, Hf, Hu, Hb. cbn [map fst snd].
      rewrite <- !app_assoc. repeat split; reflexivity.
Qed.

(** C6: in a load that returns, the package loop makes one pass per
    entry of the dictionary the parameter setters left, in order, from
    the locals the setters left.  The pass on an entry that carries no
    package class and whose filetype contains "data"
    (case-insensitively) leaves both filename lists and the call log
    alone; when the entry's key is not on the pop list it appends exactly
    one record (filename, key, flag) to the model's external lists, the
    flag saying whether the filetype contains "binary"
    (case-insensitively); when the key is on the pop list it leaves the
    model alone.  The returned model is what the reconciliation loop
    leaves of the model after the last pass.  With loaders that leave the
    external lists and the pop list alone, the external lists after the
    last pass are those the setters left followed by one record per data
    entry whose key is not on the pop list, and with an empty pop list
    these are the lists of the returned model.  (Loaders are taken to
    leave the dictionary as they find it.) *)
Theorem data_entry_registered (f v exe : string) (verb : bool) (ws : string)
    (load_only : option LoadOnly) (st : Store) (t : table) (m : Modflow) :
  parsenamefile (load_namefile_path isfile path_join f ws)
    mfnam_packages_dict verb = Ok t ->
  let rep :=
    fst (Modflow_load parsenamefile package_load set_pval set_zone set_mult
           remove_external isfile path_join f v exe verb ws load_only st) in
  rep_result rep = Ok m ->
  exists g,
    load_stages package_load set_pval set_zone set_mult load_only t
      (load_model isfile path_join f v exe verb ws st) g /\
    let sts := passes package_load (sg_lo g) (sg_t4 g) (loop_start t g) in
    nth_error sts 0 = Some (loop_start t g) /\
    (forall i key item,
       nth_error (sg_t4 g) i = Some (key, item) ->
       exists si si',
         nth_error sts i = Some si /\
         nth_error sts (S i) = Some si' /\
         load_entry package_load (sg_lo g) (key, item) si = (Ok tt, si') /\
         (package item = None ->
          PyStr.contains "data" (PyStr.lower (filetype item)) = true ->
          files_not_loaded si' = files_not_loaded si /\
          files_succesfully_loaded si' = files_succesfully_loaded si /\
          calls si' = calls si /\
          ext_unit_dict si' = ext_unit_dict si /\
          ml si'
          = if in_pop_key_list key (ml si) then ml si
            else append_external (filename item) key
                   (PyStr.contains "binary" (PyStr.lower (filetype item)))
                   (ml si))) /\
    exists s5 s6,
      nth_error sts (length (sg_t4 g)) = Some s5 /\
      pop_keys remove_external s5 = (Ok tt, s6) /\
      rep = report_of (Ok tt) s6 /\
      m = ml s6 /\
      rep_not_loaded rep = files_not_loaded s5 /\
      ((forall cls fname m0 t0,
          same_externals m0 (model_after (package_load cls fname m0 t0))) ->
       let D := registered (pop_key_list (sg_m4 g)) (sg_t4 g) in
       pop_key_list (ml s5) = pop_key_list (sg_m4 g) /\
       external_fnames (ml s5)
       = (external_fnames (sg_m4 g)
          ++ map (fun kv => filename (snd kv)) D)%list /\
       external_units (ml s5)
       = (external_units (sg_m4 g) ++ map fst D)%list /\
       external_binflag (ml s5)
       = (external_binflag (sg_m4 g) ++ map binary_flag D)%list /\
       (pop_key_list (sg_m4 g) = [] -> m = ml s5)).
Proof.
  intros Hp rep Hres.
  destruct (load_ok_inv f v exe verb ws load_only st t m Hp Hres) as (g & Hst).
  exists g. split; [exact Hst|]. cbn zeta.
  split; [destruct (sg_t4 g); reflexivity|].
  split.
  - intros i key item Hi.
    destruct (passes_step (sg_lo g) (sg_t4 g) (loop_start t g) i (key, item)
                Hi) as (si & H1 & H2).
    exists si, (snd (load_entry package_load (sg_lo g) (key, item) si)).
    split; [exact H1|]. split; [exact H2|].
    split; [rewrite load_entry_run; reflexivity|].
    intros Hpk Hdata. rewrite (data_entry_pass _ _ _ _ Hpk Hdata).
    destruct (in_pop_key_list key (ml si)); repeat split; reflexivity.
  - destruct (load_run_ok f v exe verb ws load_only st t g Hp Hst)
      as (s6 & Epop & Erep).
    eexists _, s6. split; [apply passes_end|]. split; [exact Epop|].
    split; [exact Erep|].
    match type of Epop with
    | pop_keys _ ?s5 = _ =>
        destruct (pop_keys_run s5) as (s6' & E' & _ & Hn & _)
    end.
    rewrite Epop in E'. inversion E'; subst s6'. clear E'.
    assert (Hm : m = ml s6).
    { unfold rep in Hres. rewrite Erep in Hres. cbn in Hres.
      inversion Hres. reflexivity. }
    split; [exact Hm|].
    split; [unfold rep; rewrite Erep; cbn [report_of rep_not_loaded];
            exact Hn|].
    intros Hfr.
    destruct (loop_externals (sg_lo g) (sg_t4 g) (loop_start t g) Hfr)
      as (H1 & H2 & H3 & H4).
    cbn [loop_start ml] in H1, H2, H3, H4. cbn zeta.
    split; [exact H1|]. split; [exact H2|]. split; [exact H3|].
    split; [exact H4|].
    intros Hnil. rewrite Hm.
    revert Epop. unfold pop_keys, bind, gets. cbn [fst snd].
    rewrite H1, Hnil. cbn [for_each ret]. intros E. inversion E. reflexivity.
Qed.

(** *** The load_only check *)

Lemma found_filetype_existsb (ft : string) (t : table) :
  found_filetype ft t
  = existsb (fun kv => String.eqb (filetype (snd kv)) ft) t.
Proof.
  induction t as [|[k item] t IH]; [reflexivity|].
  cbn [found_filetype existsb snd]. rewrite IH.
  destruct (String.eqb (filetype item) ft); reflexivity.
Qed.

(** The loop computes the normalized list and extends [not_found] by
    the missing tags, in request order. *)
Lemma check_load_only_spec (t : table) (l nf : list string) :
  check_load_only t l nf = (normalized_tags l, (nf ++ missing_tags t l)%list).
Proof.
  revert nf. induction l as [|x l IH]; intros nf.
  - cbn. rewrite app_nil_r. reflexivity.
  - cbn [check_load_only]. unfold missing_tags, normalized_tags.
    cbn [map List.filter]. fold (missing_tags t l). fold (normalized_tags l).
    rewrite found_filetype_existsb.
    destruct (String.eqb (PyStr.upper x) "DIS"); cbn [negb andb].
    + rewrite IH. reflexivity.
    + destruct (existsb _ t); cbn [negb]; rewrite IH; [reflexivity|].
      rewrite <- app_assoc. reflexivity.
Qed.

Lemma missing_tags_In (t : table) (l : list string) (x : string) :
  In x (missing_tags t l) <->
  exists tag,
    In tag l /\ x = PyStr.upper tag /\ x <> "DIS" /\
    forall kv, In kv t -> filetype (snd kv) <> x.
Proof.
  unfold missing_tags. rewrite filter_In, in_map_iff, andb_true_iff,
    !negb_true_iff. split.
  - intros ((tag & Hx & Hin) & Hd & Hf). exists tag. repeat split; auto.
    + intros E. rewrite E in Hd. discriminate Hd.
    + intros kv Hkv E.
      assert (existsb (fun kv0 => String.eqb (filetype (snd kv0)) x) t = true)
        as Ht.
      { apply existsb_exists. exists kv. split; [exact Hkv|].
        apply String.eqb_eq. exact E. }
      rewrite Ht in Hf. discriminate Hf.
  - intros (tag & Hin & Hx & Hd & Hf). repeat split.
    + exists tag. auto.
    + apply String.eqb_neq. exact Hd.
    + destruct (existsb _ t) eqn:E; [|reflexivity].
      apply existsb_exists in E as (kv & Hkv & E).
      apply String.eqb_eq in E. exfalso. exact (Hf kv Hkv E).
Qed.

Lemma load_only_list_Some (lo : LoadOnly) (t : table) :
  load_only_list (Some lo) t
  = match missing_tags t (load_only_as_list lo) with
    | [] => Ok (normalized_tags (load_only_as_list lo))
    | _ :: _ =>
        Raise (mk_exn Exception
                 (load_only_msg
                  +:+ PyStr.join "," (missing_tags t (load_only_as_list lo))))
    end.
Proof.
  unfold load_only_list. fold (load_only_as_list lo).
  rewrite check_load_only_spec. cbn [app].
  destruct (missing_tags t (load_only_as_list lo)); reflexivity.
Qed.


Lemma after_dis_rejects (load_only : option LoadOnly) (s : St) (e : exn) :
  load_only_list load_only (ext_unit_dict s) = Raise e ->
  after_dis package_load set_pval set_zone set_mult remove_external
    load_only s = (Raise e, s).
Proof. intros H. rewrite after_dis_run, H. reflexivity. Qed.

Lemma after_dis_proceeds (load_only : option LoadOnly) (s : St)
    (lo : list string) :
  load_only_list load_only (ext_unit_dict s) = Ok lo ->
  exists b rest,
    calls (snd (after_dis package_load set_pval set_zone set_mult
                  remove_external load_only s))
    = (calls s ++ EvPar "pval" (ext_unit_dict s) b :: rest)%list.
Proof.
  intros H. rewrite after_dis_run, H.
  destruct (set_pval (ml s) (ext_unit_dict s)) as [m1 t1|e1 m1 t1].
  2:{ exists true, []. reflexivity. }
  destruct (set_zone m1 t1) as [m2 t2|e2 m2 t2].
  2:{ exists false, [EvPar "zone" t1 true].
      cbn. rewrite <- app_assoc. reflexivity. }
  destruct (set_mult m2 t2) as [m3 t3|e3 m3 t3].
  2:{ exists false, [EvPar "zone" t1 false; EvPar "mult" t2 true].
      cbn. rewrite <- !app_assoc. reflexivity. }
  cbn zeta.
  match goal with
  | |- context [bind _ _ ?s3] => set (s3' := s3)
  end.
  assert (Ht : traced_by (fun _ => True)
                 (bind (load_packages package_load lo)
                    (fun _ => pop_keys remove_external))).
  { apply traced_bind.
    - apply traced_load_packages. intros; exact I.
    - intros _. apply traced_pop_keys. intros; exact I. }
  destruct (Ht s3' I) as (_ & new & Hc & _).
  exists false, (EvPar "zone" t1 false :: EvPar "mult" t2 false :: new).
  rewrite Hc. unfold s3'. cbn. rewrite <- !app_assoc. reflexivity.
Qed.

(** C4: once the discretization package has loaded and its entry is
    removed from the table: a supplied load_only whose upper-cased tags,
    other than "DIS", are not all the filetype of a remaining entry makes
    the load raise, the message listing every missing tag, and no further
    call is made; otherwise the load goes on to the parameter setters.
    The list the package loop then consults is the supplied one with its
    tags upper-cased or, when load_only is omitted, the filetypes of the
    entries remaining once the discretization entry is removed: in a load
    that returns, the loaders called after the discretization loader are
    those of the entries, of the dictionary the setters left, that carry
    a package class and whose filetype is on that list, in order.  (The
    requested tags are ASCII strings; loaders are taken to leave the
    dictionary as they find it.) *)
Theorem load_only_validated (f v exe : string) (verb : bool) (ws : string)
    (load_only : option LoadOnly) (st : Store) (t : table)
    (key : Z) (item : NamData) (cls : PackageClass) (m' : Modflow) :
  parsenamefile (load_namefile_path isfile path_join f ws)
    mfnam_packages_dict verb = Ok t ->
  find_dis t = Some (key, item) ->
  package item = Some cls ->
  package_load cls (filename item)
    (load_model isfile path_join f v exe verb ws st) t = ReturnedD m' t ->
  match load_only with
  | Some lo => Forall (fun x => PyStr.is_ascii x = true) (load_only_as_list lo)
  | None => True
  end ->
  let rep :=
    fst (Modflow_load parsenamefile package_load set_pval set_zone set_mult
           remove_external isfile path_join f v exe verb ws load_only st) in
  let t' := remove_key key t in
  let consulted (l : list string) :=
    forall m, rep_result rep = Ok m ->
      exists g,
        load_stages package_load set_pval set_zone set_mult load_only t
          (load_model isfile path_join f v exe verb ws st) g /\
        sg_lo g = l /\
        loader_calls (rep_calls rep)
        = (cls, filename item) :: selected_calls l (sg_t4 g) in
  match load_only with
  | None =>
      (exists b, nth_error (rep_calls rep) 1 = Some (EvPar "pval" t' b)) /\
      consulted (map (fun kv => filetype (snd kv)) t')
  | Some lo =>
      let l := load_only_as_list lo in
      (forall x, In x (missing_tags t' l) <->
         exists tag,
           In tag l /\ x = PyStr.upper tag /\ x <> "DIS" /\
           forall kv, In kv t' -> filetype (snd kv) <> x) /\
      (missing_tags t' l <> [] ->
       rep_result rep
       = Raise (mk_exn Exception
                  (load_only_msg +:+ PyStr.join "," (missing_tags t' l))) /\
       rep_calls rep = [EvLoad cls (filename item) t false]) /\
      (missing_tags t' l = [] ->
       (exists b, nth_error (rep_calls rep) 1 = Some (EvPar "pval" t' b)) /\
       consulted (normalized_tags l))
  end.
Proof.
  intros Hp Hf Hpk Hld _ rep t' consulted.
  assert (Hcons : forall l,
            load_only_list load_only t' = Ok l -> consulted l).
  { intros l Hl m Hres.
    destruct (load_ok_inv f v exe verb ws load_only st t m Hp Hres)
      as (g & Hst).
    exists g. split; [exact Hst|].
    pose proof (load_loader_calls f v exe verb ws load_only st t g Hp Hst)
      as Hcalls.
    destruct Hst as (Hf' & Hpk' & _ & Hlo' & _).
    rewrite Hf in Hf'. inversion Hf' as [[Hk Hi]].
    unfold sg_t1 in Hlo'. rewrite <- Hk in Hlo'. fold t' in Hlo'.
    rewrite Hl in Hlo'. inversion Hlo' as [Hl'].
    split; [reflexivity|].
    fold rep in Hcalls. rewrite Hcalls. rewrite <- Hi, Hpk in Hpk'.
    inversion Hpk'. reflexivity. }
  assert (Hgo : forall lo,
            load_only_list load_only t' = Ok lo ->
            exists b, nth_error (rep_calls rep) 1 = Some (EvPar "pval" t' b)).
  { intros lo Hlo. unfold rep.
    rewrite (Modflow_load_parsed f v exe verb ws load_only st t Hp).
    rewrite load_body_split, load_dis_run.
    cbn [load_state0 ext_unit_dict ml calls files_succesfully_loaded
         files_not_loaded].
    rewrite Hf, Hpk.
    fold (load_model isfile path_join f v exe verb ws st). rewrite Hld.
    destruct (find_dis_Some t _ _ Hf) as (Hin & _).
    assert (has_key key t = true) as ->.
    { apply has_key_In. exists (key, item). split; [exact Hin | reflexivity]. }
    fold t'.
    match goal with
    | |- context [after_dis _ _ _ _ _ _ ?s1] => set (s1' := s1)
    end.
    destruct (after_dis_proceeds load_only s1' lo Hlo) as (b & rest & Hc).
    exists b. cbn [report_of rep_calls]. rewrite Hc. reflexivity. }
  destruct load_only as [lo|].
  - cbn zeta. split; [apply missing_tags_In|].
    pose proof (load_only_list_Some lo t') as Hl.
    split.
    + intros Hne.
      destruct (missing_tags t' (load_only_as_list lo)) as [|x xs] eqn:Em;
        [contradiction|].
      unfold rep.
      rewrite (Modflow_load_parsed f v exe verb ws (Some lo) st t Hp).
      rewrite load_body_split, load_dis_run.
      cbn [load_state0 ext_unit_dict ml calls files_succesfully_loaded
           files_not_loaded].
      rewrite Hf, Hpk.
      fold (load_model isfile path_join f v exe verb ws st). rewrite Hld.
      destruct (find_dis_Some t _ _ Hf) as (Hin & _).
      assert (has_key key t = true) as ->.
      { apply has_key_In. exists (key, item).
        split; [exact Hin | reflexivity]. }
      fold t'.
      match goal with
      | |- context [after_dis _ _ _ _ _ _ ?s1] => set (s1' := s1)
      end.
      rewrite (after_dis_rejects (Some lo) s1' _ Hl).
      split; reflexivity.
    + intros Hnil. rewrite Hnil in Hl.
      split; [exact (Hgo _ Hl) | exact (Hcons _ Hl)].
  - split; [exact (Hgo _ eq_refl) | exact (Hcons _ eq_refl)].
Qed.

End LoadFacts.

(** ** The claims about [Modflow.load] on the sample collaborators *)

Lemma sample_package_load_keeps (cls : PackageClass) (fname : string)
    (m : Modflow) (t : table) :
  dict_after (sample_package_load cls fname m t) = t.
Proof. destruct cls; reflexivity. Qed.

Lemma sample_package_load_same_externals (cls : PackageClass)
    (fname : string) (m : Modflow) (t : table) :
  same_externals m (model_after (sample_package_load cls fname m t)).
Proof. destruct cls; repeat split; reflexivity. Qed.

Lemma sample_set_zone_only_removes (m : Modflow) :
  only_removes (sample_set_zone m).
Proof.
  intros t kv H. unfold sample_set_zone in H. cbn [dict_after] in H.
  apply filter_In in H. tauto.
Qed.

Lemma load_without_dis_raises_witness :
  (exists e, rep_result (sample_load "nodis" None) = Raise e) /\
  (forall m, rep_result (sample_load "nodis" None) <> Ok m) /\
  rep_calls (sample_load "nodis" None) = [].
Proof.
  apply (load_without_dis_raises sample_parsenamefile sample_package_load
           sample_set_par sample_set_zone sample_set_par
           sample_remove_external sample_isfile sample_path_join
           "nodis" "mf2005" "mf2005.exe" false "." None ∅).
  intros t H. vm_compute in H. injection H as <-.
  repeat (constructor; [intros E; vm_compute in E; discriminate E|]).
  constructor.
Defined.

Lemma dis_loaded_first_witness :
  exists rest,
    rep_calls (sample_load "z" None)
    = EvLoad ModflowDis "m.dis" sample_table_zone false :: rest /\
    Forall (fun ev => has_key 11 (ev_table ev) = false) rest.
Proof.
  destruct (dis_loaded_first sample_parsenamefile sample_package_load
              sample_set_par sample_set_zone sample_set_par
              sample_remove_external sample_isfile sample_path_join
              "z" "mf2005" "mf2005.exe" false "." None ∅ sample_table_zone)
    as (key & item & Hf & _ & _ & _ & Hcalls).
  - reflexivity.
  - apply Exists_cons_hd. reflexivity.
  - vm_compute in Hf. injection Hf as <- <-.
    destruct (Hcalls ModflowDis eq_refl) as (raised & rest & Hc & Hm).
    cbv beta iota delta [sample_package_load] in Hm.
    destruct Hm as (Hr & _ & Hyes).
    destruct (Hyes eq_refl) as (_ & _ & Hall).
    exists rest. split.
    + rewrite Hc, Hr. reflexivity.
    + apply Hall.
      * intros c fn m t kv H. destruct c; exact H.
      * intros m t kv H. exact H.
      * apply sample_set_zone_only_removes.
      * intros m t kv H. exact H.
Defined.


Lemma load_only_validated_witness :
  rep_result (sample_load "m" (Some (LoadOnlyList ["wel"; "xyz"])))
  = Raise (mk_exn Exception (load_only_msg +:+ "XYZ")).
Proof.
  pose proof (load_only_validated sample_parsenamefile sample_package_load
                sample_set_par sample_set_zone sample_set_par
                sample_remove_external sample_isfile sample_path_join
                sample_package_load_keeps
                "m" "mf2005" "mf2005.exe" false "."
                (Some (LoadOnlyList ["wel"; "xyz"])) ∅ sample_table
                11%Z sample_dis_item ModflowDis
                (load_model sample_isfile sample_path_join
                   "m" "mf2005" "mf2005.exe" false "." ∅)
                eq_refl eq_refl eq_refl eq_refl
                ltac:(repeat constructor)) as H.
  cbv zeta in H. destruct H as (_ & Hraise & _).
  apply Hraise. vm_compute. discriminate.
Defined.

Lemma data_entry_registered_witness :
  exists m,
    rep_result (sample_load "m" None) = Ok m /\
    external_fnames m = ["h.bin"; "a.dat"] /\
    external_units m = [30%Z; 31%Z] /\
    external_binflag m = [true; false] /\
    ~ In "a.dat" (rep_not_loaded (sample_load "m" None)).
Proof.
  assert (Hres : exists m, rep_result (sample_load "m" None) = Ok m)
    by (eexists; vm_compute; reflexivity).
  destruct Hres as [m Hres].
  destruct (data_entry_registered sample_parsenamefile sample_package_load
              sample_set_par sample_set_zone sample_set_par
              sample_remove_external sample_isfile sample_path_join
              sample_package_load_keeps
              "m" "mf2005" "mf2005.exe" false "." None ∅ sample_table m
              eq_refl Hres)
    as (g & Hst & _ & _ & s5 & s6 & _ & _ & _ & _ & _ & Hext).
  destruct (Hext sample_package_load_same_externals)
    as (_ & Hf & Hu & Hb & Hm).
  destruct g as [k i c lo m1 m2 t2 m3 t3 m4 t4].
  unfold load_stages, sg_t1 in Hst.
  cbn [sg_key sg_item sg_cls sg_lo sg_m1 sg_m2 sg_t2 sg_m3 sg_t3 sg_m4 sg_t4]
    in *.
  destruct Hst as (Hfd & Hpk & Hld & _ & H2 & H3 & H4).
  vm_compute in Hfd. injection Hfd as <- <-.
  cbn [package] in Hpk. injection Hpk as <-.
  cbn [sample_package_load] in Hld. injection Hld as <-.
  unfold sample_set_par in H2, H4. injection H2 as <- <-.
  unfold sample_set_zone in H3. injection H3 as <- <-.
  injection H4 as <- <-.
  exists m. split; [exact Hres|].
  assert (Hm5 : m = ml s5) by (apply Hm; vm_compute; reflexivity).
  rewrite Hm5, Hf, Hu, Hb.
  split; [vm_compute; reflexivity|].
  split; [vm_compute; reflexivity|].
  split; [vm_compute; reflexivity|].
  vm_compute. intros H.
  repeat (destruct H as [H|H]; [discriminate H|]). exact H.
Defined.
(** * Further properties *)

(** ** The constructor and the allocator *)

Lemma set_next_ext_unit_same (m : Modflow) :
  set_next_ext_unit (next_ext_unit_ m) m = m.
Proof. destruct m; reflexivity. Qed.

Lemma next_ext_unit_n_exact (n : nat) (m : Modflow) :
  next_ext_unit_n n m
  = (map (fun i => next_ext_unit_ m + Z.of_nat i)%Z (seq 1 n),
     set_next_ext_unit (next_ext_unit_ m + Z.of_nat n) m).
Proof.
  revert m; induction n as [|n IH]; intros m.
  - cbn [next_ext_unit_n seq map]. rewrite Z.add_0_r.
    rewrite set_next_ext_unit_same. reflexivity.
  - cbn [next_ext_unit_n]. unfold next_ext_unit. rewrite IH.
    cbn [next_ext_unit_ set_next_ext_unit]. f_equal.
    + cbn [seq map]. f_equal.
      rewrite <- (seq_shift n 1), map_map. apply map_ext. intros i. lia.
    + unfold set_next_ext_unit; cbn. f_equal. lia.
Qed.

(** On a freshly constructed model the n-th call of [next_ext_unit]
    returns exactly 1000 + n, so 1000 itself is never handed out, and the
    calls change no attribute other than the counter. *)
Theorem next_ext_unit_counts_from_1001
    (a : InitArgs) (st st' : Store) (m : Modflow) (n : nat) :
  Modflow_init a st = (Ok m, st') ->
  fst (next_ext_unit_n n m)
  = map (fun i => 1000 + Z.of_nat i)%Z (seq 1 n) /\
  snd (next_ext_unit_n n m) = set_next_ext_unit (1000 + Z.of_nat n) m.
Proof.
  intros Hinit. apply Modflow_init_Ok in Hinit as [-> _].
  rewrite next_ext_unit_n_exact. split; reflexivity.
Qed.

Lemma next_ext_unit_counts_from_1001_witness :
  fst (next_ext_unit_n 3
         (Modflow_fields default_args
            (fst (alloc_dict mfnam_packages_dict ∅))))
  = [1001; 1002; 1003]%Z.
Proof.
  exact (proj1 (next_ext_unit_counts_from_1001 default_args ∅
                  (snd (alloc_dict mfnam_packages_dict ∅)) _ 3 eq_refl)).
Defined.

(** With [external_path] given and the structured check passed: when
    [model_ws] is not ".", the constructor raises the second assertion
    failure, before it looks at the file system; and whenever it returns,
    [model_ws] was ".", the model is in external mode, keeps the path and
    has empty external lists. *)
Theorem Modflow_init_external_path
    (a : InitArgs) (st : Store) (p : string) :
  a_external_path a = Some p ->
  a_structured a = true ->
  (a_model_ws a <> "." ->
   Modflow_init a st = (Raise (mk_exn AssertionError external_msg), st)) /\
  (forall m st',
     Modflow_init a st = (Ok m, st') ->
     a_model_ws a = "." /\
     external m = true /\ external_path m = Some p /\
     external_fnames m = [] /\ external_units m = [] /\
     external_binflag m = []).
Proof.
  intros Hp Hs. unfold Modflow_init. rewrite Hs, Hp. cbn [negb andb].
  split.
  - intros Hne. apply String.eqb_neq in Hne. rewrite Hne. reflexivity.
  - intros m st'. destruct (String.eqb (a_model_ws a) ".") eqn:E;
      cbn [negb]; [|discriminate].
    apply String.eqb_eq in E.
    destruct (alloc_dict mfnam_packages_dict st) as [l s1].
    intros H. inversion H; subst.
    cbn [external external_path Modflow_fields external_fnames
         external_units external_binflag]. rewrite Hp.
    repeat split; reflexivity || exact E.
Qed.

Lemma Modflow_init_external_path_witness :
  let a := mkInitArgs "m" "nam" "mf2005" "mf2005.exe" true 2 "ws"
             (Some "ext") false true 0 in
  Modflow_init a ∅ = (Raise (mk_exn AssertionError external_msg), ∅).
Proof.
  intros a.
  apply (proj1 (Modflow_init_external_path a ∅ "ext" eq_refl eq_refl)).
  intros H. discriminate H.
Defined.

(** The name file of a freshly constructed model whose version is an
    ASCII string: the text [write_name_file] writes is the heading (with
    the version as given), the GLOBAL line on unit 1 exactly when the
    lower-cased version is "mf2k", and the LIST line on the list unit; no
    DATA line. *)
Theorem write_name_file_after_init
    (relpath : string -> string -> string)
    (a : InitArgs) (st st' : Store) (m : Modflow) :
  PyStr.is_ascii (a_version a) = true ->
  Modflow_init a st = (Ok m, st') ->
  write_name_file relpath m
  = Ok (("# Name file for " +:+ a_version a +:+ ", generated by Flopy.")
        +:+ nl
        +:+ (if String.eqb (PyStr.lower (a_version a)) "mf2k"
             then entry_line "GLOBAL" 1 (a_modelname a +:+ ".glo")
             else EmptyString)
        +:+ entry_line "LIST" (a_listunit a) (a_modelname a +:+ ".list")).
Proof.
  intros _ Hinit. apply Modflow_init_Ok in Hinit as [-> _].
  unfold write_name_file.
  cbn [version glo lst heading Modflow_fields model_ws external_units
       external_fnames external_binflag zip3 write_externals
       get_name_file_entries packagelist flat_map map String.concat].
  destruct (String.eqb (PyStr.lower (a_version a)) "mf2k").
  - cbn [first_entry_line ModflowGlobal_init ModflowList_init Package_init
         name unit_number file_name].
    rewrite PyStrFacts.append_nil_r, !PyStrFacts.append_assoc. reflexivity.
  - cbn [first_entry_line ModflowList_init Package_init
         name unit_number file_name].
    rewrite PyStrFacts.append_nil_r, !PyStrFacts.append_assoc. reflexivity.
Qed.

Lemma write_name_file_after_init_witness :
  write_name_file sample_relpath
    (Modflow_fields default_args (fst (alloc_dict mfnam_packages_dict ∅)))
  = Ok ("# Name file for mf2005, generated by Flopy." +:+ nl
        +:+ entry_line "LIST" 2 "modflowtest.list").
Proof.
  exact (write_name_file_after_init sample_relpath default_args ∅
           (snd (alloc_dict mfnam_packages_dict ∅)) _ eq_refl eq_refl).
Defined.

(** ** The registry literal *)

Lemma mfnam_packages_literal_NoDup :
  NoDup (map fst mfnam_packages_literal).
Proof.
  apply (bool_decide_unpack _). vm_compute. exact I.
Qed.

Lemma mfnam_packages_literal_lower :
  Forall (fun kc => PyStr.lower (fst kc) = fst kc) mfnam_packages_literal.
Proof. repeat constructor. Qed.

Lemma mfnam_packages_dict_lookup (k : string) (c : PackageClass) :
  mfnam_packages_dict !! k = Some c <-> In (k, c) mfnam_packages_literal.
Proof.
  unfold mfnam_packages_dict. rewrite <- list_elem_of_In.
  symmetry. apply elem_of_list_to_map. exact mfnam_packages_literal_NoDup.
Qed.

(** The registry of a freshly constructed model maps a key to a class
    exactly when the pair is listed in the dictionary literal (no key of
    the literal is listed twice), and only lower-case keys resolve. *)
Theorem fresh_registry_is_literal
    (a : InitArgs) (st st' : Store) (m : Modflow)
    (k : string) (c : PackageClass) :
  Modflow_init a st = (Ok m, st') ->
  (registry_get m k st' = Some c <-> In (k, c) mfnam_packages_literal) /\
  (registry_get m k st' = Some c -> PyStr.lower k = k).
Proof.
  intros Hinit. apply Modflow_init_Ok in Hinit as [-> ->].
  unfold registry_get. cbn [mfnam_packages Modflow_fields].
  rewrite alloc_dict_lookup. split.
  - apply mfnam_packages_dict_lookup.
  - intros H. apply mfnam_packages_dict_lookup in H.
    pose proof mfnam_packages_literal_lower as L.
    rewrite Forall_forall in L. apply list_elem_of_In in H.
    exact (L _ H).
Qed.

Lemma fresh_registry_is_literal_witness :
  registry_get
    (Modflow_fields default_args (fst (alloc_dict mfnam_packages_dict ∅)))
    "sfr" (snd (alloc_dict mfnam_packages_dict ∅))
  = Some ModflowSfr2.
Proof.
  apply (proj1 (fresh_registry_is_literal default_args ∅
                  (snd (alloc_dict mfnam_packages_dict ∅)) _
                  "sfr" ModflowSfr2 eq_refl)).
  unfold mfnam_packages_literal. do 22 right. left. reflexivity.
Defined.

(** ** The model name [Modflow.load] derives *)

Lemma rpartition_head_no_dot (s : string) :
  no_dot s = true -> PyStr.rpartition_head s = None.
Proof.
  induction s as [|c s IH]; [reflexivity|].
  cbn [no_dot PyStr.rpartition_head]. intros H.
  apply andb_true_iff in H as [Hc Hs]. rewrite (IH Hs).
  apply negb_true_iff in Hc. rewrite Hc. reflexivity.
Qed.

Lemma rpartition_head_app (base ext : string) :
  no_dot ext = true ->
  PyStr.rpartition_head (base +:+ "." +:+ ext) = Some base.
Proof.
  intros H. induction base as [|c base IH].
  - change (EmptyString +:+ "." +:+ ext) with (String "."%char ext).
    cbn [PyStr.rpartition_head]. rewrite (rpartition_head_no_dot ext H).
    reflexivity.
  - rewrite PyStrFacts.append_cons. cbn [PyStr.rpartition_head].
    rewrite IH. reflexivity.
Qed.

(** When [f] is not an existing file the model is named [f]; when it is,
    the model is named by what precedes the last "." of [f]: the base of
    "base.ext", and the empty string when [f] has no "." at all. *)
Theorem load_modelname_cases
    (isfile : string -> bool) (path_join : string -> string -> string)
    (f ws : string) :
  (isfile (path_join ws f) = false ->
   load_modelname isfile path_join f ws = f) /\
  (isfile (path_join ws f) = true ->
   (forall base ext,
      f = base +:+ "." +:+ ext -> no_dot ext = true ->
      load_modelname isfile path_join f ws = base) /\
   (no_dot f = true ->
    load_modelname isfile path_join f ws = EmptyString)).
Proof.
  unfold load_modelname, PyStr.rpartition0. split.
  - intros ->. reflexivity.
  - intros ->. split.
    + intros base ext -> Hext. rewrite (rpartition_head_app base ext Hext).
      reflexivity.
    + intros Hf. rewrite (rpartition_head_no_dot f Hf). reflexivity.
Qed.

Lemma load_modelname_cases_witness :
  load_modelname sample_isfile_yes sample_path_join "run.v2.nam" "."
  = "run.v2" /\
  load_modelname sample_isfile_yes sample_path_join "namefile" "."
  = EmptyString /\
  load_modelname sample_isfile sample_path_join "run.v2.nam" "."
  = "run.v2.nam".
Proof.
  destruct (load_modelname_cases sample_isfile_yes sample_path_join
              "run.v2.nam" ".") as [_ H1].
  destruct (load_modelname_cases sample_isfile_yes sample_path_join
              "namefile" ".") as [_ H2].
  destruct (load_modelname_cases sample_isfile sample_path_join
              "run.v2.nam" ".") as [H3 _].
  split; [|split].
  - exact (proj1 (H1 eq_refl) "run.v2" "nam" eq_refl eq_refl).
  - exact (proj2 (H2 eq_refl) eq_refl).
  - exact (H3 eq_refl).
Defined.

(** ** More on [Modflow.load] *)

Lemma selected_calls_all (lo : list string) (t : table) :
  (forall kv, In kv t -> PyStr.mem (filetype (snd kv)) lo = true) ->
  selected_calls lo t = recognized_calls t.
Proof.
  unfold selected_calls, recognized_calls.
  induction t as [|kv t IH]; intros H; [reflexivity|].
  cbn [flat_map]. rewrite IH by (intros kv' Hin; apply H; right; exact Hin).
  rewrite (H kv) by (left; reflexivity). reflexivity.
Qed.

Section LoadMore.

Variable parsenamefile :
  string -> gmap string PackageClass -> bool -> result table.
Variable package_load :
  PackageClass -> string -> Modflow -> table -> dict_outcome.
Variable set_pval : Modflow -> table -> dict_outcome.
Variable set_zone : Modflow -> table -> dict_outcome.
Variable set_mult : Modflow -> table -> dict_outcome.
Variable remove_external : Z -> Modflow -> outcome.
Variable isfile : string -> bool.
Variable path_join : string -> string -> string.

(** *** The reconciliation loop *)

Lemma remove_key_absent (k : Z) (t : table) :
  has_key k t = false -> remove_key k t = t.
Proof.
  unfold has_key, remove_key. induction t as [|[k' it] t IH]; [reflexivity|].
  cbn [existsb List.filter fst]. intros H.
  apply orb_false_iff in H as [H1 H2]. rewrite H1. cbn [negb].
  rewrite (IH H2). reflexivity.
Qed.

Lemma remove_key_filter (k : Z) (keys : list Z) (t : table) :
  List.filter (fun kv => negb (existsb (Z.eqb (fst kv)) keys))
    (remove_key k t)
  = List.filter (fun kv => negb (existsb (Z.eqb (fst kv)) (k :: keys))) t.
Proof.
  unfold remove_key. induction t as [|[k' it] t IH]; [reflexivity|].
  cbn [List.filter fst existsb].
  destruct (Z.eqb k' k); cbn [negb orb]; [exact IH|].
  cbn [List.filter fst]. rewrite IH. reflexivity.
Qed.

(** One pass: the key is gone from the table when [remove_external]
    returned, and the table is untouched when it raised. *)
Lemma pop_step_dict (key : Z) (s : St) :
  exists s',
    try_except catch_all
      (bind (call_remove_external remove_external key)
         (fun _ => dict_pop (Some key)))
      (fun _ => ret tt) s = (Ok tt, s') /\
    ext_unit_dict s'
    = match remove_external key (ml s) with
      | Returned _ => remove_key key (ext_unit_dict s)
      | Raised _ _ => ext_unit_dict s
      end.
Proof.
  unfold try_except, bind, call_remove_external, dict_pop, catch_all, ret.
  destruct (remove_external key (ml s)) as [m'|e m'];
    cbn [ext_unit_dict set_ml].
  - destruct (has_key key (ext_unit_dict s)) eqn:E.
    + eexists; split; reflexivity.
    + eexists; split; [reflexivity|].
      cbn [ext_unit_dict set_ml]. symmetry.
      now apply remove_key_absent.
  - eexists; split; reflexivity.
Qed.

Lemma pop_loop_dict_exact (keys : list Z) (s : St) :
  (forall k m, exists m', remove_external k m = Returned m') ->
  exists s',
    for_each keys (fun key =>
      try_except catch_all
        (bind (call_remove_external remove_external key)
           (fun _ => dict_pop (Some key)))
        (fun _ => ret tt)) s = (Ok tt, s') /\
    ext_unit_dict s'
    = List.filter (fun kv => negb (existsb (Z.eqb (fst kv)) keys))
        (ext_unit_dict s).
Proof.
  intros Hret. revert s; induction keys as [|k keys IH]; intros s.
  - exists s. split; [reflexivity|].
    cbn [existsb negb]. symmetry. apply forallb_filter_id.
    apply forallb_forall. reflexivity.
  - cbn [for_each]. unfold bind at 1.
    destruct (pop_step_dict k s) as (s1 & -> & Hd1).
    destruct (Hret k (ml s)) as (m' & Hm). rewrite Hm in Hd1.
    destruct (IH s1) as (s2 & -> & Hd2).
    exists s2. split; [reflexivity|].
    rewrite Hd2, Hd1. apply remove_key_filter.
Qed.

Lemma pop_loop_dict_bounds (keys : list Z) (s : St) :
  exists s',
    for_each keys (fun key =>
      try_except catch_all
        (bind (call_remove_external remove_external key)
           (fun _ => dict_pop (Some key)))
        (fun _ => ret tt)) s = (Ok tt, s') /\
    (forall kv, In kv (ext_unit_dict s') -> In kv (ext_unit_dict s)) /\
    (forall kv, In kv (ext_unit_dict s) ->
       existsb (Z.eqb (fst kv)) keys = false -> In kv (ext_unit_dict s')).
Proof.
  revert s; induction keys as [|k keys IH]; intros s.
  - exists s. repeat split; auto.
  - cbn [for_each]. unfold bind at 1.
    destruct (pop_step_dict k s) as (s1 & -> & Hd1).
    destruct (IH s1) as (s2 & -> & Hsub & Hkeep).
    exists s2. split; [reflexivity|]. split.
    + intros kv Hin. specialize (Hsub kv Hin). rewrite Hd1 in Hsub.
      destruct (remove_external k (ml s)); [|exact Hsub].
      apply In_remove_key in Hsub. exact (proj1 Hsub).
    + intros kv Hin Hk. cbn [existsb] in Hk.
      apply orb_false_iff in Hk as [Hk1 Hk2].
      apply Hkeep; [|exact Hk2]. rewrite Hd1.
      destruct (remove_external k (ml s)); [|exact Hin].
      apply In_remove_key. split; [exact Hin|].
      intros E. rewrite E, Z.eqb_refl in Hk1. discriminate Hk1.
Qed.

(** Reconciliation when [remove_external] always returns: the loop
    returns, and the table it leaves is the table it found without the
    entries whose key is on the model's pop list. *)
Theorem pop_keys_removes_popped (s : St) :
  (forall k m, exists m', remove_external k m = Returned m') ->
  exists s',
    pop_keys remove_external s = (Ok tt, s') /\
    ext_unit_dict s' = List.filter (not_popped (ml s)) (ext_unit_dict s) /\
    calls s' = calls s /\
    files_not_loaded s' = files_not_loaded s /\
    files_succesfully_loaded s' = files_succesfully_loaded s.
Proof.
  intros Hret.
  destruct (pop_keys_run remove_external s) as (s1 & E1 & Hc & Hn & Hl).
  unfold pop_keys in *. unfold bind at 1 in E1. unfold bind at 1.
  unfold gets in *. cbn [fst snd] in *.
  destruct (pop_loop_dict_exact (pop_key_list (ml s)) s Hret)
    as (s2 & E2 & Hd).
  rewrite E2 in E1. inversion E1; subst s2.
  exists s1. split; [exact E2|]. split; [|auto].
  rewrite Hd. reflexivity.
Qed.

(** An entry whose key makes [remove_external] raise stays. *)
Lemma pop_loop_dict_raise (keys : list Z) (s : St) (kv : Z * NamData) :
  (forall m, exists e m', remove_external (fst kv) m = Raised e m') ->
  In kv (ext_unit_dict s) ->
  exists s',
    for_each keys (fun key =>
      try_except catch_all
        (bind (call_remove_external remove_external key)
           (fun _ => dict_pop (Some key)))
        (fun _ => ret tt)) s = (Ok tt, s') /\
    In kv (ext_unit_dict s').
Proof.
  intros Hr. revert s; induction keys as [|k keys IH]; intros s Hin.
  - exists s. split; [reflexivity | exact Hin].
  - cbn [for_each]. unfold bind at 1.
    destruct (pop_step_dict k s) as (s1 & -> & Hd1).
    assert (Hin1 : In kv (ext_unit_dict s1)).
    { rewrite Hd1. destruct (remove_external k (ml s)) as [m1|e1 m1] eqn:E;
        [|exact Hin].
      apply In_remove_key. split; [exact Hin|].
      intros Hk. destruct (Hr (ml s)) as (e & m' & Hraise).
      rewrite Hk, E in Hraise. discriminate Hraise. }
    destruct (IH s1 Hin1) as (s2 & -> & Hin2).
    exists s2. split; [reflexivity | exact Hin2].
Qed.

(** Reconciliation whatever [remove_external] does: the loop never
    raises, makes no call into a loader and leaves both filename lists
    alone; it only removes entries, and none whose key is off the pop
    list; and an entry for whose key [remove_external] raises is not
    removed, on the pop list or not. *)
Theorem pop_keys_never_raises (s : St) :
  exists s',
    pop_keys remove_external s = (Ok tt, s') /\
    calls s' = calls s /\
    files_not_loaded s' = files_not_loaded s /\
    files_succesfully_loaded s' = files_succesfully_loaded s /\
    (forall kv, In kv (ext_unit_dict s') -> In kv (ext_unit_dict s)) /\
    (forall kv, In kv (ext_unit_dict s) ->
       not_popped (ml s) kv = true -> In kv (ext_unit_dict s')) /\
    (forall kv, In kv (ext_unit_dict s) ->
       (forall m, exists e m', remove_external (fst kv) m = Raised e m') ->
       In kv (ext_unit_dict s')).
Proof.
  destruct (pop_keys_run remove_external s) as (s1 & E1 & Hc & Hn & Hl).
  exists s1. split; [exact E1|]. repeat (split; [assumption|]).
  unfold pop_keys in E1. unfold bind at 1 in E1.
  unfold gets in E1. cbn [fst snd] in E1.
  destruct (pop_loop_dict_bounds (pop_key_list (ml s)) s)
    as (s2 & E2 & Hsub & Hkeep).
  rewrite E2 in E1. inversion E1; subst s2.
  split; [exact Hsub|]. split.
  - intros [k it] Hin Hnp. apply Hkeep; [exact Hin|].
    unfold not_popped, in_pop_key_list in Hnp.
    apply negb_true_iff in Hnp. exact Hnp.
  - intros kv Hin Hr.
    destruct (pop_loop_dict_raise (pop_key_list (ml s)) s kv Hr Hin)
      as (s3 & E3 & Hin3).
    rewrite E2 in E3. inversion E3; subst s3. exact Hin3.
Qed.

(** *** How [Modflow.load] fails *)

(** A parser that raises: an [Exception] is raised again as an
    [Exception] whose message is the fixed prefix followed by the
    original text; any other exception passes unchanged; either way no
    loader has been called. *)
Theorem load_parser_failure (f v exe : string) (verb : bool) (ws : string)
    (load_only : option LoadOnly) (st : Store) (e : exn) :
  parsenamefile (load_namefile_path isfile path_join f ws)
    mfnam_packages_dict verb = Raise e ->
  let rep :=
    fst (Modflow_load parsenamefile package_load set_pval set_zone set_mult
           remove_external isfile path_join f v exe verb ws load_only st) in
  rep_result rep
  = Raise (if is_Exception e
           then mk_exn Exception (parse_msg +:+ exn_str e)
           else e) /\
  rep_calls rep = [] /\ rep_loaded rep = [] /\ rep_not_loaded rep = [].
Proof.
  intros Hp rep. unfold rep, Modflow_load.
  rewrite Modflow_init_load_args.
  cbn [mfnam_packages Modflow_fields model_ws namefile].
  rewrite alloc_dict_lookup.
  unfold load_namefile_path in Hp. cbn [load_init_args a_modelname
    a_namefile_ext a_model_ws]. rewrite Hp.
  destruct (is_Exception e); repeat split; reflexivity.
Qed.

(** A discretization entry that cannot be loaded: with no loader on the
    entry, or a loader that raises an [Exception], the load raises an
    [Exception] naming the base name of the file; any other exception of
    the loader passes unchanged.  The load pops nothing from the
    dictionary, which is left as parsed, or as the raising loader left
    it, and nothing is recorded as loaded. *)
Theorem load_dis_failure (f v exe : string) (verb : bool) (ws : string)
    (load_only : option LoadOnly) (st : Store) (t : table)
    (key : Z) (item : NamData) :
  parsenamefile (load_namefile_path isfile path_join f ws)
    mfnam_packages_dict verb = Ok t ->
  find_dis t = Some (key, item) ->
  let rep :=
    fst (Modflow_load parsenamefile package_load set_pval set_zone set_mult
           remove_external isfile path_join f v exe verb ws load_only st) in
  match package item with
  | None =>
      rep_result rep
      = Raise (mk_exn Exception
                 (dis_msg (filename item) +:+ " "
                  +:+ exn_str (none_attr "load"))) /\
      rep_dict rep = t /\ rep_loaded rep = []
  | Some cls =>
      forall e m' t',
        package_load cls (filename item)
          (load_model isfile path_join f v exe verb ws st) t
        = RaisedD e m' t' ->
        rep_result rep
        = Raise (if is_Exception e
                 then mk_exn Exception
                        (dis_msg (filename item) +:+ " " +:+ exn_str e)
                 else e) /\
        rep_dict rep = t' /\ rep_loaded rep = [] /\
        rep_calls rep = [EvLoad cls (filename item) t true]
  end.
Proof.
  intros Hp Hf rep. unfold rep.
  erewrite Modflow_load_parsed by exact Hp.
  rewrite load_body_split, load_dis_run.
  cbn [load_state0 ext_unit_dict ml calls files_succesfully_loaded
       files_not_loaded].
  rewrite Hf. destruct (package item) as [cls|].
  - intros e m' t' Hld.
    fold (load_model isfile path_join f v exe verb ws st). rewrite Hld.
    cbn. repeat split; reflexivity.
  - cbn. repeat split; reflexivity.
Qed.

(** One pass of the package loop on an entry that is left out by
    load_only, or that carries no package class and is not tagged as
    data: the file name is appended to the not-loaded list and nothing
    else happens: no loader is called and the model is not touched. *)
Theorem skipped_entry_recorded (lo : list string) (key : Z)
    (item : NamData) (s : St) :
  match package item with
  | Some _ => PyStr.mem (filetype item) lo = false
  | None => PyStr.contains "data" (PyStr.lower (filetype item)) = false
  end ->
  load_entry package_load lo (key, item) s
  = (Ok tt,
     {| ml := ml s; ext_unit_dict := ext_unit_dict s;
        files_succesfully_loaded := files_succesfully_loaded s;
        files_not_loaded := (files_not_loaded s ++ [filename item])%list;
        calls := calls s |}).
Proof.
  intros H. rewrite load_entry_run. unfold load_entry_post.
  destruct (package item); rewrite H; reflexivity.
Qed.


(** *** A load that returns *)

(** The loaders leave [ext_unit_dict] as they find it. *)
Hypothesis H_keep :
  forall cls fname m t, dict_after (package_load cls fname m t) = t.

(** Once the name file is parsed, [Modflow.load] returns a model exactly
    when there is a discretization entry with a loader that returns, the
    load_only check passes on the table without that entry, and the three
    parameter setters return in turn, each on the model and the
    dictionary the one before left; nothing in the package loop or the
    reconciliation loop can make it raise. *)
Theorem load_returns_iff (f v exe : string) (verb : bool) (ws : string)
    (load_only : option LoadOnly) (st : Store) (t : table) :
  parsenamefile (load_namefile_path isfile path_join f ws)
    mfnam_packages_dict verb = Ok t ->
  (exists m,
     rep_result
       (fst (Modflow_load parsenamefile package_load set_pval set_zone
               set_mult remove_external isfile path_join f v exe verb ws
               load_only st)) = Ok m) <->
  (exists g,
     load_stages package_load set_pval set_zone set_mult load_only t
       (load_model isfile path_join f v exe verb ws st) g).
Proof.
  intros Hp. split.
  - intros (m & Hm).
    exact (load_ok_inv parsenamefile package_load set_pval set_zone set_mult
             remove_external isfile path_join H_keep
             f v exe verb ws load_only st t m Hp Hm).
  - intros (g & Hst).
    destruct (load_run_ok parsenamefile package_load set_pval set_zone
                set_mult remove_external isfile path_join H_keep
                f v exe verb ws load_only st t g Hp Hst)
      as (s6 & _ & ->).
    eexists. reflexivity.
Qed.

(** The loader calls of a load that returns: first the discretization
    loader, then, in order and once each, the loaders of exactly those
    entries of the dictionary the parameter setters left that carry a
    package class and whose filetype is in the load_only list (the list
    as computed before the setters ran); an entry without a class, left
    out by load_only, or taken out by a setter, has no loader called. *)
Theorem load_calls_exactly_selected (f v exe : string) (verb : bool)
    (ws : string) (load_only : option LoadOnly) (st : Store) (t : table)
    (m : Modflow) :
  parsenamefile (load_namefile_path isfile path_join f ws)
    mfnam_packages_dict verb = Ok t ->
  let rep :=
    fst (Modflow_load parsenamefile package_load set_pval set_zone set_mult
           remove_external isfile path_join f v exe verb ws load_only st) in
  rep_result rep = Ok m ->
  exists g,
    load_stages package_load set_pval set_zone set_mult load_only t
      (load_model isfile path_join f v exe verb ws st) g /\
    loader_calls (rep_calls rep)
    = (sg_cls g, filename (sg_item g))
      :: selected_calls (sg_lo g) (sg_t4 g).
Proof.
  intros Hp rep Hm.
  destruct (load_ok_inv parsenamefile package_load set_pval set_zone set_mult
              remove_external isfile path_join H_keep
              f v exe verb ws load_only st t m Hp Hm) as (g & Hst).
  exists g. split; [exact Hst|].
  exact (load_loader_calls parsenamefile package_load set_pval set_zone
           set_mult remove_external isfile path_join H_keep
           f v exe verb ws load_only st t g Hp Hst).
Qed.

(** With load_only omitted, the list the loop consults is the filetypes
    of the entries left once the discretization entry is popped; so when
    every filetype of the dictionary the setters left is among them (as
    it is when the setters only take entries out), a load that returns
    has called the loader of every entry of that dictionary that carries
    a package class, in order, further entries with the discretization
    tag included. *)
Theorem load_all_calls_every_recognized (f v exe : string) (verb : bool)
    (ws : string) (st : Store) (t : table) (m : Modflow) :
  parsenamefile (load_namefile_path isfile path_join f ws)
    mfnam_packages_dict verb = Ok t ->
  let rep :=
    fst (Modflow_load parsenamefile package_load set_pval set_zone set_mult
           remove_external isfile path_join f v exe verb ws None st) in
  rep_result rep = Ok m ->
  exists g,
    load_stages package_load set_pval set_zone set_mult None t
      (load_model isfile path_join f v exe verb ws st) g /\
    sg_lo g = map (fun kv => filetype (snd kv)) (sg_t1 t g) /\
    ((forall kv, In kv (sg_t4 g) ->
        In (filetype (snd kv))
           (map (fun kv' => filetype (snd kv')) (sg_t1 t g))) ->
     loader_calls (rep_calls rep)
     = (sg_cls g, filename (sg_item g)) :: recognized_calls (sg_t4 g)).
Proof.
  intros Hp rep Hm.
  destruct (load_ok_inv parsenamefile package_load set_pval set_zone set_mult
              remove_external isfile path_join H_keep
              f v exe verb ws None st t m Hp Hm) as (g & Hst).
  exists g. split; [exact Hst|].
  pose proof (load_loader_calls parsenamefile package_load set_pval set_zone
                set_mult remove_external isfile path_join H_keep
                f v exe verb ws None st t g Hp Hst) as Hcalls.
  destruct Hst as (_ & _ & _ & Hlo & _).
  cbn [load_only_list] in Hlo. inversion Hlo as [Hlo'].
  split; [reflexivity|].
  intros Hall. fold rep in Hcalls. rewrite Hcalls. f_equal.
  rewrite <- Hlo'. apply selected_calls_all. intros kv Hin.
  apply PyStrFacts.mem_In. apply Hall. exact Hin.
Qed.

(** A load that returns accounts for every entry the loop visits once:
    the file of the discretization entry heads the loaded list; each
    entry of the dictionary the parameter setters left that is not an
    unrecognized data entry adds one name to the loaded or to the
    not-loaded list, and a data entry adds none; and every name on either
    list is the file name of the discretization entry or of an entry of
    that dictionary. *)
Theorem load_accounts_for_entries (f v exe : string) (verb : bool)
    (ws : string) (load_only : option LoadOnly) (st : Store) (t : table)
    (m : Modflow) :
  parsenamefile (load_namefile_path isfile path_join f ws)
    mfnam_packages_dict verb = Ok t ->
  let rep :=
    fst (Modflow_load parsenamefile package_load set_pval set_zone set_mult
           remove_external isfile path_join f v exe verb ws load_only st) in
  rep_result rep = Ok m ->
  exists g rest,
    load_stages package_load set_pval set_zone set_mult load_only t
      (load_model isfile path_join f v exe verb ws st) g /\
    rep_loaded rep = filename (sg_item g) :: rest /\
    (length (rep_loaded rep) + length (rep_not_loaded rep)
     + length (List.filter is_data_entry (sg_t4 g))
     = 1 + length (sg_t4 g))%nat /\
    Forall (fun x => x = filename (sg_item g) \/
                     exists kv, In kv (sg_t4 g) /\ filename (snd kv) = x)
      (rep_loaded rep ++ rep_not_loaded rep)%list.
Proof.
  intros Hp rep Hm.
  destruct (load_ok_inv parsenamefile package_load set_pval set_zone set_mult
              remove_external isfile path_join H_keep
              f v exe verb ws load_only st t m Hp Hm) as (g & Hst).
  destruct (load_run_ok parsenamefile package_load set_pval set_zone
              set_mult remove_external isfile path_join H_keep
              f v exe verb ws load_only st t g Hp Hst)
    as (s6 & Hpop & Hrep).
  destruct (load_loop_account package_load (sg_lo g) (sg_t4 g)
              (loop_start t g))
    as (new & aL & aN & _ & HaL & HaN & _ & Hcount & Hfrom).
  cbn zeta in HaL, HaN.
  match type of Hpop with
  | pop_keys remove_external ?s5 = _ =>
      destruct (pop_keys_run remove_external s5) as (s6' & E & _ & Hn6 & Hl6)
  end.
  rewrite Hpop in E. inversion E; subst s6'.
  exists g, aL. split; [exact Hst|].
  unfold rep. rewrite Hrep. cbn [report_of rep_loaded rep_not_loaded].
  rewrite Hn6, Hl6, HaL, HaN.
  cbn [loop_start files_succesfully_loaded files_not_loaded app].
  split; [reflexivity|]. split.
  - cbn [length]. lia.
  - apply Forall_cons. split; [left; reflexivity|].
    eapply Forall_impl; [exact Hfrom|].
    intros x (kv & Hin & Hx). right. exists kv. split; assumption.
Qed.

End LoadMore.

(** *** On the sample collaborators *)

Lemma load_parser_failure_witness :
  rep_result (sample_load "absent" None)
  = Raise (mk_exn Exception (parse_msg +:+ "No such file")).
Proof.
  exact (proj1 (load_parser_failure sample_parsenamefile sample_package_load
                  sample_set_par sample_set_zone sample_set_par
                  sample_remove_external sample_isfile sample_path_join
                  "absent" "mf2005" "mf2005.exe" false "." None ∅
                  (mk_exn OtherException "No such file") eq_refl)).
Defined.

Lemma load_dis_failure_witness :
  rep_result (sample_load_bad_dis "m")
  = Raise (mk_exn KeyboardInterrupt "stop") /\
  rep_dict (sample_load_bad_dis "m") = sample_table /\
  rep_loaded (sample_load_bad_dis "m") = [] /\
  rep_calls (sample_load_bad_dis "m")
  = [EvLoad ModflowDis "m.dis" sample_table true].
Proof.
  exact (load_dis_failure sample_parsenamefile sample_package_load_bad_dis
           sample_set_par sample_set_zone sample_set_par
           sample_remove_external sample_isfile sample_path_join
           "m" "mf2005" "mf2005.exe" false "." None ∅ sample_table
           11%Z sample_dis_item eq_refl eq_refl
           (mk_exn KeyboardInterrupt "stop")
           (load_model sample_isfile sample_path_join
              "m" "mf2005" "mf2005.exe" false "." ∅)
           sample_table eq_refl).
Defined.

Lemma sample_stages_zone_ok :
  load_stages sample_package_load sample_set_par sample_set_zone
    sample_set_par None sample_table_zone
    (load_model sample_isfile sample_path_join
       "z" "mf2005" "mf2005.exe" false "." ∅)
    sample_stages_zone.
Proof. repeat split; reflexivity. Qed.

Lemma load_returns_iff_witness :
  exists m, rep_result (sample_load "z" None) = Ok m.
Proof.
  apply (proj2 (load_returns_iff sample_parsenamefile sample_package_load
                  sample_set_par sample_set_zone sample_set_par
                  sample_remove_external sample_isfile sample_path_join
                  sample_package_load_keeps
                  "z" "mf2005" "mf2005.exe" false "." None ∅
                  sample_table_zone eq_refl)).
  exists sample_stages_zone. exact sample_stages_zone_ok.
Defined.

Lemma load_calls_exactly_selected_witness :
  loader_calls (rep_calls (sample_load "z" None))
  = [(ModflowDis, "m.dis"); (ModflowRch, "m.rch")].
Proof.
  destruct (load_calls_exactly_selected sample_parsenamefile
              sample_package_load sample_set_par sample_set_zone
              sample_set_par sample_remove_external sample_isfile
              sample_path_join sample_package_load_keeps
              "z" "mf2005" "mf2005.exe" false "." None ∅ sample_table_zone
              (load_model sample_isfile sample_path_join
                 "z" "mf2005" "mf2005.exe" false "." ∅))
    as (g & Hst & Hc).
  - reflexivity.
  - vm_compute. reflexivity.
  - rewrite Hc.
    rewrite (load_stages_unique sample_package_load sample_set_par
               sample_set_zone sample_set_par None sample_table_zone _
               g sample_stages_zone Hst sample_stages_zone_ok).
    reflexivity.
Defined.

Lemma load_all_calls_every_recognized_witness :
  loader_calls (rep_calls (sample_load "z" None))
  = (ModflowDis, "m.dis") :: recognized_calls [(21%Z, mkNamData "RCH" "m.rch" (Some ModflowRch))].
Proof.
  destruct (load_all_calls_every_recognized sample_parsenamefile
              sample_package_load sample_set_par sample_set_zone
              sample_set_par sample_remove_external sample_isfile
              sample_path_join sample_package_load_keeps
              "z" "mf2005" "mf2005.exe" false "." ∅ sample_table_zone
              (load_model sample_isfile sample_path_join
                 "z" "mf2005" "mf2005.exe" false "." ∅))
    as (g & Hst & _ & Hc).
  - reflexivity.
  - vm_compute. reflexivity.
  - rewrite (load_stages_unique sample_package_load sample_set_par
               sample_set_zone sample_set_par None sample_table_zone _
               g sample_stages_zone Hst sample_stages_zone_ok) in Hc.
    rewrite Hc; [reflexivity|].
    intros kv [<-|[]]. vm_compute. right. left. reflexivity.
Defined.

Lemma load_accounts_for_entries_witness :
  exists rest,
    rep_loaded (sample_load "z" None) = "m.dis" :: rest /\
    (length (rep_loaded (sample_load "z" None))
     + length (rep_not_loaded (sample_load "z" None)) + 0 = 1 + 1)%nat.
Proof.
  destruct (load_accounts_for_entries sample_parsenamefile
              sample_package_load sample_set_par sample_set_zone
              sample_set_par sample_remove_external sample_isfile
              sample_path_join sample_package_load_keeps
              "z" "mf2005" "mf2005.exe" false "." None ∅ sample_table_zone
              (load_model sample_isfile sample_path_join
                 "z" "mf2005" "mf2005.exe" false "." ∅))
    as (g & rest & Hst & Hl & Hn & _).
  - reflexivity.
  - vm_compute. reflexivity.
  - rewrite (load_stages_unique sample_package_load sample_set_par
               sample_set_zone sample_set_par None sample_table_zone _
               g sample_stages_zone Hst sample_stages_zone_ok) in Hl, Hn.
    exists rest. split; [exact Hl | exact Hn].
Defined.

Lemma skipped_entry_recorded_witness :
  files_not_loaded
    (snd (load_entry sample_package_load ["WEL"]
            (21%Z, mkNamData "RCH" "m.rch" (Some ModflowRch)) sample_state))
  = ["m.rch"].
Proof.
  rewrite (skipped_entry_recorded sample_package_load ["WEL"] 21%Z
             (mkNamData "RCH" "m.rch" (Some ModflowRch)) sample_state
             eq_refl).
  reflexivity.
Defined.

Lemma pop_keys_removes_popped_witness :
  exists s',
    pop_keys sample_remove_external sample_state_pop = (Ok tt, s') /\
    map fst (ext_unit_dict s') = [20; 21; 31; 32]%Z.
Proof.
  destruct (pop_keys_removes_popped sample_remove_external sample_state_pop)
    as (s' & E & Hd & _).
  - intros k m. exists m. reflexivity.
  - exists s'. split; [exact E|]. rewrite Hd. reflexivity.
Defined.

Lemma pop_keys_never_raises_witness :
  exists s',
    pop_keys sample_remove_external_bad sample_state_pop = (Ok tt, s') /\
    In (30%Z, mkNamData "DATA(BINARY)" "h.bin" None) (ext_unit_dict s').
Proof.
  destruct (pop_keys_never_raises sample_remove_external_bad
              sample_state_pop)
    as (s' & E & _ & _ & _ & _ & _ & Hr).
  exists s'. split; [exact E|]. apply Hr.
  - vm_compute. right. right. left. reflexivity.
  - intros m. eexists _, _. reflexivity.
Defined.


(** ** Renaming *)

Lemma insert_at_length (pre suf : list string) (x y : string) :
  <[length pre := x]> (pre ++ y :: suf)%list = (pre ++ x :: suf)%list.
Proof.
  induction pre as [|p pre IH]; [reflexivity|].
  cbn. f_equal. exact IH.
Qed.

(** The loop, started after [pre], with at least as many files left as
    extensions. *)
Lemma rename_loop_enough (nm : string) (exts pre suf : list string) :
  (length exts <= length suf)%nat ->
  rename_loop nm (length pre) exts (pre ++ suf)%list
  = ((pre ++ map (fun e => nm +:+ "." +:+ e) exts
      ++ drop (length exts) suf)%list, None).
Proof.
  revert pre suf. induction exts as [|e r IH]; intros pre suf Hlen.
  - reflexivity.
  - destruct suf as [|y suf]; [cbn in Hlen; lia|].
    cbn [rename_loop]. rewrite length_app. cbn [length].
    replace (length pre <? length pre + S (length suf))%nat with true
      by (symmetry; apply Nat.ltb_lt; lia).
    rewrite insert_at_length.
    replace (S (length pre)) with (length (pre ++ [nm +:+ "." +:+ e])%list)
      by (rewrite length_app; cbn; lia).
    replace (pre ++ (nm +:+ "." +:+ e) :: suf)%list
      with ((pre ++ [nm +:+ "." +:+ e]) ++ suf)%list
      by (rewrite <- app_assoc; reflexivity).
    rewrite IH by (cbn in Hlen; lia).
    rewrite <- app_assoc. reflexivity.
Qed.

(** The loop, started after [pre], with fewer files left than
    extensions: it renames the files there are, then raises. *)
Lemma rename_loop_short (nm : string) (exts pre suf : list string) :
  (length suf < length exts)%nat ->
  rename_loop nm (length pre) exts (pre ++ suf)%list
  = ((pre ++ map (fun e => nm +:+ "." +:+ e) (take (length suf) exts))%list,
     Some (mk_exn IndexError index_msg)).
Proof.
  revert pre suf. induction exts as [|e r IH]; intros pre suf Hlen.
  - cbn in Hlen. lia.
  - destruct suf as [|y suf].
    + cbn [rename_loop length take map]. rewrite !app_nil_r, Nat.ltb_irrefl.
      reflexivity.
    + cbn [rename_loop]. rewrite length_app. cbn [length].
      replace (length pre <? length pre + S (length suf))%nat with true
        by (symmetry; apply Nat.ltb_lt; lia).
      rewrite insert_at_length.
      replace (S (length pre)) with (length (pre ++ [nm +:+ "." +:+ e])%list)
        by (rewrite length_app; cbn; lia).
      replace (pre ++ (nm +:+ "." +:+ e) :: suf)%list
        with ((pre ++ [nm +:+ "." +:+ e]) ++ suf)%list
        by (rewrite <- app_assoc; reflexivity).
      rewrite IH by (cbn in Hlen; lia).
      rewrite <- app_assoc. reflexivity.
Qed.

Lemma rename_package_enough (nm : string) (p : Package) :
  (length (extension p) <= length (file_name p))%nat ->
  rename_package nm p = (set_file_name (renamed_files nm p) p, None).
Proof.
  intros H. unfold rename_package, renamed_files.
  pose proof (rename_loop_enough nm (extension p) [] (file_name p) H) as E.
  cbn [length app] in E. rewrite E. reflexivity.
Qed.

Section SetNameFacts.

Variable BaseModel_set_name : string -> Modflow -> outcome.

(** [set_name] when every package has a file name for each of its
    extensions: it returns, and the files of the LIST package, and of the
    GLOBAL package under version mf2k, are renamed to the model's name
    followed by each extension; nothing else of the model changes. *)
Theorem set_name_renames (v : string) (m m1 : Modflow) :
  BaseModel_set_name v m = Returned m1 ->
  (version m1 = "mf2k" ->
   exists g, glo m1 = Some g /\
             (length (extension g) <= length (file_name g))%nat) ->
  (length (extension (lst m1)) <= length (file_name (lst m1)))%nat ->
  set_name BaseModel_set_name v m
  = Returned
      (set_lst
         (set_file_name (renamed_files (model_name m1) (lst m1)) (lst m1))
         (if String.eqb (version m1) "mf2k"
          then set_glo
                 (option_map
                    (fun g =>
                       set_file_name (renamed_files (model_name m1) g) g)
                    (glo m1)) m1
          else m1)).
Proof.
  intros Hb Hglo Hlst. unfold set_name. rewrite Hb.
  destruct (String.eqb_spec (version m1) "mf2k") as [E|E].
  - destruct (Hglo E) as (g & Hg & Hlen). rewrite Hg.
    rewrite (rename_package_enough _ g Hlen).
    cbn [option_map set_glo lst model_name].
    rewrite (rename_package_enough _ (lst m1) Hlst). reflexivity.
  - rewrite (rename_package_enough _ (lst m1) Hlst). reflexivity.
Qed.

(** [set_name] when the LIST package has more extensions than file
    names (version not mf2k): the assignment past the end of the list
    raises [IndexError], and the files renamed before it stay renamed. *)
Theorem set_name_index_error (v : string) (m m1 : Modflow) :
  BaseModel_set_name v m = Returned m1 ->
  version m1 <> "mf2k" ->
  (length (file_name (lst m1)) < length (extension (lst m1)))%nat ->
  set_name BaseModel_set_name v m
  = Raised (mk_exn IndexError index_msg)
      (set_lst
         (set_file_name
            (map (fun e => model_name m1 +:+ "." +:+ e)
               (take (length (file_name (lst m1))) (extension (lst m1))))
            (lst m1))
         m1).
Proof.
  intros Hb Hv Hlen. unfold set_name. rewrite Hb.
  apply String.eqb_neq in Hv. rewrite Hv.
  unfold rename_package.
  pose proof (rename_loop_short (model_name m1) (extension (lst m1)) []
                (file_name (lst m1)) Hlen) as E.
  cbn [length app] in E. rewrite E. reflexivity.
Qed.

End SetNameFacts.

Lemma set_name_renames_witness :
  exists m',
    set_name sample_base_set_name "basin" sample_model = Returned m' /\
    file_name (lst m') = ["basin.list"] /\ model_name m' = "basin".
Proof.
  eexists. split.
  - apply (set_name_renames sample_base_set_name "basin" sample_model
             (set_model_name "basin" sample_model) eq_refl).
    + intros H. vm_compute in H. discriminate H.
    + cbn. lia.
  - split; reflexivity.
Defined.

Lemma set_name_index_error_witness :
  exists m',
    set_name sample_base_set_name "basin" sample_model_short
    = Raised (mk_exn IndexError index_msg) m' /\
    file_name (lst m') = ["basin.list"].
Proof.
  eexists. split.
  - apply (set_name_index_error sample_base_set_name "basin"
             sample_model_short
             (set_model_name "basin" sample_model_short) eq_refl).
    + intros H. vm_compute in H. discriminate H.
    + cbn. lia.
  - reflexivity.
Defined.

(** ** Results *)

Lemma oc_flag_spec (st : OcSettings) (v : string) :
  oc_flag st v
  = {| hext := hext st; dext := dext st; cext := cext st;
       savehead := savehead st || String.eqb (PyStr.lower v) "save head";
       saveddn := saveddn st || String.eqb (PyStr.lower v) "save drawdown";
       savebud := savebud st || String.eqb (PyStr.lower v) "save budget" |}.
Proof.
  unfold oc_flag. destruct st as [h d c sh sd sb]. cbn.
  destruct (String.eqb (PyStr.lower v) "save head");
    destruct (String.eqb (PyStr.lower v) "save drawdown");
    destruct (String.eqb (PyStr.lower v) "save budget");
    cbn; rewrite ?orb_true_r, ?orb_false_r; reflexivity.
Qed.

Lemma oc_flag_list_spec (l : list string) (st : OcSettings) :
  fold_left oc_flag l st
  = {| hext := hext st; dext := dext st; cext := cext st;
       savehead := savehead st
                   || existsb (fun v => String.eqb (PyStr.lower v) "save head") l;
       saveddn := saveddn st
                  || existsb (fun v => String.eqb (PyStr.lower v)
                                         "save drawdown") l;
       savebud := savebud st
                  || existsb (fun v => String.eqb (PyStr.lower v)
                                         "save budget") l |}.
Proof.
  revert st. induction l as [|v l IH]; intros st.
  - destruct st. cbn. rewrite !orb_false_r. reflexivity.
  - cbn [fold_left existsb]. rewrite IH, oc_flag_spec. cbn.
    rewrite !orb_assoc. reflexivity.
Qed.

Lemma oc_flags_spec (items : list (Z * list string)) (st : OcSettings) :
  oc_flags items st
  = {| hext := hext st; dext := dext st; cext := cext st;
       savehead := savehead st || oc_wants "save head" items;
       saveddn := saveddn st || oc_wants "save drawdown" items;
       savebud := savebud st || oc_wants "save budget" items |}.
Proof.
  unfold oc_flags, oc_wants. revert st.
  induction items as [|[k l] items IH]; intros st.
  - destruct st. cbn. rewrite !orb_false_r. reflexivity.
  - cbn [fold_left existsb snd]. rewrite IH, oc_flag_list_spec. cbn.
    rewrite !orb_assoc. reflexivity.
Qed.

Section LoadResultsFacts.

Variable Obj : Type.
Variable get_package : Modflow -> string -> option Package.
Variable stress_period_data : Package -> list (Z * list string).
Variable path_exists : string -> bool.
Variable path_join : string -> string -> string.
Variable HeadFile : string -> result Obj.
Variable CellBudgetFile : string -> result Obj.

(** Without an output-control package, or with one that has fewer than
    four extensions, the exception inside the [try] block is swallowed
    before any flag is set: [load_results] returns three [None]s and
    opens no file, whatever is on disk. *)
Theorem load_results_without_oc (m : Modflow) :
  match get_package m "OC" with
  | None => True
  | Some oc => (length (extension oc) < 4)%nat
  end ->
  load_results Obj get_package stress_period_data path_exists path_join
    HeadFile CellBudgetFile m
  = Ok (None, None, None).
Proof.
  intros H. unfold load_results.
  assert (Hst : savehead (oc_settings get_package stress_period_data m)
                = false /\
                saveddn (oc_settings get_package stress_period_data m)
                = false /\
                savebud (oc_settings get_package stress_period_data m)
                = false).
  { unfold oc_settings. destruct (get_package m "OC") as [oc|]; [|auto].
    destruct (nth_error (extension oc) 1); [|auto].
    destruct (nth_error (extension oc) 2); [|auto].
    destruct (nth_error (extension oc) 3) eqn:E3; [|auto].
    exfalso. assert (nth_error (extension oc) 3 <> None) as Hn by congruence.
    apply nth_error_Some in Hn. lia. }
  destruct Hst as (-> & -> & ->). reflexivity.
Qed.

(** With an output-control package of at least four extensions, what
    [load_results] returns: the head object is read with [HeadFile] from
    the file named by extension 1, and only when some entry of the stress
    period data is "save head" in any letter case and that file exists;
    likewise the drawdown object, read with [HeadFile] too, from
    extension 2 on "save drawdown", and the budget object, read with
    [CellBudgetFile], from extension 3 on "save budget". *)
Theorem load_results_opens (m : Modflow) (oc : Package) (h d c : string)
    (hd dd bd : option Obj) :
  get_package m "OC" = Some oc ->
  nth_error (extension oc) 1 = Some h ->
  nth_error (extension oc) 2 = Some d ->
  nth_error (extension oc) 3 = Some c ->
  load_results Obj get_package stress_period_data path_exists path_join
    HeadFile CellBudgetFile m
  = Ok (hd, dd, bd) ->
  match hd with
  | Some o =>
      oc_wants "save head" (stress_period_data oc) = true /\
      path_exists (result_path path_join m h) = true /\
      HeadFile (result_path path_join m h) = Ok o
  | None =>
      oc_wants "save head" (stress_period_data oc)
      && path_exists (result_path path_join m h) = false
  end /\
  match dd with
  | Some o =>
      oc_wants "save drawdown" (stress_period_data oc) = true /\
      path_exists (result_path path_join m d) = true /\
      HeadFile (result_path path_join m d) = Ok o
  | None =>
      oc_wants "save drawdown" (stress_period_data oc)
      && path_exists (result_path path_join m d) = false
  end /\
  match bd with
  | Some o =>
      oc_wants "save budget" (stress_period_data oc) = true /\
      path_exists (result_path path_join m c) = true /\
      CellBudgetFile (result_path path_join m c) = Ok o
  | None =>
      oc_wants "save budget" (stress_period_data oc)
      && path_exists (result_path path_join m c) = false
  end.
Proof.
  intros Hoc H1 H2 H3. unfold load_results, oc_settings.
  rewrite Hoc, H1, H2, H3, oc_flags_spec.
  cbn [hext dext cext savehead saveddn savebud orb].
  unfold open_if.
  destruct (oc_wants "save head" (stress_period_data oc)
            && path_exists (result_path path_join m h)) eqn:Eh.
  - destruct (HeadFile (result_path path_join m h)) as [oh|e] eqn:Rh;
      [|discriminate].
    destruct (oc_wants "save drawdown" (stress_period_data oc)
              && path_exists (result_path path_join m d)) eqn:Ed.
    + destruct (HeadFile (result_path path_join m d)) as [od|e] eqn:Rd;
        [|discriminate].
      destruct (oc_wants "save budget" (stress_period_data oc)
                && path_exists (result_path path_join m c)) eqn:Ec.
      * destruct (CellBudgetFile (result_path path_join m c))
          as [ob|e] eqn:Rc; [|discriminate].
        intros E. inversion E; subst.
        apply andb_true_iff in Eh, Ed, Ec. tauto.
      * intros E. inversion E; subst.
        apply andb_true_iff in Eh, Ed. tauto.
    + destruct (oc_wants "save budget" (stress_period_data oc)
                && path_exists (result_path path_join m c)) eqn:Ec.
      * destruct (CellBudgetFile (result_path path_join m c))
          as [ob|e] eqn:Rc; [|discriminate].
        intros E. inversion E; subst.
        apply andb_true_iff in Eh, Ec. tauto.
      * intros E. inversion E; subst.
        apply andb_true_iff in Eh. tauto.
  - destruct (oc_wants "save drawdown" (stress_period_data oc)
              && path_exists (result_path path_join m d)) eqn:Ed.
    + destruct (HeadFile (result_path path_join m d)) as [od|e] eqn:Rd;
        [|discriminate].
      destruct (oc_wants "save budget" (stress_period_data oc)
                && path_exists (result_path path_join m c)) eqn:Ec.
      * destruct (CellBudgetFile (result_path path_join m c))
          as [ob|e] eqn:Rc; [|discriminate].
        intros E. inversion E; subst.
        apply andb_true_iff in Ed, Ec. tauto.
      * intros E. inversion E; subst.
        apply andb_true_iff in Ed. tauto.
    + destruct (oc_wants "save budget" (stress_period_data oc)
                && path_exists (result_path path_join m c)) eqn:Ec.
      * destruct (CellBudgetFile (result_path path_join m c))
          as [ob|e] eqn:Rc; [|discriminate].
        intros E. inversion E; subst.
        apply andb_true_iff in Ec. tauto.
      * intros E. inversion E; subst. tauto.
Qed.

End LoadResultsFacts.

Lemma load_results_without_oc_witness :
  load_results string sample_get_package sample_stress_period_data
    sample_path_exists sample_path_join sample_reader sample_reader
    sample_model_dis
  = Ok (None, None, None).
Proof.
  apply (load_results_without_oc string sample_get_package
           sample_stress_period_data sample_path_exists sample_path_join
           sample_reader sample_reader sample_model_dis).
  exact I.
Defined.

Lemma load_results_opens_witness :
  oc_wants "save head" (sample_stress_period_data sample_oc) = true /\
  sample_path_exists (result_path sample_path_join sample_model_oc "hds")
  = true.
Proof.
  destruct (load_results_opens string sample_get_package
              sample_stress_period_data sample_path_exists sample_path_join
              sample_reader sample_reader sample_model_oc sample_oc
              "hds" "ddn" "cbc" (Some "./modflowtest.hds") None None
              eq_refl eq_refl eq_refl eq_refl eq_refl)
    as ((Hw & He & _) & _).
  split; assumption.
Defined.

(** ** Letter case in load_only *)

Lemma upper_ascii_idem (c : ascii) :
  PyStr.upper_ascii (PyStr.upper_ascii c) = PyStr.upper_ascii c.
Proof. destruct c as [[] [] [] [] [] [] [] []]; reflexivity. Qed.

Lemma upper_idem (s : string) : PyStr.upper (PyStr.upper s) = PyStr.upper s.
Proof.
  unfold PyStr.upper. induction s as [|c s IH]; [reflexivity|].
  cbn [PyStr.smap]. rewrite upper_ascii_idem, IH. reflexivity.
Qed.

Lemma missing_tags_upper (t : table) (l : list string) :
  missing_tags t (map PyStr.upper l) = missing_tags t l.
Proof.
  unfold missing_tags. rewrite map_map. f_equal.
  apply map_ext. intros x. apply upper_idem.
Qed.

(** The load_only check does not depend on the letter case of the
    requested tags: a list and its upper-cased form pass together or
    raise the same exception. *)
Theorem load_only_check_ignores_case (t : table) (l : list string) :
  match load_only_list (Some (LoadOnlyList l)) t,
        load_only_list (Some (LoadOnlyList (map PyStr.upper l))) t with
  | Ok _, Ok _ => True
  | Raise e1, Raise e2 => e1 = e2
  | _, _ => False
  end.
Proof.
  rewrite !load_only_list_Some. cbn [load_only_as_list].
  rewrite missing_tags_upper.
  destruct (missing_tags t l); [exact I | reflexivity].
Qed.
